(** * Calino image server: history log and license redemption

    A shallow embedding of the request handlers of the Calino image
    server.  The repository holds the server in successive revisions
    with two storage variants of the history endpoints; both are
    modelled:

    - [FileServer]: the flat-file variant ([server.js]), one JSON array
      per user;
    - [PgServer]: the PostgreSQL variant, with the [user_history] and
      [license_usage] tables.  Its two revisions share the history
      handlers word for word; one of them has the license endpoint.

    Conventions.  JavaScript values that the handlers test for
    truthiness are kept as [jsval]; numbers are integers (the counts and
    page sizes handled here are far below 2^53, where the double
    arithmetic of [Math.ceil(a / b)] is exact); text is ASCII [string],
    with [toLowerCase], [trim] and ILIKE folding acting on ASCII, and
    free of the NUL character, which a PostgreSQL text cannot hold.
    The pool always hands out a connection and the file system accepts
    every write.  A handler is a function from the storage (and the
    request) to the storage and the response; the license handler is
    cut at its awaits into steps, so that two requests can be
    interleaved. *)

From Stdlib Require Import ZArith List String Ascii Bool Lia.
From Stdlib Require Import Permutation Sorted DecimalString.
Import ListNotations.

Local Open Scope string_scope.
Local Open Scope list_scope.

(* ================================================================== *)
(** ** JavaScript values *)
(* ================================================================== *)

Module JS.

(** JSON scalars as they arrive in [req.body]; [JUndefined] is an absent
    property.  Arrays and objects as field values are not modelled. *)
Inductive jsval : Type :=
| JUndefined
| JNull
| JBool (b : bool)
| JNum (z : Z)
| JStr (s : string).

(** ToBoolean: what [!x] and [x || y] test. *)
Definition truthy (v : jsval) : bool :=
  match v with
  | JUndefined | JNull => false
  | JBool b => b
  | JNum z => negb (z =? 0)%Z
  | JStr s => negb (s =? EmptyString)
  end.

Definition string_of_Z (z : Z) : string :=
  NilZero.string_of_int (Z.to_int z).

(** ToString, as used by template literals and property keys. *)
Definition toString (v : jsval) : string :=
  match v with
  | JUndefined => "undefined"
  | JNull => "null"
  | JBool true => "true"
  | JBool false => "false"
  | JNum z => string_of_Z z
  | JStr s => s
  end.

(** Results of [parseInt]: an integer or NaN. *)
Definition parsed := option Z.

Definition mul (a b : parsed) : parsed :=
  match a, b with
  | Some x, Some y => Some (x * y)%Z
  | _, _ => None
  end.

Definition add (a b : parsed) : parsed :=
  match a, b with
  | Some x, Some y => Some (x + y)%Z
  | _, _ => None
  end.

(** Results of a division followed by [Math.ceil]. *)
Inductive jsnum : Type :=
| Num (z : Z)
| NaN
| Infinity.

(** [Math.ceil(a / b)] for a count [a >= 0]. *)
Definition ceil_div (a : Z) (b : parsed) : jsnum :=
  match b with
  | None => NaN
  | Some 0%Z => if (a =? 0)%Z then NaN else Infinity
  | Some n => Num (- ((- a) / n))%Z
  end.

(** [Array.prototype.slice(start, end)]: NaN counts as 0, a negative
    index counts from the end, both are clamped to the length. *)
Definition rel_index (len : Z) (i : parsed) : Z :=
  match i with
  | None => 0%Z
  | Some k => if (k <? 0)%Z then Z.max (len + k) 0 else Z.min k len
  end.

Definition slice {A : Type} (l : list A) (s e : parsed) : list A :=
  let len := Z.of_nat (List.length l) in
  let k := rel_index len s in
  let final := rel_index len e in
  firstn (Z.to_nat (final - k)) (skipn (Z.to_nat k) l).

End JS.
Export JS.

(* ================================================================== *)
(** ** Text: lower-casing, trimming, substring search, LIKE patterns *)
(* ================================================================== *)

Module Text.

(** [toLowerCase] as it acts on ASCII text: it folds [A]-[Z] only. *)
Definition lower_ascii (c : ascii) : ascii :=
  let n := nat_of_ascii c in
  if ((65 <=? n) && (n <=? 90))%nat then ascii_of_nat (n + 32) else c.

Fixpoint toLowerCase (s : string) : string :=
  match s with
  | EmptyString => EmptyString
  | String c s' => String (lower_ascii c) (toLowerCase s')
  end.

Definition is_space (c : ascii) : bool :=
  let n := nat_of_ascii c in
  ((9 <=? n) && (n <=? 13) || (n =? 32))%nat.

Fixpoint trimStart (s : string) : string :=
  match s with
  | EmptyString => EmptyString
  | String c s' => if is_space c then trimStart s' else s
  end.

(** Drops trailing white space: a character is kept when something
    non-blank remains at or after it. *)
Fixpoint trimEnd (s : string) : string :=
  match s with
  | EmptyString => EmptyString
  | String c s' =>
      match trimEnd s' with
      | EmptyString => if is_space c then EmptyString else String c EmptyString
      | r => String c r
      end
  end.

Definition trim (s : string) : string := trimEnd (trimStart s).

Fixpoint startsWith (needle hay : string) : bool :=
  match needle, hay with
  | EmptyString, _ => true
  | String _ _, EmptyString => false
  | String a n', String b h' => Ascii.eqb a b && startsWith n' h'
  end.

(** [hay.includes(needle)] *)
Fixpoint includes (needle hay : string) : bool :=
  startsWith needle hay ||
  match hay with
  | EmptyString => false
  | String _ h' => includes needle h'
  end.

Definition percent : ascii := "%"%char.
Definition underscore : ascii := "_"%char.
Definition backslash : ascii := "\"%char.

(** PostgreSQL LIKE: [%] matches any run of characters, [_] any one
    character, a backslash makes the next pattern character literal.  A
    pattern that ends in a lone backslash is an error in PostgreSQL; the
    handlers only build patterns that end in [%], so that case is
    answered [false] here. *)
Fixpoint like (p t : string) {struct p} : bool :=
  match p with
  | EmptyString => match t with EmptyString => true | String _ _ => false end
  | String c p' =>
      if Ascii.eqb c percent then
        (fix star (u : string) : bool :=
           like p' u ||
           match u with
           | EmptyString => false
           | String _ u' => star u'
           end) t
      else if Ascii.eqb c underscore then
        match t with
        | EmptyString => false
        | String _ t' => like p' t'
        end
      else if Ascii.eqb c backslash then
        match p' with
        | EmptyString => false
        | String e p'' =>
            match t with
            | EmptyString => false
            | String d t' => Ascii.eqb e d && like p'' t'
            end
        end
      else
        match t with
        | EmptyString => false
        | String d t' => Ascii.eqb c d && like p' t'
        end
  end.

(** ILIKE folds the case of pattern and text before matching. *)
Definition ilike (t p : string) : bool :=
  like (toLowerCase p) (toLowerCase t).

End Text.
Export Text.

(* ================================================================== *)
(** ** Requests and responses *)
(* ================================================================== *)

(** [historyItem.timestamp]: falsy, a value that [new Date] reads as an
    instant (epoch milliseconds), or one it reads as an Invalid Date. *)
Inductive ts_field : Type :=
| TsFalsy
| TsDate (ms : Z)
| TsInvalid.

(** The body of [POST /api/history/:userId].  [hi_width] and [hi_height]
    are [historyItem.dimensions?.width] and [.height] read as integers. *)
Record history_item : Type := {
  hi_id : jsval;
  hi_prompt : jsval;
  hi_imageUrl : jsval;
  hi_originalImageUrl : jsval;
  hi_frameId : jsval;
  hi_frameName : jsval;
  hi_quality : jsval;
  hi_width : option Z;
  hi_height : option Z;
  hi_timestamp : ts_field
}.

(** [req.query] of the history listing: [page] and [limit] as
    [parseInt] reads them. *)
Inductive limit_param : Type :=
| LimitAll                (* the string 'all' *)
| LimitEmpty              (* the empty string, which is falsy *)
| LimitNum (n : Z)        (* parseInt gives n; an absent limit is 10 *)
| LimitNaN.               (* any other text: parseInt gives NaN *)

Record history_query : Type := {
  q_page : parsed;        (* parseInt(page); an absent page is 0 *)
  q_limit : limit_param;
  q_search : string       (* a search given once; absent, the empty string *)
}.


Definition parseInt_limit (l : limit_param) : parsed :=
  match l with
  | LimitNum n => Some n
  | LimitAll | LimitEmpty | LimitNaN => None
  end.

(** One element of [items] as the PostgreSQL variant formats it. *)
Record history_entry : Type := {
  e_id : string;
  e_prompt : string;
  e_imageUrl : option string;
  e_originalImageUrl : option string;
  e_frameId : option string;
  e_frameName : option string;
  e_timestamp : Z;
  e_quality : option string;
  e_width : option Z;
  e_height : option Z
}.

Record update_frame_body : Type := {
  uf_itemId : jsval;
  uf_frameId : jsval
}.

Record verify_license_body : Type := {
  vl_productId : jsval;
  vl_licenseKey : jsval;
  vl_userId : jsval
}.

Inductive pg_error : Type :=
| NotNullViolation (column : string)
| UniqueViolation (constraint : string)
| StringTooLong (limit : nat)
| NumericOutOfRange
| InvalidDatetime
| InvalidRowCount.          (* LIMIT / OFFSET negative or not a bigint *)

Inductive body : Type :=
| FilePage (items : list history_item) (totalPages : jsnum)
           (currentPage : parsed) (totalItems : Z)
| HistoryPage (items : list history_entry) (totalPages : jsnum)
              (currentPage : parsed) (totalItems : Z)
| Saved (totalItems : Z)
| FrameUpdated (message : string) (updatedRows : Z)
| FrameNotFound (message : string)
| ErrorBody (error : string) (details : option pg_error)
| LicenseGranted (purchase : option string) (tier flowers tokensGranted : jsval)
| LicenseRefused (message : jsval) (alreadyUsed : bool)
| LicenseFailure (error : string).

Record response : Type := { status : Z; payload : body }.

Definition json (b : body) : response := {| status := 200; payload := b |}.
Definition status_json (code : Z) (b : body) : response :=
  {| status := code; payload := b |}.

(** Outcomes of a storage statement. *)
Inductive result (A : Type) : Type :=
| Ok (a : A)
| Err (e : pg_error).
Arguments Ok {A} a.
Arguments Err {A} e.

Definition bind {A B : Type} (r : result A) (k : A -> result B) : result B :=
  match r with
  | Ok a => k a
  | Err e => Err e
  end.

Notation "x <- r ;; k" := (bind r (fun x => k))
  (at level 61, r at next level, right associativity).

(* ================================================================== *)
(** ** The PostgreSQL store: tables and the statements the handlers run *)
(* ================================================================== *)

Module Pg.

(** [user_history]; [uh_id] is the SERIAL primary key. *)
Record history_row : Type := {
  uh_id : Z;
  uh_user_id : string;
  uh_item_id : string;
  uh_prompt : string;
  uh_image_url : option string;
  uh_original_image_url : option string;
  uh_frame_id : option string;
  uh_frame_name : option string;
  uh_timestamp : Z;
  uh_quality : option string;
  uh_width : option Z;
  uh_height : option Z;
  uh_created_at : Z
}.

(** [license_usage] *)
Record license_row : Type := {
  lu_id : Z;
  lu_license_key : string;
  lu_user_id : string;
  lu_product_id : string;
  lu_product_tier : string;
  lu_flowers_granted : Z;
  lu_activated_at : Z;
  lu_gumroad_data : option string;
  lu_status : string
}.

Record database : Type := {
  user_history : list history_row;
  user_history_id_seq : Z;
  license_usage : list license_row;
  license_usage_id_seq : Z
}.

Definition empty : database :=
  {| user_history := []; user_history_id_seq := 1;
     license_usage := []; license_usage_id_seq := 1 |}.

(** How node-postgres sends a query parameter: [null] and [undefined]
    become NULL, everything else its text. *)
Definition param (v : jsval) : option string :=
  match v with
  | JUndefined | JNull => None
  | _ => Some (toString v)
  end.

Fixpoint all_spaces (s : string) : bool :=
  match s with
  | EmptyString => true
  | String c s' => Ascii.eqb c " "%char && all_spaces s'
  end.

(** Assignment to a VARCHAR(n) column: text beyond [n] characters is an
    error unless the excess is blanks, which are cut off. *)
Definition varchar (n : nat) (s : string) : result string :=
  if (String.length s <=? n)%nat then Ok s
  else if all_spaces (substring n (String.length s - n) s)
       then Ok (substring 0 n s)
       else Err (StringTooLong n).

Definition varchar_null (n : nat) (v : option string) : result (option string) :=
  match v with
  | None => Ok None
  | Some s => s' <- varchar n s ;; Ok (Some s')
  end.

Definition int4_null (v : option Z) : result (option Z) :=
  match v with
  | None => Ok None
  | Some z =>
      if ((- 2147483648 <=? z) && (z <=? 2147483647))%Z then Ok (Some z)
      else Err NumericOutOfRange
  end.

Definition not_null {A : Type} (column : string) (v : option A) : result A :=
  match v with
  | Some a => Ok a
  | None => Err (NotNullViolation column)
  end.

(** The eleven parameters of the history INSERT; [hv_timestamp] is
    [None] for an Invalid Date, whose text PostgreSQL cannot read. *)
Record history_values : Type := {
  hv_user_id : option string;
  hv_item_id : option string;
  hv_prompt : option string;
  hv_image_url : option string;
  hv_original_image_url : option string;
  hv_frame_id : option string;
  hv_frame_name : option string;
  hv_quality : option string;
  hv_width : option Z;
  hv_height : option Z;
  hv_timestamp : option Z
}.

Definition on_conflict_update (item_id prompt : string)
    (image_url original_image_url : option string) (timestamp : Z)
    (r : history_row) : history_row :=
  if uh_item_id r =? item_id then
    {| uh_id := uh_id r;
       uh_user_id := uh_user_id r;
       uh_item_id := uh_item_id r;
       uh_prompt := prompt;
       uh_image_url := image_url;
       uh_original_image_url := original_image_url;
       uh_frame_id := uh_frame_id r;
       uh_frame_name := uh_frame_name r;
       uh_timestamp := timestamp;
       uh_quality := uh_quality r;
       uh_width := uh_width r;
       uh_height := uh_height r;
       uh_created_at := uh_created_at r |}
  else r.

(** INSERT INTO user_history (...) VALUES ($1 .. $11)
    ON CONFLICT (item_id) DO UPDATE SET prompt, image_url,
    original_image_url, timestamp = EXCLUDED.*

    The proposed row is coerced and checked against the column
    constraints before the conflict on [item_id] is looked for; the
    sequence value drawn for [id] is spent in either case.  A statement
    that fails leaves the tables as they were. *)
Definition insert_user_history (now : Z) (d : database) (v : history_values)
    : result database :=
  timestamp <- match hv_timestamp v with
               | Some t => Ok t
               | None => Err InvalidDatetime
               end ;;
  width <- int4_null (hv_width v) ;;
  height <- int4_null (hv_height v) ;;
  user_id <- varchar_null 255 (hv_user_id v) ;;
  item_id <- varchar_null 255 (hv_item_id v) ;;
  frame_id <- varchar_null 255 (hv_frame_id v) ;;
  frame_name <- varchar_null 255 (hv_frame_name v) ;;
  quality <- varchar_null 50 (hv_quality v) ;;
  user_id <- not_null "user_id" user_id ;;
  item_id <- not_null "item_id" item_id ;;
  prompt <- not_null "prompt" (hv_prompt v) ;;
  let rows := user_history d in
  let rows' :=
    if existsb (fun r => uh_item_id r =? item_id) rows then
      map (on_conflict_update item_id prompt (hv_image_url v)
             (hv_original_image_url v) timestamp) rows
    else
      rows ++ [ {| uh_id := user_history_id_seq d;
                   uh_user_id := user_id;
                   uh_item_id := item_id;
                   uh_prompt := prompt;
                   uh_image_url := hv_image_url v;
                   uh_original_image_url := hv_original_image_url v;
                   uh_frame_id := frame_id;
                   uh_frame_name := frame_name;
                   uh_timestamp := timestamp;
                   uh_quality := quality;
                   uh_width := width;
                   uh_height := height;
                   uh_created_at := now |} ] in
  Ok {| user_history := rows';
        user_history_id_seq := user_history_id_seq d + 1;
        license_usage := license_usage d;
        license_usage_id_seq := license_usage_id_seq d |}.

Definition of_user (user_id : string) (r : history_row) : bool :=
  uh_user_id r =? user_id.

(** SELECT COUNT( * ) FROM user_history WHERE user_id = $1 *)
Definition count_user_history (d : database) (user_id : string) : Z :=
  Z.of_nat (List.length (filter (of_user user_id) (user_history d))).

(** ORDER BY timestamp DESC, as a stable insertion sort: rows with equal
    timestamps keep their table order (PostgreSQL leaves the order of
    ties open). *)
Fixpoint insert_desc (r : history_row) (l : list history_row) : list history_row :=
  match l with
  | [] => [r]
  | x :: l' =>
      if (uh_timestamp x <=? uh_timestamp r)%Z then r :: x :: l'
      else x :: insert_desc r l'
  end.

Definition order_by_timestamp_desc (l : list history_row) : list history_row :=
  fold_right insert_desc [] l.

Definition id_in (ids : list Z) (r : history_row) : bool :=
  existsb (Z.eqb (uh_id r)) ids.

(** DELETE FROM user_history WHERE user_id = $1 AND id NOT IN
      (SELECT id FROM user_history WHERE user_id = $2
       ORDER BY timestamp DESC LIMIT 50) *)
Definition delete_beyond_limit (d : database) (user_id1 user_id2 : string)
    : database :=
  let keep :=
    map uh_id
      (firstn 50 (order_by_timestamp_desc
                    (filter (of_user user_id2) (user_history d)))) in
  {| user_history :=
       filter (fun r => negb (of_user user_id1 r && negb (id_in keep r)))
              (user_history d);
     user_history_id_seq := user_history_id_seq d;
     license_usage := license_usage d;
     license_usage_id_seq := license_usage_id_seq d |}.

Definition set_frame_id (frame_id : option string) (user_id item_id : string)
    (r : history_row) : history_row :=
  if (uh_user_id r =? user_id) && (uh_item_id r =? item_id) then
    {| uh_id := uh_id r;
       uh_user_id := uh_user_id r;
       uh_item_id := uh_item_id r;
       uh_prompt := uh_prompt r;
       uh_image_url := uh_image_url r;
       uh_original_image_url := uh_original_image_url r;
       uh_frame_id := frame_id;
       uh_frame_name := uh_frame_name r;
       uh_timestamp := uh_timestamp r;
       uh_quality := uh_quality r;
       uh_width := uh_width r;
       uh_height := uh_height r;
       uh_created_at := uh_created_at r |}
  else r.

(** UPDATE user_history SET frame_id = $1 WHERE user_id = $2 AND
    item_id = $3; gives the new tables and [rowCount].  A NULL in $2 or
    $3 matches no row. *)
Definition update_frame_id (d : database) (frame_id user_id item_id : option string)
    : result (database * Z) :=
  frame_id <- varchar_null 255 frame_id ;;
  match user_id, item_id with
  | Some u, Some i =>
      let hit r := (uh_user_id r =? u) && (uh_item_id r =? i) in
      Ok ({| user_history := map (set_frame_id frame_id u i) (user_history d);
             user_history_id_seq := user_history_id_seq d;
             license_usage := license_usage d;
             license_usage_id_seq := license_usage_id_seq d |},
          Z.of_nat (List.length (filter hit (user_history d))))
  | _, _ => Ok (d, 0%Z)
  end.

(** The rows selected by WHERE user_id = $1 [AND prompt ILIKE $2]. *)
Definition matching (d : database) (user_id : string) (pattern : option string)
    : list history_row :=
  filter (fun r => of_user user_id r &&
                   match pattern with
                   | Some p => ilike (uh_prompt r) p
                   | None => true
                   end)
         (user_history d).

Definition bigint (z : Z) : bool :=
  ((- 9223372036854775808 <=? z) && (z <=? 9223372036854775807))%Z.

(** LIMIT $n OFFSET $m on an ordered result. *)
Definition limit_offset {A : Type} (rows : list A) (lim off : parsed)
    : result (list A) :=
  match lim, off with
  | Some n, Some m =>
      if bigint n && bigint m && (0 <=? n)%Z && (0 <=? m)%Z
      then Ok (firstn (Z.to_nat n) (skipn (Z.to_nat m) rows))
      else Err InvalidRowCount
  | _, _ => Err InvalidRowCount
  end.

(** SELECT * FROM license_usage WHERE license_key = $1 *)
Definition select_license (d : database) (license_key : option string)
    : list license_row :=
  match license_key with
  | Some k => filter (fun r => lu_license_key r =? k) (license_usage d)
  | None => []
  end.

Record license_values : Type := {
  lv_license_key : option string;
  lv_user_id : option string;
  lv_product_id : option string;
  lv_product_tier : option string;
  lv_flowers_granted : option Z;
  lv_gumroad_data : option string
}.

(** INSERT INTO license_usage (license_key, user_id, product_id,
    product_tier, flowers_granted, gumroad_data) VALUES ($1 .. $6);
    [license_key] is UNIQUE, [activated_at] and [status] take their
    defaults. *)
Definition insert_license_usage (now : Z) (d : database) (v : license_values)
    : result database :=
  flowers <- int4_null (lv_flowers_granted v) ;;
  license_key <- varchar_null 255 (lv_license_key v) ;;
  user_id <- varchar_null 255 (lv_user_id v) ;;
  product_id <- varchar_null 255 (lv_product_id v) ;;
  product_tier <- varchar_null 50 (lv_product_tier v) ;;
  license_key <- not_null "license_key" license_key ;;
  user_id <- not_null "user_id" user_id ;;
  product_id <- not_null "product_id" product_id ;;
  product_tier <- not_null "product_tier" product_tier ;;
  flowers <- not_null "flowers_granted" flowers ;;
  if existsb (fun r => lu_license_key r =? license_key) (license_usage d) then
    Err (UniqueViolation "license_usage_license_key_key")
  else
    Ok {| user_history := user_history d;
          user_history_id_seq := user_history_id_seq d;
          license_usage :=
            license_usage d ++
            [ {| lu_id := license_usage_id_seq d;
                 lu_license_key := license_key;
                 lu_user_id := user_id;
                 lu_product_id := product_id;
                 lu_product_tier := product_tier;
                 lu_flowers_granted := flowers;
                 lu_activated_at := now;
                 lu_gumroad_data := lv_gumroad_data v;
                 lu_status := "active" |} ];
          license_usage_id_seq := license_usage_id_seq d + 1 |}.

(** ORDER BY activated_at DESC on [license_usage], stable like
    [order_by_timestamp_desc]. *)
Fixpoint insert_by_activation (r : license_row) (l : list license_row)
    : list license_row :=
  match l with
  | [] => [r]
  | x :: l' =>
      if (lu_activated_at x <=? lu_activated_at r)%Z then r :: x :: l'
      else x :: insert_by_activation r l'
  end.

Definition order_by_activated_at_desc (l : list license_row) : list license_row :=
  fold_right insert_by_activation [] l.

End Pg.

(* ================================================================== *)
(** ** The flat-file variant ([server.js]) *)
(* ================================================================== *)

Module FileServer.

(** [history-data/<userId>.json]: the stored array of each user, or
    nothing when the file does not exist.  User ids are taken to name
    distinct files. *)
Definition store : Type := string -> option (list history_item).

Definition no_files : store := fun _ => None.

(** The user ids for which this is exact: those that
    [path.join(historyDataPath, userId + '.json')] takes to a file of
    their own directly inside [history-data].  Such an id has no [/]
    (the join resolves [x/../b] to the file of [b], and writing below a
    directory that does not exist fails), and with [.json] it fits the
    255 bytes of a file name. *)
Definition file_name_ok (userId : string) : bool :=
  negb (includes "/" userId) && (String.length userId + 5 <=? 255)%nat.

(** [JSON.parse(await fs.readFile(...))], with the [catch] that turns a
    missing file into the empty history. *)
Definition readHistory (fs : store) (userId : string) : list history_item :=
  match fs userId with
  | Some history => history
  | None => []
  end.

Definition writeFile (fs : store) (userId : string) (history : list history_item)
    : store :=
  fun u => if u =? userId then Some history else fs u.

(** [history.filter(item => item.prompt.toLowerCase().includes(searchLower))];
    [None] when the callback throws because some [item.prompt] is not a
    string. *)
Fixpoint filter_prompt (searchLower : string) (history : list history_item)
    : option (list history_item) :=
  match history with
  | [] => Some []
  | item :: rest =>
      match hi_prompt item with
      | JStr p =>
          match filter_prompt searchLower rest with
          | Some kept =>
              Some (if includes searchLower (toLowerCase p)
                    then item :: kept else kept)
          | None => None
          end
      | _ => None
      end
  end.

(** GET /api/history/:userId *)
Definition get_history (fs : store) (userId : string) (q : history_query)
    : response :=
  let history := readHistory fs userId in
  let search := q_search q in
  let filtered :=
    if truthy (JStr search) then filter_prompt (toLowerCase search) history
    else Some history in
  match filtered with
  | None => status_json 500 (ErrorBody "Failed to get history" None)
  | Some filteredHistory =>
      let limit := parseInt_limit (q_limit q) in
      let startIndex := mul (q_page q) limit in
      let endIndex := add startIndex limit in
      json (FilePage (slice filteredHistory startIndex endIndex)
                     (ceil_div (Z.of_nat (List.length filteredHistory)) limit)
                     (q_page q)
                     (Z.of_nat (List.length history)))
  end.

(** POST /api/history/:userId: the item goes to the front and the first
    200 are kept. *)
Definition post_history (fs : store) (userId : string) (historyItem : history_item)
    : store * response :=
  let history := historyItem :: readHistory fs userId in
  let history := firstn 200 history in
  (writeFile fs userId history,
   json (Saved (Z.of_nat (List.length history)))).


End FileServer.

(* ================================================================== *)
(** ** The PostgreSQL variant *)
(* ================================================================== *)

Module PgServer.
Import Pg.

Definition format_row (row : history_row) : history_entry :=
  {| e_id := uh_item_id row;
     e_prompt := uh_prompt row;
     e_imageUrl := uh_image_url row;
     e_originalImageUrl := uh_original_image_url row;
     e_frameId := uh_frame_id row;
     e_frameName := uh_frame_name row;
     e_timestamp := uh_timestamp row;
     e_quality := uh_quality row;
     e_width := uh_width row;
     e_height := uh_height row |}.

(** [search && search.trim()] decides whether the ILIKE clause is added;
    its parameter is the trimmed text between two [%]. *)
Definition search_pattern (search : string) : option string :=
  if truthy (JStr search) && truthy (JStr (trim search))
  then Some ("%" ++ trim search ++ "%")%string
  else None.

(** GET /api/history/:userId *)
Definition get_history (d : database) (userId : string) (q : history_query)
    : response :=
  let pattern := search_pattern (q_search q) in
  let ordered := order_by_timestamp_desc (matching d userId pattern) in
  let result :=
    match q_limit q with
    | LimitAll | LimitEmpty => Ok ordered
    | LimitNum _ | LimitNaN =>
        let limitNum := parseInt_limit (q_limit q) in
        let offsetNum := mul (q_page q) limitNum in
        limit_offset ordered limitNum offsetNum
    end in
  match result with
  | Err _ => status_json 500 (ErrorBody "Failed to get history" None)
  | Ok rows =>
      let totalItems := Z.of_nat (List.length (matching d userId pattern)) in
      let limitNum :=
        match q_limit q with
        | LimitAll => Some totalItems
        | _ => parseInt_limit (q_limit q)
        end in
      json (HistoryPage (map format_row rows) (ceil_div totalItems limitNum)
                        (q_page q) totalItems)
  end.

Definition history_params (now : Z) (userId : string) (historyItem : history_item)
    : history_values :=
  {| hv_user_id := Some userId;
     hv_item_id := param (hi_id historyItem);
     hv_prompt := param (hi_prompt historyItem);
     hv_image_url := param (hi_imageUrl historyItem);
     hv_original_image_url := param (hi_originalImageUrl historyItem);
     hv_frame_id := param (hi_frameId historyItem);
     hv_frame_name := param (hi_frameName historyItem);
     hv_quality := param (hi_quality historyItem);
     hv_width := hi_width historyItem;
     hv_height := hi_height historyItem;
     hv_timestamp :=
       match hi_timestamp historyItem with
       | TsFalsy => Some now
       | TsDate ms => Some ms
       | TsInvalid => None
       end |}.

(** POST /api/history/:userId: the upsert, then the count, then the
    rolling limit; the count that was read before the DELETE is what the
    response carries. *)
Definition post_history (now : Z) (d : database) (userId : string)
    (historyItem : history_item) : database * response :=
  match insert_user_history now d (history_params now userId historyItem) with
  | Err e =>
      (d, status_json 500 (ErrorBody "Failed to save history" (Some e)))
  | Ok d1 =>
      let countResult := count_user_history d1 userId in
      let d2 := delete_beyond_limit d1 userId userId in
      (d2, json (Saved countResult))
  end.

(** POST /api/history/:userId/update-frame *)
Definition post_update_frame (d : database) (userId : string)
    (b : update_frame_body) : database * response :=
  let itemId := uf_itemId b in
  let frameId := uf_frameId b in
  if negb (truthy itemId) || negb (truthy frameId) then
    (d, status_json 400 (ErrorBody "itemId and frameId are required" None))
  else
    match update_frame_id d (param frameId) (Some userId) (param itemId) with
    | Err e =>
        (d, status_json 500 (ErrorBody "Failed to update frame ID" (Some e)))
    | Ok (d', rowCount) =>
        if (0 <? rowCount)%Z then
          (d', json (FrameUpdated
                      ("Updated frameId for item " ++ toString itemId)%string
                      rowCount))
        else
          (d', status_json 404
                 (FrameNotFound ("No history item found with id " ++
                                 toString itemId ++ " for user " ++
                                 userId)%string))
    end.

(** *** License redemption *)

(** What the call to the Gumroad verifier gives: [fetch] or
    [response.json()] throws, or a JSON body arrives, of which
    [response.ok], the truth of [data.success], [data.message] and the
    text of [data.purchase] are read. *)
Inductive fetch_outcome : Type :=
| FetchThrows
| FetchJson (ok success : bool) (message : jsval) (purchase : option string).

Record env : Type := {
  GUMROAD_ACCESS_TOKEN : option string;
  (** access token, product id, license key *)
  gumroad_verify : string -> string -> string -> fetch_outcome;
  toLocaleDateString : Z -> string
}.

(** The storage and the requests sent to the verifier so far, as
    (product id, license key) pairs, latest first. *)
Record world : Type := {
  db : database;
  gumroad_calls : list (string * string)
}.

Record product_info : Type := { tier : jsval; flowers : jsval }.

Definition productTierMap : list (string * product_info) :=
  [ ("2FqGqjM16Jjs0NDRtncN4g==", {| tier := JStr "starter"; flowers := JNum 50 |});
    ("wIY3NX2VLnJ48nTz0ZVTIA==", {| tier := JStr "creator"; flowers := JNum 130 |});
    ("711rWT3AqbdSnNL0p9MxIw==", {| tier := JStr "pro"; flowers := JNum 300 |}) ].

(** The properties every object literal inherits from
    [Object.prototype]; each is a function or an object, so truthy, and
    has neither a [tier] nor a [flowers] property. *)
Definition Object_prototype : list string :=
  [ "constructor"; "__proto__"; "hasOwnProperty"; "isPrototypeOf";
    "propertyIsEnumerable"; "toLocaleString"; "toString"; "valueOf";
    "__defineGetter__"; "__defineSetter__"; "__lookupGetter__";
    "__lookupSetter__" ].

Fixpoint own_property (key : string) (o : list (string * product_info))
    : option product_info :=
  match o with
  | [] => None
  | (k, v) :: o' => if k =? key then Some v else own_property key o'
  end.

(** [productTierMap[productId] || { tier: 'unknown', flowers: 0 }] *)
Definition productInfo (productId : jsval) : product_info :=
  let key := toString productId in
  match own_property key productTierMap with
  | Some info => info
  | None =>
      if existsb (String.eqb key) Object_prototype
      then {| tier := JUndefined; flowers := JUndefined |}
      else {| tier := JStr "unknown"; flowers := JNum 0 |}
  end.

Definition int_param (v : jsval) : option Z :=
  match v with
  | JNum z => Some z
  | _ => None
  end.

Definition internal_error : response :=
  status_json 500 (LicenseFailure "Internal server error during license verification").

Definition already_used (e : env) (usage : license_row) : response :=
  json (LicenseRefused
          (JStr ("This license key has already been activated on " ++
                 toLocaleDateString e (lu_activated_at usage) ++
                 " by user " ++ lu_user_id usage ++
                 ". Each license can only be used once.")%string)
          true).

(** A request to POST /api/verify-license between two of its awaits. *)
Inductive task : Type :=
| Received (b : verify_license_body)
| Fetching (b : verify_license_body)
| Inserting (b : verify_license_body) (purchase : option string)
| Responded (r : response).

Definition configured (token : option string) : bool :=
  match token with
  | Some t => truthy (JStr t)
  | None => false
  end.

(** Validation, the SELECT on [license_usage] and the token check. *)
Definition lookup_phase (e : env) (w : world) (b : verify_license_body)
    : world * task :=
  if negb (truthy (vl_productId b)) || negb (truthy (vl_licenseKey b))
     || negb (truthy (vl_userId b)) then
    (w, Responded (status_json 400
          (ErrorBody "productId, licenseKey, and userId are required" None)))
  else
    match select_license (db w) (param (vl_licenseKey b)) with
    | usage :: _ => (w, Responded (already_used e usage))
    | [] =>
        if configured (GUMROAD_ACCESS_TOKEN e) then (w, Fetching b)
        else (w, Responded (status_json 500
                 (ErrorBody "Gumroad access token not configured" None)))
    end.

(** The request to the verifier and the reading of its answer. *)
Definition verify_phase (e : env) (w : world) (b : verify_license_body)
    : world * task :=
  let product_id := toString (vl_productId b) in
  let license_key := toString (vl_licenseKey b) in
  let token := match GUMROAD_ACCESS_TOKEN e with Some t => t | None => EmptyString end in
  let w' := {| db := db w;
               gumroad_calls := (product_id, license_key) :: gumroad_calls w |} in
  match gumroad_verify e token product_id license_key with
  | FetchThrows => (w', Responded internal_error)
  | FetchJson ok success message purchase =>
      if ok && success then (w', Inserting b purchase)
      else (w', Responded (json (LicenseRefused
              (if truthy message then message
               else JStr "License verification failed with Gumroad")
              false)))
  end.

(** The tier lookup and the INSERT; an error of the INSERT is rethrown
    to the outer [catch]. *)
Definition insert_phase (now : Z) (w : world) (b : verify_license_body)
    (purchase : option string) : world * task :=
  let info := productInfo (vl_productId b) in
  match insert_license_usage now (db w)
          {| lv_license_key := param (vl_licenseKey b);
             lv_user_id := param (vl_userId b);
             lv_product_id := param (vl_productId b);
             lv_product_tier := param (tier info);
             lv_flowers_granted := int_param (flowers info);
             lv_gumroad_data := purchase |} with
  | Err _ => (w, Responded internal_error)
  | Ok d' =>
      ({| db := d'; gumroad_calls := gumroad_calls w |},
       Responded (json (LicenseGranted purchase (tier info) (flowers info)
                                       (flowers info))))
  end.

(** One step of a request: the code between two awaits. *)
Definition step (e : env) (now : Z) (w : world) (t : task) : world * task :=
  match t with
  | Received b => lookup_phase e w b
  | Fetching b => verify_phase e w b
  | Inserting b purchase => insert_phase now w b purchase
  | Responded r => (w, Responded r)
  end.

(** POST /api/verify-license handled with no other request in between. *)
Definition post_verify_license (e : env) (now : Z) (w : world)
    (b : verify_license_body) : world * task :=
  let '(w1, t1) := step e now w (Received b) in
  let '(w2, t2) := step e now w1 t1 in
  step e now w2 t2.

(** Two requests in flight; a schedule names, step by step, which of
    them runs next and at what time. *)
Record pair : Type := { shared : world; first : task; second : task }.

Definition step_pair (e : env) (c : pair) (turn : bool * Z) : pair :=
  let '(who, now) := turn in
  if who then
    let '(w, t) := step e now (shared c) (first c) in
    {| shared := w; first := t; second := second c |}
  else
    let '(w, t) := step e now (shared c) (second c) in
    {| shared := w; first := first c; second := t |}.

Definition run_pair (e : env) (schedule : list (bool * Z)) (c : pair) : pair :=
  fold_left (step_pair e) schedule c.

(** *** The listing of redemptions *)

(** One row of GET /api/admin/licenses. *)
Record license_entry : Type := {
  le_license_key : string;
  le_user_id : string;
  le_product_tier : string;
  le_flowers_granted : Z;
  le_activated_at : Z;
  le_status : string;
  le_product_name : option string;
  le_email : option string
}.

(** Its answers: 200 with the page, or 500 with
    [error: 'Failed to get license usage']. *)
Inductive licenses_response : Type :=
| LicensesPage (licenses : list license_entry) (totalItems : Z)
               (totalPages : jsnum) (currentPage : parsed)
| LicensesError.

(** The select list; [field] is the [->>] of PostgreSQL on the stored
    JSON text, given the text and a key. *)
Definition license_columns (field : string -> string -> option string)
    (r : license_row) : license_entry :=
  let of_data key :=
    match lu_gumroad_data r with
    | Some data => field data key
    | None => None
    end in
  {| le_license_key := lu_license_key r;
     le_user_id := lu_user_id r;
     le_product_tier := lu_product_tier r;
     le_flowers_granted := lu_flowers_granted r;
     le_activated_at := lu_activated_at r;
     le_status := lu_status r;
     le_product_name := of_data "product_name";
     le_email := of_data "email" |}.

(** GET /api/admin/licenses; [page] and [limit] as [parseInt] reads
    them, an absent page being 0 and an absent limit 50. *)
Definition get_admin_licenses (field : string -> string -> option string)
    (d : database) (page limit : parsed) : licenses_response :=
  let offset := mul page limit in
  match limit_offset (order_by_activated_at_desc (license_usage d))
                     limit offset with
  | Err _ => LicensesError
  | Ok rows =>
      let totalItems := Z.of_nat (List.length (license_usage d)) in
      LicensesPage (map (license_columns field) rows) totalItems
                   (ceil_div totalItems limit) page
  end.

End PgServer.

(* ================================================================== *)
(** ** Vocabulary of the statements *)
(* ================================================================== *)

Import Pg PgServer.

(** *** Search *)

Definition special (c : ascii) : bool :=
  Ascii.eqb c percent || Ascii.eqb c underscore || Ascii.eqb c backslash.

(** Text without LIKE metacharacters. *)
Fixpoint plain (s : string) : bool :=
  match s with
  | EmptyString => true
  | String c s' => negb (special c) && plain s'
  end.

(** [hay] contains [needle] as a literal substring, up to case. *)
Definition contains_ci (needle hay : string) : Prop :=
  exists pre post,
    toLowerCase hay = (pre ++ toLowerCase needle ++ post)%string.

(** The rows a page holds: all of them without LIMIT, else the window
    LIMIT n OFFSET page * n. *)
Definition window {A : Type} (q : history_query) (rows : list A) : list A :=
  match q_limit q, q_page q with
  | LimitAll, _ | LimitEmpty, _ => rows
  | LimitNum n, Some p => firstn (Z.to_nat n) (skipn (Z.to_nat (p * n)) rows)
  | _, _ => []
  end.

Definition prompt_includes (searchLower : string) (item : history_item) : bool :=
  match hi_prompt item with
  | JStr p => includes searchLower (toLowerCase p)
  | _ => false
  end.

(** The records the flat-file listing pages over. *)
Definition file_eligible (search : string) (history : list history_item)
    : list history_item :=
  if truthy (JStr search)
  then filter (prompt_includes (toLowerCase search)) history
  else history.

(** Text within ASCII: there the folding of [toLowerCase] is that of
    JavaScript's [toLowerCase] and of ILIKE. *)
Definition ascii_char (c : ascii) : bool := (nat_of_ascii c <? 128)%nat.

Fixpoint ascii_text (s : string) : bool :=
  match s with
  | EmptyString => true
  | String c s' => ascii_char c && ascii_text s'
  end.

(** The rows of a user that a search text makes eligible: those whose
    prompt contains the text up to case, and all of them when the text
    is empty. *)
Definition contains_text (text : string) (r : history_row) : bool :=
  (text =? EmptyString)%string ||
  includes (toLowerCase text) (toLowerCase (uh_prompt r)).

Definition literal_rows (d : database) (userId text : string) : list history_row :=
  filter (fun r => of_user userId r && contains_text text r) (user_history d).

(** *** History *)

Definition newer_or_equal (x y : history_row) : Prop :=
  (uh_timestamp y <= uh_timestamp x)%Z.

Definition user_rows (d : database) (user_id : string) : list history_row :=
  filter (of_user user_id) (user_history d).

Definition has_item (item_id : string) (r : history_row) : bool :=
  uh_item_id r =? item_id.

(** What the schema of [user_history] guarantees: [id] is a key drawn
    from the sequence, [item_id] is UNIQUE and fits VARCHAR(255). *)
Definition well_formed (d : database) : Prop :=
  NoDup (map uh_id (user_history d)) /\
  NoDup (map uh_item_id (user_history d)) /\
  Forall (fun r => (uh_id r < user_history_id_seq d)%Z /\
                   (String.length (uh_item_id r) <= 255)%nat)
         (user_history d).

(** The [item_id] under which a history item is stored: its text, cut to
    the column width where that is allowed. *)
Definition stored_item_id (historyItem : history_item) : option string :=
  match param (hi_id historyItem) with
  | Some s => match varchar 255 s with Ok s' => Some s' | Err _ => None end
  | None => None
  end.

Definition fresh_item (d : database) (historyItem : history_item) : Prop :=
  forall r, In r (user_history d) ->
            Some (uh_item_id r) <> stored_item_id historyItem.

(** *** License redemption *)

Definition is_granted (r : response) : bool :=
  match payload r with
  | LicenseGranted _ _ _ _ => true
  | _ => false
  end.

Definition is_already_used (r : response) : bool :=
  match payload r with
  | LicenseRefused _ alreadyUsed => alreadyUsed
  | _ => false
  end.

(** The verifier confirms the key of a request. *)
Definition confirms (e : env) (b : verify_license_body) : Prop :=
  exists message purchase,
    gumroad_verify e
      (match GUMROAD_ACCESS_TOKEN e with Some t => t | None => EmptyString end)
      (toString (vl_productId b)) (toString (vl_licenseKey b))
    = FetchJson true true message purchase.

Definition has_key (k : string) (r : license_row) : bool :=
  lu_license_key r =? k.

Definition grants (t : task) : nat :=
  match t with
  | Responded r => if is_granted r then 1 else 0
  | _ => 0
  end.

(** The answers a request can get once it is past the lookup. *)
Definition outcome_ok (e : env) (b : verify_license_body) (r : response) : Prop :=
  is_already_used r = false /\
  (is_granted r = true \/ r = internal_error \/
   (~ confirms e b /\ is_granted r = false)).

Definition task_ok (e : env) (b : verify_license_body) (t : task) : Prop :=
  t = Fetching b \/ (exists p, t = Inserting b p) \/
  (exists r, t = Responded r /\ outcome_ok e b r).

(** Whether the key, as the column would hold it, is in the table. *)
Definition key_stored (k : string) (rows : list license_row) (present : bool)
    : Prop :=
  exists k', varchar 255 k = Ok k' /\ existsb (has_key k') rows = present.

(** The invariant of two requests for one key racing from the lookup
    on; [n0] is the size of [license_usage] when both had passed it. *)
Definition race_inv (e : env) (b1 b2 : verify_license_body) (n0 : nat)
    (c : pair) : Prop :=
  task_ok e b1 (first c) /\ task_ok e b2 (second c) /\
  List.length (license_usage (db (shared c))) =
    (n0 + grants (first c) + grants (second c))%nat /\
  (grants (first c) + grants (second c) <= 1)%nat /\
  ((grants (first c) + grants (second c) = 1)%nat ->
   key_stored (toString (vl_licenseKey b1))
              (license_usage (db (shared c))) true).

(** The world once the verifier has been asked about a request. *)
Definition asked (w : world) (b : verify_license_body) : world :=
  {| db := db w;
     gumroad_calls :=
       (toString (vl_productId b), toString (vl_licenseKey b))
       :: gumroad_calls w |}.

(** What the verifier answers to a request. *)
Definition verdict (e : env) (b : verify_license_body) : fetch_outcome :=
  gumroad_verify e
    (match GUMROAD_ACCESS_TOKEN e with Some t => t | None => EmptyString end)
    (toString (vl_productId b)) (toString (vl_licenseKey b)).

(** A request that passes validation and finds its key unused and the
    access token configured. *)
Definition passes_lookup (e : env) (w : world) (b : verify_license_body)
    : Prop :=
  truthy (vl_productId b) = true /\ truthy (vl_licenseKey b) = true /\
  truthy (vl_userId b) = true /\
  select_license (db w) (param (vl_licenseKey b)) = [] /\
  configured (GUMROAD_ACCESS_TOKEN e) = true.

(** *** Further vocabulary: listings, pages, stored values *)

Definition with_search (q : history_query) (text : string) : history_query :=
  {| q_page := q_page q; q_limit := q_limit q; q_search := text |}.

(** The whole listing of a user for a search text, newest first. *)
Definition listing (d : database) (userId search : string)
    : list history_entry :=
  map format_row
      (order_by_timestamp_desc (matching d userId (search_pattern search))).


(** Page numbers and sizes whose LIMIT and OFFSET PostgreSQL takes. *)
Definition paging_ok (p n : Z) : Prop :=
  (0 < n <= 9223372036854775807)%Z /\ (0 <= p)%Z /\
  (p * n <= 9223372036854775807)%Z.


(** The timestamp a history item is stored with at time [now]. *)
Definition stored_timestamp (now : Z) (historyItem : history_item) : Z :=
  match hi_timestamp historyItem with
  | TsDate ms => ms
  | TsFalsy | TsInvalid => now
  end.




(** The tables after a sequence of appends, each by a user at a time,
    whatever their responses. *)
Fixpoint run_appends (requests : list (Z * string * history_item))
    (d : database) : database :=
  match requests with
  | [] => d
  | (now, userId, historyItem) :: rest =>
      run_appends rest (fst (PgServer.post_history now d userId historyItem))
  end.

(* ================================================================== *)
(** ** Sample data *)
(* ================================================================== *)

Module Fixtures.

Definition sample_item (n : nat) (prompt : string) : history_item :=
  {| hi_id := JStr ("item-" ++ string_of_Z (Z.of_nat n))%string;
     hi_prompt := JStr prompt;
     hi_imageUrl := JStr "https://example.test/a.png";
     hi_originalImageUrl := JUndefined;
     hi_frameId := JUndefined;
     hi_frameName := JUndefined;
     hi_quality := JStr "high";
     hi_width := Some 512%Z;
     hi_height := Some 512%Z;
     hi_timestamp := TsDate (Z.of_nat n) |}.

Definition item_without_prompt : history_item :=
  {| hi_id := JStr "item-1";
     hi_prompt := JUndefined;
     hi_imageUrl := JStr "https://example.test/a.png";
     hi_originalImageUrl := JUndefined;
     hi_frameId := JUndefined;
     hi_frameName := JUndefined;
     hi_quality := JUndefined;
     hi_width := None;
     hi_height := None;
     hi_timestamp := TsDate 1 |}.

(** The tables after ["user-1"] appended items 1 to [n]. *)
Fixpoint filled (n : nat) : database :=
  match n with
  | O => Pg.empty
  | S k => fst (PgServer.post_history 0 (filled k) "user-1"
                  (sample_item (S k) "a red cat"))
  end.

(** The files after ["user-1"] appended items 1 to [n]. *)
Fixpoint filled_files (n : nat) : FileServer.store :=
  match n with
  | O => FileServer.no_files
  | S k => fst (FileServer.post_history (filled_files k) "user-1"
                  (sample_item (S k) "a red cat"))
  end.

(** Two prompts, as in the search example of the specification. *)
Definition cat_and_dog : database :=
  fst (PgServer.post_history 0
         (fst (PgServer.post_history 0 Pg.empty "user-1" (sample_item 1 "a red cat")))
         "user-1" (sample_item 2 "a blue dog")).

Definition cat_and_dog_files : FileServer.store :=
  fst (FileServer.post_history
         (fst (FileServer.post_history FileServer.no_files "user-1"
                 (sample_item 1 "a red cat")))
         "user-1" (sample_item 2 "a blue dog")).

Definition search_for (text : string) : history_query :=
  {| q_page := Some 0%Z; q_limit := LimitNum 10; q_search := text |}.

(** A verifier that confirms every key. *)
Definition gumroad_ok : env :=
  {| GUMROAD_ACCESS_TOKEN := Some "token";
     gumroad_verify := fun _ _ _ => FetchJson true true JUndefined (Some "{}");
     toLocaleDateString := string_of_Z |}.

Definition fresh_world : world := {| db := Pg.empty; gumroad_calls := [] |}.

Definition redeem_request (productId userId : string) : verify_license_body :=
  {| vl_productId := JStr productId;
     vl_licenseKey := JStr "ABCD-1234";
     vl_userId := JStr userId |}.

(** The world after ["user-1"] redeemed the key at time 1000. *)
Definition redeemed_world : world :=
  fst (post_verify_license gumroad_ok 1000 fresh_world
         (redeem_request "wIY3NX2VLnJ48nTz0ZVTIA==" "user-1")).

Definition redeemed_row : license_row :=
  {| lu_id := 1;
     lu_license_key := "ABCD-1234";
     lu_user_id := "user-1";
     lu_product_id := "wIY3NX2VLnJ48nTz0ZVTIA==";
     lu_product_tier := "creator";
     lu_flowers_granted := 130;
     lu_activated_at := 1000;
     lu_gumroad_data := Some "{}";
     lu_status := "active" |}.

Definition first_request : verify_license_body :=
  redeem_request "wIY3NX2VLnJ48nTz0ZVTIA==" "user-1".

Definition second_request : verify_license_body :=
  redeem_request "wIY3NX2VLnJ48nTz0ZVTIA==" "user-2".

Definition both_received : pair :=
  {| shared := fresh_world;
     first := Received first_request;
     second := Received second_request |}.

Definition both_past_lookup : pair :=
  {| shared := fresh_world;
     first := Fetching first_request;
     second := Fetching second_request |}.

(** The row of item 1 in [filled n] and in [cat_and_dog]. *)
Definition first_row : history_row :=
  {| uh_id := 1;
     uh_user_id := "user-1";
     uh_item_id := "item-1";
     uh_prompt := "a red cat";
     uh_image_url := Some "https://example.test/a.png";
     uh_original_image_url := None;
     uh_frame_id := None;
     uh_frame_name := None;
     uh_timestamp := 1;
     uh_quality := Some "high";
     uh_width := Some 512%Z;
     uh_height := Some 512%Z;
     uh_created_at := 0 |}.

Definition abc_table : database :=
  fst (PgServer.post_history 0 Pg.empty "user-1" (sample_item 1 "abc")).

(** Both requests look up, both ask the verifier, both insert. *)
Definition interleaved : list (bool * Z) :=
  [ (true, 1%Z); (false, 2%Z); (true, 3%Z); (false, 4%Z);
    (true, 5%Z); (false, 6%Z) ].

(** The later record is appended first. *)
Definition late_then_early_files : FileServer.store :=
  fst (FileServer.post_history
         (fst (FileServer.post_history FileServer.no_files "user-1"
                 (sample_item 2 "a red cat")))
         "user-1" (sample_item 1 "a black cat")).

End Fixtures.

(** Further sample data. *)
Module Samples.
Import Fixtures.

(** A verifier that knows no key. *)
Definition gumroad_rejects : env :=
  {| GUMROAD_ACCESS_TOKEN := Some "token";
     gumroad_verify := fun _ _ _ =>
       FetchJson false false (JStr "That license does not exist.") None;
     toLocaleDateString := string_of_Z |}.

(** A reading of the stored purchase that finds no field. *)
Definition no_field : string -> string -> option string := fun _ _ => None.

Definition frame_request : update_frame_body :=
  {| uf_itemId := JStr "item-1"; uf_frameId := JStr "frame-9" |}.

Definition granted_creator : response :=
  json (LicenseGranted (Some "{}") (JStr "creator") (JNum 130) (JNum 130)).

(** An item older than all that [filled n] holds. *)
Definition old_item : history_item := sample_item 0 "an old sketch".

End Samples.

(* ================================================================== *)
(** ** Lemmas on text *)
(* ================================================================== *)

Import Fixtures.

Local Open Scope string_scope.



Lemma like_percent p t :
  like (String percent p) t =
  like p t || match t with
              | EmptyString => false
              | String _ t' => like (String percent p) t'
              end.
Proof. destruct t; reflexivity. Qed.

Lemma like_percent_only t : like "%" t = true.
Proof.
  induction t as [|c t IH].
  - reflexivity.
  - change "%" with (String percent EmptyString) in *.
    rewrite like_percent. rewrite IH. apply orb_true_r.
Qed.

Lemma like_literal c p t :
  special c = false ->
  like (String c p) t =
  match t with
  | EmptyString => false
  | String d t' => Ascii.eqb c d && like p t'
  end.
Proof.
  unfold special. intros H.
  apply orb_false_elim in H as [H H3]. apply orb_false_elim in H as [H1 H2].
  simpl. rewrite H1, H2, H3. reflexivity.
Qed.

Lemma like_plain_prefix s : plain s = true ->
  forall t, like (s ++ "%") t = startsWith s t.
Proof.
  induction s as [|c s IH]; intros Hs t.
  - simpl. apply like_percent_only.
  - simpl in Hs. apply andb_prop in Hs as [Hc Hs].
    apply negb_true_iff in Hc.
    change (String c s ++ "%") with (String c (s ++ "%")).
    rewrite like_literal by assumption.
    destruct t as [|d t]; simpl; [reflexivity|].
    rewrite IH by assumption. reflexivity.
Qed.

Lemma like_contains s : plain s = true ->
  forall t, like ("%" ++ s ++ "%") t = includes s t.
Proof.
  intros Hs t. change ("%" ++ s ++ "%") with (String percent (s ++ "%")).
  induction t as [|d t IH].
  - rewrite like_percent, like_plain_prefix by assumption.
    simpl. destruct s; reflexivity.
  - rewrite like_percent, like_plain_prefix by assumption.
    rewrite IH. reflexivity.
Qed.

Lemma special_lower c : special (lower_ascii c) = special c.
Proof. destruct c as [[] [] [] [] [] [] [] []]; reflexivity. Qed.

Lemma plain_lower s : plain (toLowerCase s) = plain s.
Proof.
  induction s as [|c s IH]; simpl; [reflexivity|].
  rewrite special_lower, IH. reflexivity.
Qed.

Lemma toLowerCase_app s t :
  toLowerCase (s ++ t) = toLowerCase s ++ toLowerCase t.
Proof. induction s as [|c s IH]; simpl; [reflexivity|]. rewrite IH. reflexivity. Qed.

Lemma ilike_contains s t : plain s = true ->
  ilike t ("%" ++ s ++ "%") = includes (toLowerCase s) (toLowerCase t).
Proof.
  intros Hs. unfold ilike.
  change ("%" ++ s ++ "%") with (String percent (s ++ "%")).
  cbn [toLowerCase]. rewrite toLowerCase_app.
  change (lower_ascii percent) with percent.
  change (toLowerCase "%") with "%".
  apply (like_contains (toLowerCase s)). rewrite plain_lower. exact Hs.
Qed.

(* includes spec *)
Lemma startsWith_spec s t : startsWith s t = true <-> exists post, t = s ++ post.
Proof.
  revert t. induction s as [|a s IH]; intros t; simpl.
  - split; [intros _; exists t; reflexivity | reflexivity].
  - destruct t as [|b t].
    + split; [discriminate | intros [post H]; discriminate].
    + rewrite andb_true_iff, IH, Ascii.eqb_eq. split.
      * intros [-> [post ->]]. exists post. reflexivity.
      * intros [post H]. injection H as -> ->. split; [reflexivity | eauto].
Qed.

Lemma includes_spec s t :
  includes s t = true <-> exists pre post, t = pre ++ s ++ post.
Proof.
  induction t as [|b t IH].
  - simpl. rewrite orb_false_r, startsWith_spec. split.
    + intros [post H]. exists EmptyString, post. exact H.
    + intros [pre [post H]]. destruct pre; simpl in H.
      * eauto.
      * discriminate.
  - cbn [includes]. rewrite orb_true_iff, IH, startsWith_spec. split.
    + intros [[post H] | [pre [post H]]].
      * exists EmptyString, post. exact H.
      * exists (String b pre), post. simpl. rewrite H. reflexivity.
    + intros [pre [post H]]. destruct pre as [|c pre]; simpl in H.
      * left. eauto.
      * right. injection H as _ H. eauto.
Qed.

Local Open Scope list_scope.

Example trim_example : trim "  a red cat  " = "a red cat"%string.
Proof. reflexivity. Qed.

Example ilike_example :
  ilike "A red Cat" "%cat%" = true /\ ilike "a blue dog" "%cat%" = false.
Proof. split; reflexivity. Qed.

Example toString_example :
  toString (JNum 42) = "42"%string /\ toString (JNum (-7)) = "-7"%string.
Proof. split; reflexivity. Qed.

(* ================================================================== *)
(** ** Lemmas on the history table *)
(* ================================================================== *)

Lemma insert_desc_perm r l : Permutation (insert_desc r l) (r :: l).
Proof.
  induction l as [|x l IH]; simpl.
  - apply Permutation_refl.
  - destruct (uh_timestamp x <=? uh_timestamp r)%Z.
    + apply Permutation_refl.
    + eapply perm_trans; [apply perm_skip, IH | apply perm_swap].
Qed.

Lemma order_by_timestamp_desc_perm l :
  Permutation (order_by_timestamp_desc l) l.
Proof.
  induction l as [|r l IH]; simpl.
  - apply perm_nil.
  - eapply perm_trans; [apply insert_desc_perm | apply perm_skip, IH].
Qed.

Lemma insert_desc_sorted r l :
  StronglySorted newer_or_equal l ->
  StronglySorted newer_or_equal (insert_desc r l).
Proof.
  induction 1 as [|x l Hl IH Hx]; simpl.
  - constructor; constructor.
  - destruct (uh_timestamp x <=? uh_timestamp r)%Z eqn:E.
    + apply Z.leb_le in E. constructor.
      * constructor; assumption.
      * constructor; [exact E|].
        eapply Forall_impl; [|exact Hx].
        unfold newer_or_equal. intros; lia.
    + apply Z.leb_gt in E. constructor; [exact IH|].
      eapply Permutation_Forall.
      * apply Permutation_sym, insert_desc_perm.
      * constructor; [unfold newer_or_equal; lia | exact Hx].
Qed.

Lemma order_by_timestamp_desc_sorted l :
  StronglySorted newer_or_equal (order_by_timestamp_desc l).
Proof.
  induction l as [|r l IH]; simpl.
  - constructor.
  - apply insert_desc_sorted, IH.
Qed.

Lemma sorted_firstn_skipn l :
  StronglySorted newer_or_equal l ->
  forall n x y, In x (firstn n l) -> In y (skipn n l) -> newer_or_equal x y.
Proof.
  induction 1 as [|a l Hl IH Ha]; intros n x y Hx Hy.
  - destruct n; simpl in Hx; contradiction.
  - destruct n as [|n]; simpl in Hx, Hy; [contradiction|].
    destruct Hx as [<- | Hx].
    + rewrite Forall_forall in Ha. apply Ha.
      rewrite <- (firstn_skipn n l). apply in_or_app. right. exact Hy.
    + eapply IH; eassumption.
Qed.

Lemma Permutation_filter_compat {A} (f : A -> bool) l l' :
  Permutation l l' -> Permutation (filter f l) (filter f l').
Proof.
  induction 1 as [| x l l' _ IH | x y l | l l' l'' _ IH1 _ IH2]; simpl.
  - apply perm_nil.
  - destruct (f x); [apply perm_skip|]; exact IH.
  - destruct (f x), (f y); try apply Permutation_refl. apply perm_swap.
  - eapply perm_trans; eassumption.
Qed.

Lemma id_in_spec ids r : id_in ids r = true <-> In (uh_id r) ids.
Proof.
  unfold id_in. rewrite existsb_exists. split.
  - intros [x [Hx E]]. apply Z.eqb_eq in E. subst. exact Hx.
  - intros H. exists (uh_id r). split; [exact H | apply Z.eqb_refl].
Qed.

(** the rows selected by their ids out of a list with distinct ids *)
Lemma filter_ids_firstn n (S : list history_row) :
  NoDup (map uh_id S) ->
  filter (id_in (map uh_id (firstn n S))) S = firstn n S.
Proof.
  intros ND.
  rewrite <- (firstn_skipn n S) at 2.
  rewrite filter_app.
  assert (H1 : filter (id_in (map uh_id (firstn n S))) (firstn n S) = firstn n S).
  { apply forallb_filter_id. apply forallb_forall. intros r Hr.
    apply id_in_spec. apply in_map. exact Hr. }
  assert (H2 : filter (id_in (map uh_id (firstn n S))) (skipn n S) = []).
  { rewrite <- (firstn_skipn n S), map_app in ND.
    destruct (filter (id_in (map uh_id (firstn n S))) (skipn n S)) as [|r rest] eqn:E;
      [reflexivity|].
    assert (Hr : In r (filter (id_in (map uh_id (firstn n S))) (skipn n S)))
      by (rewrite E; left; reflexivity).
    apply filter_In in Hr as [Hr1 Hr2]. apply id_in_spec in Hr2.
    exfalso. revert ND Hr1 Hr2. generalize (firstn n S), (skipn n S).
    intros K R ND Hr1 Hr2.
    induction K as [|k K IH]; simpl in *; [contradiction|].
    apply NoDup_cons_iff in ND as [Hk ND].
    destruct Hr2 as [E' | Hin].
    - apply Hk. apply in_or_app. right. rewrite E'. apply in_map. exact Hr1.
    - apply IH; assumption. }
  rewrite H1, H2. apply app_nil_r.
Qed.

Lemma user_rows_delete d u :
  user_rows (delete_beyond_limit d u u) u =
  filter (id_in (map uh_id (firstn 50 (order_by_timestamp_desc (user_rows d u)))))
         (user_rows d u).
Proof.
  unfold user_rows, delete_beyond_limit. cbn [user_history].
  generalize (map uh_id (firstn 50 (order_by_timestamp_desc
                (filter (of_user u) (user_history d))))).
  intros keep.
  induction (user_history d) as [|r rows IH]; simpl; [reflexivity|].
  destruct (of_user u r) eqn:E; simpl.
  - destruct (id_in keep r) eqn:K; simpl.
    + rewrite E. f_equal. exact IH.
    + exact IH.
  - rewrite E. exact IH.
Qed.

Lemma NoDup_map_filter {A B} (g : A -> B) (f : A -> bool) l :
  NoDup (map g l) -> NoDup (map g (filter f l)).
Proof.
  induction l as [|a l IH]; simpl; intros ND; [constructor|].
  apply NoDup_cons_iff in ND as [Ha ND].
  destruct (f a); simpl; [|auto].
  constructor; [|auto].
  intros Hin. apply Ha. apply in_map_iff in Hin as [x [Hx Hin]].
  apply filter_In in Hin as [Hin _]. rewrite <- Hx. apply in_map. exact Hin.
Qed.

Lemma retained_perm d u :
  NoDup (map uh_id (user_history d)) ->
  Permutation (user_rows (delete_beyond_limit d u u) u)
              (firstn 50 (order_by_timestamp_desc (user_rows d u))).
Proof.
  intros ND. rewrite user_rows_delete.
  set (U := user_rows d u). set (S := order_by_timestamp_desc U).
  assert (P : Permutation S U) by apply order_by_timestamp_desc_perm.
  eapply perm_trans.
  - apply Permutation_filter_compat. apply Permutation_sym. exact P.
  - rewrite filter_ids_firstn; [apply Permutation_refl|].
    eapply Permutation_NoDup.
    + apply Permutation_map. apply Permutation_sym. exact P.
    + apply NoDup_map_filter. exact ND.
Qed.

Lemma count_after_delete d u :
  NoDup (map uh_id (user_history d)) ->
  count_user_history (delete_beyond_limit d u u) u =
  Z.min 50 (count_user_history d u).
Proof.
  intros ND. unfold count_user_history.
  change (filter (of_user u) (user_history (delete_beyond_limit d u u)))
    with (user_rows (delete_beyond_limit d u u) u).
  rewrite (Permutation_length (retained_perm d u ND)).
  rewrite length_firstn.
  rewrite (Permutation_length (order_by_timestamp_desc_perm _)).
  unfold user_rows. lia.
Qed.

Lemma evicted_is_older d u r x :
  NoDup (map uh_id (user_history d)) ->
  In r (user_rows (delete_beyond_limit d u u) u) ->
  In x (user_rows d u) ->
  ~ In x (user_rows (delete_beyond_limit d u u) u) ->
  (uh_timestamp x <= uh_timestamp r)%Z.
Proof.
  intros ND Hr Hx Hnx.
  pose proof (retained_perm d u ND) as P.
  set (S := order_by_timestamp_desc (user_rows d u)) in *.
  assert (Hr' : In r (firstn 50 S)) by (eapply Permutation_in; eassumption).
  assert (Hx' : In x (skipn 50 S)).
  { assert (HxS : In x S).
    { eapply Permutation_in; [|exact Hx].
      apply Permutation_sym, order_by_timestamp_desc_perm. }
    rewrite <- (firstn_skipn 50 S) in HxS. apply in_app_or in HxS as [H|H]; [|exact H].
    exfalso. apply Hnx. eapply Permutation_in; [apply Permutation_sym, P | exact H]. }
  exact (sorted_firstn_skipn S (order_by_timestamp_desc_sorted _) 50 r x Hr' Hx').
Qed.



(* ================================================================== *)
(** ** The upsert and the rolling limit *)
(* ================================================================== *)

Lemma bind_ok {A B} (r : result A) (k : A -> result B) b :
  bind r k = Ok b -> exists a, r = Ok a /\ k a = Ok b.
Proof. destruct r; simpl; [eauto | discriminate]. Qed.

Lemma not_null_ok {A} col (v : option A) a :
  not_null col v = Ok a -> v = Some a.
Proof. destruct v; simpl; congruence. Qed.

Lemma varchar_null_some n v s :
  varchar_null n v = Ok (Some s) -> exists s0, v = Some s0 /\ varchar n s0 = Ok s.
Proof.
  destruct v as [s0|]; simpl; [|discriminate].
  destruct (varchar n s0) eqn:E; simpl; [|discriminate].
  intros [= ->]. eauto.
Qed.

Lemma length_substring_le n s : (String.length (substring 0 n s) <= n)%nat.
Proof.
  revert s. induction n as [|n IH]; intros [|c s]; simpl; try lia.
  specialize (IH s). lia.
Qed.

Lemma varchar_length n s s' : varchar n s = Ok s' -> (String.length s' <= n)%nat.
Proof.
  unfold varchar. destruct (String.length s <=? n)%nat eqn:E.
  - intros [= <-]. apply Nat.leb_le. exact E.
  - destruct (all_spaces _); [|discriminate].
    intros [= <-]. apply length_substring_le.
Qed.

Lemma varchar_fits n s : (String.length s <= n)%nat -> varchar n s = Ok s.
Proof. intros H. unfold varchar. apply Nat.leb_le in H. rewrite H. reflexivity. Qed.

(** What a successful history INSERT did. *)
Lemma insert_user_history_ok now d v d1 :
  insert_user_history now d v = Ok d1 ->
  exists user_id item_id prompt timestamp row,
    hv_user_id v = Some user_id /\
    (exists s, hv_item_id v = Some s /\ varchar 255 s = Ok item_id) /\
    hv_prompt v = Some prompt /\
    hv_timestamp v = Some timestamp /\
    uh_id row = user_history_id_seq d /\
    (exists u0, hv_user_id v = Some u0 /\ varchar 255 u0 = Ok (uh_user_id row)) /\
    uh_item_id row = item_id /\
    uh_timestamp row = timestamp /\
    uh_prompt row = prompt /\
    user_history d1 =
      (if existsb (has_item item_id) (user_history d)
       then map (on_conflict_update item_id prompt (hv_image_url v)
                   (hv_original_image_url v) timestamp) (user_history d)
       else user_history d ++ [row]) /\
    user_history_id_seq d1 = (user_history_id_seq d + 1)%Z /\
    license_usage d1 = license_usage d /\
    license_usage_id_seq d1 = license_usage_id_seq d.
Proof.
  unfold insert_user_history. intros H.
  destruct (hv_timestamp v) as [ts|] eqn:Ets; [|discriminate]. cbn [bind] in H.
  apply bind_ok in H as [width [_ H]].
  apply bind_ok in H as [height [_ H]].
  apply bind_ok in H as [user_id [Hu H]].
  apply bind_ok in H as [item_id [Hi H]].
  apply bind_ok in H as [frame_id [_ H]].
  apply bind_ok in H as [frame_name [_ H]].
  apply bind_ok in H as [quality [_ H]].
  apply bind_ok in H as [user_id' [Hu' H]].
  apply bind_ok in H as [item_id' [Hi' H]].
  apply bind_ok in H as [prompt [Hp H]].
  apply not_null_ok in Hu', Hi', Hp. subst user_id item_id.
  apply varchar_null_some in Hu as [u0 [Hu0 Hu1]].
  apply varchar_null_some in Hi as [i0 [Hi0 Hi1]].
  injection H as <-.
  cbn [user_history user_history_id_seq license_usage license_usage_id_seq].
  eexists u0, item_id', prompt, ts, _.
  repeat split; try eassumption; try reflexivity.
  - eauto.
  - cbn [uh_user_id]. eauto.
Qed.

Lemma on_conflict_update_id i p a b t r :
  uh_id (on_conflict_update i p a b t r) = uh_id r.
Proof. unfold on_conflict_update. destruct (_ =? _)%string; reflexivity. Qed.

Lemma on_conflict_update_item i p a b t r :
  uh_item_id (on_conflict_update i p a b t r) = uh_item_id r.
Proof. unfold on_conflict_update. destruct (_ =? _)%string; reflexivity. Qed.

Lemma on_conflict_update_user i p a b t r :
  uh_user_id (on_conflict_update i p a b t r) = uh_user_id r.
Proof. unfold on_conflict_update. destruct (_ =? _)%string; reflexivity. Qed.

Lemma map_on_conflict_update_ids i p a b t rows :
  map uh_id (map (on_conflict_update i p a b t) rows) = map uh_id rows.
Proof. rewrite map_map. apply map_ext. intros. apply on_conflict_update_id. Qed.

Lemma map_on_conflict_update_items i p a b t rows :
  map uh_item_id (map (on_conflict_update i p a b t) rows) = map uh_item_id rows.
Proof. rewrite map_map. apply map_ext. intros. apply on_conflict_update_item. Qed.

Lemma filter_map_commute {A} (f : A -> bool) (g : A -> A) l :
  (forall x, f (g x) = f x) -> filter f (map g l) = map g (filter f l).
Proof.
  intros H. induction l as [|x l IH]; simpl; [reflexivity|].
  rewrite H. destruct (f x); simpl; rewrite IH; reflexivity.
Qed.

Lemma existsb_has_item_false i rows :
  existsb (has_item i) rows = false -> ~ In i (map uh_item_id rows).
Proof.
  intros H Hin. apply in_map_iff in Hin as [r [Hr Hin]].
  assert (existsb (has_item i) rows = true); [|congruence].
  apply existsb_exists. exists r. split; [exact Hin|].
  unfold has_item. apply String.eqb_eq. exact Hr.
Qed.

Lemma insert_preserves_well_formed now d v d1 :
  well_formed d -> insert_user_history now d v = Ok d1 -> well_formed d1.
Proof.
  intros (Hid & Hit & Hall) H.
  apply insert_user_history_ok in H
    as (u & i & p & ts & row & _ & (s & _ & Hs) & _ & _ & Hrow & _ & Hri
        & _ & _ & Hrows & Hseq & _).
  unfold well_formed. rewrite Hrows, Hseq.
  destruct (existsb (has_item i) (user_history d)) eqn:E.
  - rewrite map_on_conflict_update_ids, map_on_conflict_update_items.
    repeat split; try assumption.
    apply Forall_map. eapply Forall_impl; [|exact Hall].
    intros r [H1 H2]. rewrite on_conflict_update_id, on_conflict_update_item.
    split; [lia | exact H2].
  - rewrite !map_app. cbn [map]. repeat split.
    + apply NoDup_app; [exact Hid | repeat constructor; simpl; tauto |].
      intros a Ha [<- | []].
      apply in_map_iff in Ha as [r [Hr Hin]].
      rewrite Forall_forall in Hall. apply Hall in Hin. lia.
    + apply NoDup_app; [exact Hit | repeat constructor; simpl; tauto |].
      intros a Ha [<- | []].
      apply existsb_has_item_false in E. rewrite Hri in Ha. contradiction.
    + apply Forall_app. split.
      * eapply Forall_impl; [|exact Hall]. intros r [H1 H2]. split; [lia|exact H2].
      * constructor; [|constructor]. split; [lia|].
        rewrite Hri. eapply varchar_length. exact Hs.
Qed.

Lemma delete_preserves_well_formed d u :
  well_formed d -> well_formed (delete_beyond_limit d u u).
Proof.
  intros (Hid & Hit & Hall). unfold well_formed, delete_beyond_limit.
  cbn [user_history user_history_id_seq]. repeat split.
  - apply NoDup_map_filter. exact Hid.
  - apply NoDup_map_filter. exact Hit.
  - apply Forall_forall. intros r Hr. apply filter_In in Hr as [Hr _].
    rewrite Forall_forall in Hall. apply Hall. exact Hr.
Qed.

Lemma post_history_well_formed now d userId item :
  well_formed d -> well_formed (fst (post_history now d userId item)).
Proof.
  intros Hwf. unfold post_history.
  destruct (insert_user_history _ _ _) as [d1|e] eqn:E; cbn [fst]; [|exact Hwf].
  apply delete_preserves_well_formed.
  eapply insert_preserves_well_formed; eassumption.
Qed.

Lemma well_formed_empty : well_formed Pg.empty.
Proof. repeat split; constructor. Qed.

(** Unfolding a successful POST. *)
Lemma post_history_ok now d userId item d' total :
  post_history now d userId item = (d', json (Saved total)) ->
  exists d1,
    insert_user_history now d (history_params now userId item) = Ok d1 /\
    total = count_user_history d1 userId /\
    d' = delete_beyond_limit d1 userId userId.
Proof.
  unfold post_history.
  destruct (insert_user_history _ _ _) as [d1|e]; [|discriminate].
  intros [= <- <-]. eauto.
Qed.

Lemma user_rows_delete_other d u u' :
  u' <> u -> user_rows (delete_beyond_limit d u u) u' = user_rows d u'.
Proof.
  intros Hne. unfold user_rows, delete_beyond_limit. cbn [user_history].
  generalize (map uh_id (firstn 50 (order_by_timestamp_desc
                (filter (of_user u) (user_history d))))).
  intros keep.
  induction (user_history d) as [|r rows IH]; simpl; [reflexivity|].
  destruct (of_user u' r) eqn:E'.
  - assert (E : of_user u r = false).
    { unfold of_user in *. apply String.eqb_eq in E'. apply String.eqb_neq. congruence. }
    rewrite E. simpl. rewrite E'. f_equal. exact IH.
  - destruct (negb _); simpl; [rewrite E'|]; exact IH.
Qed.

Lemma delete_noop d u :
  (count_user_history d u <= 50)%Z ->
  user_history (delete_beyond_limit d u u) = user_history d.
Proof.
  intros Hc. unfold delete_beyond_limit. cbn [user_history].
  apply forallb_filter_id. apply forallb_forall. intros r Hr.
  destruct (of_user u r) eqn:E; [|reflexivity]. cbn [andb].
  rewrite negb_involutive. apply id_in_spec. apply in_map.
  rewrite firstn_all2.
  - eapply Permutation_in; [apply Permutation_sym, order_by_timestamp_desc_perm|].
    apply filter_In. split; assumption.
  - rewrite (Permutation_length (order_by_timestamp_desc_perm _)).
    unfold count_user_history in Hc. lia.
Qed.

Lemma filter_unique {A} (key : A -> string) (i : string) (l : list A) (r0 : A) :
  NoDup (map key l) -> In r0 l -> key r0 = i ->
  filter (fun r => (key r =? i)%string) l = [r0].
Proof.
  induction l as [|x l IH]; simpl; intros ND Hin Hk; [contradiction|].
  apply NoDup_cons_iff in ND as [Hx ND].
  destruct Hin as [-> | Hin].
  - rewrite Hk, String.eqb_refl. f_equal.
    destruct (filter _ l) as [|y rest] eqn:E; [reflexivity|].
    assert (Hy : In y (filter (fun r => (key r =? i)%string) l))
      by (rewrite E; left; reflexivity).
    apply filter_In in Hy as [Hy1 Hy2]. apply String.eqb_eq in Hy2.
    exfalso. apply Hx. rewrite Hk, <- Hy2. apply in_map. exact Hy1.
  - destruct (key x =? i)%string eqn:E.
    + apply String.eqb_eq in E. exfalso. apply Hx.
      rewrite E, <- Hk. apply in_map. exact Hin.
    + apply IH; assumption.
Qed.

Lemma count_map_update d1 d i p a b t u :
  user_history d1 = map (on_conflict_update i p a b t) (user_history d) ->
  count_user_history d1 u = count_user_history d u.
Proof.
  intros H. unfold count_user_history. rewrite H.
  rewrite filter_map_commute.
  - rewrite length_map. reflexivity.
  - intros x. unfold of_user. rewrite on_conflict_update_user. reflexivity.
Qed.



Lemma file_post_history_read fs userId item :
  FileServer.readHistory (fst (FileServer.post_history fs userId item)) userId =
  firstn 200 (item :: FileServer.readHistory fs userId).
Proof.
  unfold FileServer.post_history, FileServer.readHistory, FileServer.writeFile.
  cbn [fst]. rewrite String.eqb_refl. reflexivity.
Qed.

Lemma skipn_singleton {A} n (l : list A) :
  List.length l = S n -> exists x, skipn n l = [x].
Proof.
  intros H. pose proof (length_skipn n l) as L. rewrite H in L.
  assert (L' : List.length (skipn n l) = 1%nat) by lia. clear L.
  destruct (skipn n l) as [|x [|y t]]; cbn [List.length] in L'; try discriminate.
  exists x. reflexivity.
Qed.

Lemma count_as_rows d u : count_user_history d u = Z.of_nat (List.length (user_rows d u)).
Proof. reflexivity. Qed.

Lemma count_fresh_insert now d userId item d1 :
  (String.length userId <= 255)%nat ->
  fresh_item d item ->
  insert_user_history now d (history_params now userId item) = Ok d1 ->
  count_user_history d1 userId = (count_user_history d userId + 1)%Z.
Proof.
  intros Hlen Hfresh H.
  apply insert_user_history_ok in H
    as (u & i & p & ts & row & _ & (s & Hs & Hsi) & _ & _ & _
        & (u0 & Hu0 & Hu1) & Hri & _ & _ & Hrows & _).
  cbn [history_params hv_user_id hv_item_id] in *.
  injection Hu0 as <-. rewrite (varchar_fits _ _ Hlen) in Hu1. injection Hu1 as Hu1.
  assert (E : existsb (has_item i) (user_history d) = false).
  { destruct (existsb _ _) eqn:E; [|reflexivity].
    apply existsb_exists in E as [r [Hr1 Hr2]]. exfalso.
    apply (Hfresh r Hr1). unfold stored_item_id. rewrite Hs, Hsi.
    unfold has_item in Hr2. apply String.eqb_eq in Hr2. congruence. }
  rewrite E in Hrows. unfold count_user_history. rewrite Hrows, filter_app, length_app.
  cbn [filter]. unfold of_user at 2. rewrite <- Hu1, String.eqb_refl. simpl. lia.
Qed.

(** C2, amended.  In the PostgreSQL variant every successful append
    leaves the user with at most 50 records, namely min(50, count after
    the upsert); each record it evicts is no newer than each record it
    keeps; and a user who had 50 records and appends one with a new
    [itemId] has 50 again, exactly one record [x] having gone, whose
    timestamp is at most that of every record kept.  In the flat-file
    variant an append keeps the first 200 of the new item followed by
    the old array, so at most 200 records, the most recently appended
    ones, whatever their timestamps. *)
Theorem retention_per_variant :
  forall now d userId historyItem d' total fs,
    well_formed d ->
    PgServer.post_history now d userId historyItem = (d', json (Saved total)) ->
    (exists d1,
        insert_user_history now d (history_params now userId historyItem) = Ok d1 /\
        (count_user_history d' userId <= 50)%Z /\
        count_user_history d' userId = Z.min 50 (count_user_history d1 userId) /\
        (forall r x,
            In r (user_rows d' userId) ->
            In x (user_rows d1 userId) -> ~ In x (user_rows d' userId) ->
            (uh_timestamp x <= uh_timestamp r)%Z) /\
        (count_user_history d userId = 50%Z ->
         (String.length userId <= 255)%nat ->
         fresh_item d historyItem ->
         count_user_history d' userId = 50%Z /\
         exists x,
           Permutation (x :: user_rows d' userId) (user_rows d1 userId) /\
           Forall (fun r => (uh_timestamp x <= uh_timestamp r)%Z)
                  (user_rows d' userId))) /\
    (let kept := FileServer.readHistory
                   (fst (FileServer.post_history fs userId historyItem)) userId in
     kept = firstn 200 (historyItem :: FileServer.readHistory fs userId) /\
     (List.length kept <= 200)%nat).
Proof.
  intros now d userId item d' total fs Hwf Hpost. split.
  - apply post_history_ok in Hpost as (d1 & Hins & _ & ->).
    pose proof (insert_preserves_well_formed _ _ _ _ Hwf Hins) as (Hid & _).
    exists d1. split; [exact Hins|].
    pose proof (count_after_delete d1 userId Hid) as Hc.
    split; [lia|]. split; [exact Hc|]. split.
    + intros r x Hr Hx Hnx. eapply evicted_is_older; eassumption.
    + intros H50 Hlen Hfresh.
      pose proof (count_fresh_insert _ _ _ _ _ Hlen Hfresh Hins) as H51.
      split; [lia|].
      pose proof (retained_perm d1 userId Hid) as P.
      set (S := order_by_timestamp_desc (user_rows d1 userId)) in *.
      assert (HS : List.length S = 51%nat).
      { unfold S. rewrite (Permutation_length (order_by_timestamp_desc_perm _)).
        rewrite count_as_rows in H51. rewrite H50 in H51. lia. }
      destruct (skipn_singleton 50 S HS) as [x Hx].
      exists x. split.
      * eapply perm_trans; [apply perm_skip, P|].
        eapply perm_trans; [apply Permutation_cons_append|].
        rewrite <- Hx, firstn_skipn. apply order_by_timestamp_desc_perm.
      * apply Forall_forall. intros r Hr.
        apply (sorted_firstn_skipn S (order_by_timestamp_desc_sorted _) 50 r x).
        -- eapply Permutation_in; eassumption.
        -- rewrite Hx. left. reflexivity.
  - cbv zeta. rewrite file_post_history_read. split; [reflexivity|].
    apply firstn_le_length.
Qed.

(** C3, amended.  In the PostgreSQL variant, re-submitting an [itemId]
    that is stored, with a prompt, by a user who has at most 50 records,
    leaves exactly one row with that [itemId]; it is the old row (same
    [id], same owner) with the new prompt; no user's count changes and
    the count reported is the user's count before.  In the flat-file
    variant the item is put in front of the old array, which stays
    whole while it had fewer than 200 records: nothing is updated in
    place. *)
Theorem resubmission_per_variant :
  forall now d userId historyItem d' total r0 itemId prompt fs,
    well_formed d ->
    In r0 (user_history d) -> uh_item_id r0 = itemId ->
    hi_id historyItem = JStr itemId -> hi_prompt historyItem = JStr prompt ->
    (count_user_history d userId <= 50)%Z ->
    PgServer.post_history now d userId historyItem = (d', json (Saved total)) ->
    (exists r',
        filter (has_item itemId) (user_history d') = [r'] /\
        uh_prompt r' = prompt /\
        uh_id r' = uh_id r0 /\ uh_user_id r' = uh_user_id r0) /\
    (forall u, count_user_history d' u = count_user_history d u) /\
    total = count_user_history d userId /\
    (let old := FileServer.readHistory fs userId in
     (List.length old < 200)%nat ->
     FileServer.readHistory
       (fst (FileServer.post_history fs userId historyItem)) userId
     = historyItem :: old).
Proof.
  intros now d userId item d' total r0 i p fs Hwf Hin Hr0 Hid Hp Hc Hpost.
  apply post_history_ok in Hpost as (d1 & Hins & -> & ->).
  pose proof Hwf as (_ & Hitems & Hall).
  assert (Hfit : varchar 255 i = Ok i).
  { apply varchar_fits. rewrite Forall_forall in Hall.
    destruct (Hall r0 Hin) as [_ H]. rewrite Hr0 in H. exact H. }
  apply insert_user_history_ok in Hins
    as (u & i' & p' & ts & row & _ & (s & Hs & Hsi) & Hp' & _ & _ & _ & _
        & _ & _ & Hrows & _).
  cbn [history_params hv_item_id hv_prompt hv_image_url hv_original_image_url] in *.
  rewrite Hid in Hs. rewrite Hp in Hp'. cbn [param toString] in Hs, Hp'.
  injection Hs as <-. injection Hp' as <-. rewrite Hfit in Hsi. injection Hsi as <-.
  assert (E : existsb (has_item i) (user_history d) = true).
  { apply existsb_exists. exists r0. split; [exact Hin|].
    unfold has_item. apply String.eqb_eq. exact Hr0. }
  rewrite E in Hrows.
  assert (Hcount : forall u, count_user_history d1 u = count_user_history d u).
  { intros u0. eapply count_map_update. exact Hrows. }
  assert (Hnoop : user_history (delete_beyond_limit d1 userId userId) = user_history d1).
  { apply delete_noop. rewrite Hcount. exact Hc. }
  split; [|split; [|split]].
  - rewrite Hnoop, Hrows. rewrite filter_map_commute.
    + unfold has_item.
      rewrite (filter_unique uh_item_id i (user_history d) r0 Hitems Hin Hr0).
      cbn [map]. eexists. split; [reflexivity|].
      unfold on_conflict_update. rewrite Hr0, String.eqb_refl. cbn. auto.
    + intros x. unfold has_item. rewrite on_conflict_update_item. reflexivity.
  - intros u0. unfold count_user_history. rewrite Hnoop.
    exact (Hcount u0).
  - apply Hcount.
  - cbv zeta. intros Hlen. rewrite file_post_history_read.
    apply firstn_all2. simpl. lia.
Qed.

(* ================================================================== *)
(** ** Redemption under interleaving *)
(* ================================================================== *)

Section Race.

Variable e : env.

Lemma truthy_param v : truthy v = true -> param v = Some (toString v).
Proof. destruct v; simpl; try discriminate; reflexivity. Qed.

Lemma insert_license_usage_ok now d v d' :
  insert_license_usage now d v = Ok d' ->
  exists k k' row,
    lv_license_key v = Some k /\ varchar 255 k = Ok k' /\
    existsb (has_key k') (license_usage d) = false /\
    lu_license_key row = k' /\
    lu_activated_at row = now /\
    license_usage d' = license_usage d ++ [row] /\
    user_history d' = user_history d.
Proof.
  unfold insert_license_usage. intros H.
  apply bind_ok in H as [fl [_ H]].
  apply bind_ok in H as [key [Hk H]].
  apply bind_ok in H as [user [_ H]].
  apply bind_ok in H as [prod [_ H]].
  apply bind_ok in H as [tier [_ H]].
  apply bind_ok in H as [key' [Hk' H]].
  apply bind_ok in H as [user' [_ H]].
  apply bind_ok in H as [prod' [_ H]].
  apply bind_ok in H as [tier' [_ H]].
  apply bind_ok in H as [fl' [_ H]].
  apply not_null_ok in Hk'. subst key.
  apply varchar_null_some in Hk as [k [Hk1 Hk2]].
  destruct (existsb _ (license_usage d)) eqn:E; [discriminate|].
  injection H as <-. cbn [license_usage user_history].
  eexists k, key', _. repeat split; try eassumption; reflexivity.
Qed.

Lemma existsb_app_last (k : string) rows row :
  lu_license_key row = k -> existsb (has_key k) (rows ++ [row]) = true.
Proof.
  intros H. rewrite existsb_app. simpl. unfold has_key at 2.
  rewrite H, String.eqb_refl. simpl. apply orb_true_r.
Qed.

Lemma step_task now w b t w' t' :
  truthy (vl_licenseKey b) = true ->
  task_ok e b t -> step e now w t = (w', t') ->
  task_ok e b t' /\
  ((grants t' = grants t /\ w' = w \/
    grants t' = grants t /\ db w' = db w) \/
   (grants t = 0 /\ grants t' = 1 /\
    key_stored (toString (vl_licenseKey b)) (license_usage (db w)) false /\
    key_stored (toString (vl_licenseKey b)) (license_usage (db w')) true /\
    List.length (license_usage (db w')) = S (List.length (license_usage (db w))))%nat).
Proof.
  intros Hkey [-> | [[p ->] | [r [-> Hr]]]] Hstep; cbn [step] in Hstep.
  - (* the verifier is asked *)
    unfold verify_phase in Hstep.
    destruct (gumroad_verify e _ _ _) as [|ok success message purchase] eqn:G.
    + injection Hstep as <- <-. split.
      * right. right. exists internal_error. repeat split. right. left. reflexivity.
      * left. right. split; reflexivity.
    + destruct (ok && success) eqn:OK; injection Hstep as <- <-.
      * split; [right; left; eauto|]. left. right. split; reflexivity.
      * split; [|left; right; split; reflexivity].
        right. right. eexists. split; [reflexivity|]. split; [reflexivity|].
        right. right. split; [|reflexivity].
        intros (m & p & Hc). rewrite Hc in G. injection G as <- <- _ _. discriminate.
  - (* the INSERT *)
    unfold insert_phase in Hstep.
    destruct (insert_license_usage _ _ _) as [d'|err] eqn:I; injection Hstep as <- <-.
    + apply insert_license_usage_ok in I
        as (k & k' & row & Hk & Hv & Hex & Hrow & _ & Hrows & _).
      cbn [lv_license_key] in Hk. rewrite (truthy_param _ Hkey) in Hk. injection Hk as <-.
      split.
      * right. right. eexists. split; [reflexivity|]. split; [reflexivity|].
        left. reflexivity.
      * right. cbn [db grants]. repeat split.
        -- exists k'. split; assumption.
        -- exists k'. split; [assumption|].
           rewrite Hrows. apply existsb_app_last. exact Hrow.
        -- rewrite Hrows, length_app. simpl. lia.
    + split.
      * right. right. exists internal_error. repeat split. right. left. reflexivity.
      * left. left. split; reflexivity.
  - injection Hstep as <- <-. split.
    + right. right. eauto.
    + left. left. split; reflexivity.
Qed.

Variables b1 b2 : verify_license_body.
Variable n0 : nat.

Hypothesis same_key : toString (vl_licenseKey b1) = toString (vl_licenseKey b2).
Hypothesis key1 : truthy (vl_licenseKey b1) = true.
Hypothesis key2 : truthy (vl_licenseKey b2) = true.

Lemma key_stored_functional k rows :
  key_stored k rows true -> key_stored k rows false -> False.
Proof. intros (k1 & H1 & E1) (k2 & H2 & E2). congruence. Qed.

Lemma step_pair_inv c turn :
  race_inv e b1 b2 n0 c -> race_inv e b1 b2 n0 (step_pair e c turn).
Proof.
  intros (T1 & T2 & Hlen & Hle & Hkey). destruct turn as [who now].
  unfold step_pair. destruct who.
  - destruct (step e now (shared c) (first c)) as [w' t'] eqn:S.
    destruct (step_task _ _ _ _ _ _ key1 T1 S) as [T1' H].
    unfold race_inv. cbn [shared first second].
    destruct H as [[[Hg ->] | [Hg Hdb]] | (Hg0 & Hg1 & Habs & Hpres & Hl)].
    + rewrite Hg. auto.
    + rewrite Hg, Hdb. auto.
    + assert (G2 : grants (second c) = 0%nat).
      { destruct (Nat.eq_dec (grants (second c)) 0) as [|Hn]; [assumption|].
        exfalso. eapply key_stored_functional; [apply Hkey; lia | exact Habs]. }
      rewrite Hg1, G2, Hl, Hlen, Hg0, G2. repeat split; auto; lia.
  - destruct (step e now (shared c) (second c)) as [w' t'] eqn:S.
    destruct (step_task _ _ _ _ _ _ key2 T2 S) as [T2' H].
    unfold race_inv. cbn [shared first second].
    destruct H as [[[Hg ->] | [Hg Hdb]] | (Hg0 & Hg1 & Habs & Hpres & Hl)].
    + rewrite Hg. auto.
    + rewrite Hg, Hdb. auto.
    + rewrite <- same_key in Habs, Hpres.
      assert (G1 : grants (first c) = 0%nat).
      { destruct (Nat.eq_dec (grants (first c)) 0) as [|Hn]; [assumption|].
        exfalso. eapply key_stored_functional; [apply Hkey; lia | exact Habs]. }
      rewrite Hg1, G1, Hl, Hlen, Hg0, G1. repeat split; auto; lia.
Qed.

Lemma run_pair_inv schedule :
  forall c, race_inv e b1 b2 n0 c -> race_inv e b1 b2 n0 (run_pair e schedule c).
Proof.
  induction schedule as [|turn s IH]; intros c H; simpl; [exact H|].
  apply IH, step_pair_inv, H.
Qed.

End Race.

(** C1, amended.  Two redemption requests for the same key that have
    both passed the lookup, run to their responses under any
    interleaving: at most one row is added to [license_usage]; they are
    not both granted; neither is answered "already used"; and when the
    verifier confirms both, the request that is not granted is answered
    HTTP 500 with the generic failure of the outer [catch]. *)
Theorem race_single_insert :
  forall e w b1 b2 schedule c r1 r2,
    toString (vl_licenseKey b1) = toString (vl_licenseKey b2) ->
    truthy (vl_licenseKey b1) = true ->
    truthy (vl_licenseKey b2) = true ->
    run_pair e schedule
      {| shared := w; first := Fetching b1; second := Fetching b2 |} = c ->
    first c = Responded r1 ->
    second c = Responded r2 ->
    (List.length (license_usage (db (shared c)))
       <= S (List.length (license_usage (db w))))%nat /\
    is_granted r1 && is_granted r2 = false /\
    is_already_used r1 = false /\ is_already_used r2 = false /\
    (confirms e b1 -> confirms e b2 ->
     (is_granted r1 = true -> r2 = internal_error) /\
     (is_granted r2 = true -> r1 = internal_error)).
Proof.
  intros e w b1 b2 schedule c r1 r2 Hsame K1 K2 Hrun H1 H2.
  assert (I : race_inv e b1 b2 (List.length (license_usage (db w))) c).
  { rewrite <- Hrun. apply run_pair_inv; try assumption.
    unfold race_inv. cbn [shared first second grants].
    repeat split; try lia.
    - left. reflexivity.
    - left. reflexivity. }
  destruct I as (T1 & T2 & Hlen & Hle & _).
  rewrite H1 in *. rewrite H2 in *. cbn [grants] in *.
  destruct T1 as [T1 | [[p T1] | (r & T1 & U1 & O1)]]; try discriminate.
  destruct T2 as [T2 | [[p T2] | (r' & T2 & U2 & O2)]]; try discriminate.
  injection T1 as <-. injection T2 as <-.
  split; [destruct (is_granted r1), (is_granted r2); lia|].
  split; [destruct (is_granted r1), (is_granted r2); simpl in *; try reflexivity; lia|].
  split; [exact U1|]. split; [exact U2|].
  intros C1 C2. split; intros G.
  - rewrite G in Hle. destruct O2 as [G2 | [E | [N _]]]; [|exact E|contradiction].
    rewrite G2 in Hle. simpl in Hle. lia.
  - rewrite G in Hle. destruct O1 as [G1 | [E | [N _]]]; [|exact E|contradiction].
    rewrite G1 in Hle. simpl in Hle. lia.
Qed.

(* ================================================================== *)
(** ** Redemption, update-frame and required fields *)
(* ================================================================== *)

Lemma select_license_unique (d : database) (k : string) usage :
  NoDup (map lu_license_key (license_usage d)) ->
  In usage (license_usage d) -> lu_license_key usage = k ->
  select_license d (Some k) = [usage].
Proof. intros ND Hin Hk. unfold select_license. apply filter_unique; assumption. Qed.

(** C4.  A redemption request that passes validation, for a key that
    has a record in [license_usage], is answered 200 with
    [success: false], [alreadyUsed: true] and a message that carries the
    date of the record's [activated_at] and its [user_id]; the world is
    unchanged, so the verifier has not been called. *)
Theorem redeem_existing_key :
  forall e now w b usage,
    truthy (vl_productId b) = true ->
    truthy (vl_licenseKey b) = true ->
    truthy (vl_userId b) = true ->
    NoDup (map lu_license_key (license_usage (db w))) ->
    In usage (license_usage (db w)) ->
    lu_license_key usage = toString (vl_licenseKey b) ->
    post_verify_license e now w b =
      (w, Responded
            {| status := 200;
               payload :=
                 LicenseRefused
                   (JStr ("This license key has already been activated on " ++
                          toLocaleDateString e (lu_activated_at usage) ++
                          " by user " ++ lu_user_id usage ++
                          ". Each license can only be used once.")%string)
                   true |}) /\
    gumroad_calls (fst (post_verify_license e now w b)) = gumroad_calls w.
Proof.
  intros e now w b usage Hp Hk Hu ND Hin Hkey.
  assert (E : post_verify_license e now w b = (w, Responded (already_used e usage))).
  { unfold post_verify_license. cbn [step]. unfold lookup_phase.
    rewrite Hp, Hk, Hu. cbn [negb orb].
    rewrite (truthy_param _ Hk).
    rewrite (select_license_unique _ _ usage ND Hin Hkey). reflexivity. }
  rewrite E. split; reflexivity.
Qed.

Lemma string_of_Z_nonempty z : string_of_Z z <> EmptyString.
Proof.
  unfold string_of_Z, NilZero.string_of_int, NilZero.string_of_uint.
  destruct (Z.to_int z) as [u|u]; [|discriminate].
  destruct u; discriminate.
Qed.

Lemma truthy_text_nonempty v : truthy v = true -> toString v <> EmptyString.
Proof.
  destruct v as [| |[]|z|s]; simpl; try discriminate.
  - intros _. apply string_of_Z_nonempty.
  - intros H E. subst. discriminate.
Qed.

Lemma varchar_nonempty n s s' :
  varchar (S n) s = Ok s' -> s <> EmptyString -> s' <> EmptyString.
Proof.
  unfold varchar. destruct (String.length s <=? S n)%nat.
  - intros [= <-]. auto.
  - destruct (all_spaces _); [|discriminate].
    intros [= <-] Hs. destruct s; [contradiction|]. discriminate.
Qed.

(** C10.  An update-frame request whose [frameId] is falsy is answered
    400 with the tables untouched, whatever they hold: no statement is
    run. *)
Theorem update_frame_falsy_frameId :
  forall d userId b,
    truthy (uf_frameId b) = false ->
    post_update_frame d userId b =
      (d, {| status := 400;
             payload := ErrorBody "itemId and frameId are required" None |}).
Proof.
  intros d userId b H. unfold post_update_frame.
  rewrite H. rewrite orb_true_r. reflexivity.
Qed.

Lemma update_frame_never_clears d userId b d' resp :
  post_update_frame d userId b = (d', resp) ->
  exists f,
    user_history d' = map f (user_history d) /\
    forall r, f r = r \/ exists s, uh_frame_id (f r) = Some s /\ s <> EmptyString.
Proof.
  unfold post_update_frame.
  destruct (negb (truthy (uf_itemId b)) || negb (truthy (uf_frameId b))) eqn:V.
  - intros [= <- _]. exists (fun r => r). split; [symmetry; apply map_id | auto].
  - apply orb_false_elim in V as [Vi Vf].
    apply negb_false_iff in Vi, Vf.
    rewrite (truthy_param _ Vi), (truthy_param _ Vf).
    unfold update_frame_id. cbn [varchar_null].
    destruct (varchar 255 (toString (uf_frameId b))) as [fid|err] eqn:Ev; cbn [bind].
    + pose proof (varchar_nonempty _ _ _ Ev (truthy_text_nonempty _ Vf)) as Hne.
      intros H.
      assert (Hd : user_history d' =
                   map (set_frame_id (Some fid) userId (toString (uf_itemId b)))
                       (user_history d)).
      { destruct (0 <? _)%Z; injection H as <- _; reflexivity. }
      eexists. split; [exact Hd|].
      intros r. unfold set_frame_id. destruct (_ && _); [|auto].
      right. exists fid. split; [reflexivity | exact Hne].
    + intros [= <- _]. exists (fun r => r). split; [symmetry; apply map_id | auto].
Qed.

(** C9, at the product id [constructor].  The key is unused and the
    verifier confirms it; [productTierMap["constructor"]] is the
    inherited [Object] function, which is truthy, so the fallback is not
    taken, [tier] and [flowers] are undefined, the INSERT breaks NOT
    NULL and the answer is 500; nothing is persisted. *)
Theorem redeem_inherited_product_name :
  post_verify_license gumroad_ok 1700000000000 fresh_world
    (redeem_request "constructor" "user-1")
  = ({| db := Pg.empty;
        gumroad_calls := [("constructor", "ABCD-1234")]%string |},
     Responded {| status := 500;
                  payload := LicenseFailure
                    "Internal server error during license verification" |}).
Proof. vm_compute. reflexivity. Qed.

Lemma select_empty_absent d k :
  select_license d (Some k) = [] -> existsb (has_key k) (license_usage d) = false.
Proof.
  unfold select_license. intros H.
  destruct (existsb _ _) eqn:E; [|reflexivity].
  apply existsb_exists in E as [r [Hr1 Hr2]].
  assert (In r (filter (fun r => (lu_license_key r =? k)%string) (license_usage d)))
    by (apply filter_In; split; assumption).
  rewrite H in H0. contradiction.
Qed.

(** The fallback of the tier table where it applies. *)
Lemma redeem_unknown_product e now w b :
  truthy (vl_productId b) = true ->
  truthy (vl_licenseKey b) = true ->
  truthy (vl_userId b) = true ->
  (String.length (toString (vl_productId b)) <= 255)%nat ->
  (String.length (toString (vl_licenseKey b)) <= 255)%nat ->
  (String.length (toString (vl_userId b)) <= 255)%nat ->
  select_license (db w) (param (vl_licenseKey b)) = [] ->
  configured (GUMROAD_ACCESS_TOKEN e) = true ->
  confirms e b ->
  own_property (toString (vl_productId b)) productTierMap = None ->
  existsb (String.eqb (toString (vl_productId b))) Object_prototype = false ->
  exists purchase w',
    post_verify_license e now w b =
      (w', Responded (json (LicenseGranted purchase (JStr "unknown")
                                          (JNum 0) (JNum 0)))) /\
    license_usage (db w') =
      license_usage (db w) ++
      [ {| lu_id := license_usage_id_seq (db w);
           lu_license_key := toString (vl_licenseKey b);
           lu_user_id := toString (vl_userId b);
           lu_product_id := toString (vl_productId b);
           lu_product_tier := "unknown";
           lu_flowers_granted := 0;
           lu_activated_at := now;
           lu_gumroad_data := purchase;
           lu_status := "active" |} ].
Proof.
  intros Hp Hk Hu Lp Lk Lu Hsel Htok (message & purchase & Hc) Hown Hinh.
  exists purchase.
  unfold post_verify_license. cbn [step]. unfold lookup_phase.
  rewrite Hp, Hk, Hu. cbn [negb orb]. rewrite Hsel, Htok.
  cbn [step]. unfold verify_phase. rewrite Hc. cbn [andb].
  cbn [step]. unfold insert_phase, productInfo. rewrite Hown, Hinh.
  cbn [tier flowers db]. unfold insert_license_usage.
  cbn [lv_license_key lv_user_id lv_product_id lv_product_tier lv_flowers_granted
       lv_gumroad_data int_param int4_null].
  rewrite (truthy_param _ Hp), (truthy_param _ Hk), (truthy_param _ Hu) in *.
  cbn [param toString varchar_null].
  rewrite (varchar_fits _ _ Lp), (varchar_fits _ _ Lk), (varchar_fits _ _ Lu).
  change (varchar 50 "unknown") with (Ok (A:=string) "unknown"%string).
  cbn [bind not_null Z.leb Z.compare andb].
  fold (has_key (toString (vl_licenseKey b))).
  rewrite (select_empty_absent _ _ Hsel).
  eexists. split; reflexivity.
Qed.

(** C5, at the cap.  A user with 50 records appends a 51st: the
    response says [totalItems: 51] while 50 records are retained. *)
Theorem append_at_cap_reports_51 :
  let d := filled 50 in
  let out := PgServer.post_history 0 d "user-1" (sample_item 51 "a red cat") in
  count_user_history d "user-1" = 50%Z /\
  snd out = {| status := 200; payload := Saved 51 |} /\
  count_user_history (fst out) "user-1" = 50%Z.
Proof. vm_compute. repeat split; reflexivity. Qed.

(** C8, on a history record without [prompt].  The PostgreSQL variant
    answers 500 with the NOT NULL violation and stores nothing; the
    flat-file variant answers 200 and stores the record. *)
Theorem history_post_without_prompt :
  PgServer.post_history 0 Pg.empty "user-1" item_without_prompt =
    (Pg.empty,
     {| status := 500;
        payload := ErrorBody "Failed to save history"
                             (Some (NotNullViolation "prompt")) |}) /\
  snd (FileServer.post_history FileServer.no_files "user-1" item_without_prompt) =
    {| status := 200; payload := Saved 1 |}.
Proof. split; reflexivity. Qed.

Lemma pg_post_history_missing_field now d userId item :
  param (hi_id item) = None \/ param (hi_prompt item) = None ->
  exists err,
    PgServer.post_history now d userId item =
      (d, status_json 500 (ErrorBody "Failed to save history" (Some err))).
Proof.
  intros H. unfold PgServer.post_history.
  destruct (insert_user_history _ _ _) as [d1|err] eqn:E; [|eauto].
  exfalso. apply insert_user_history_ok in E
    as (u & i & p & ts & row & _ & (s & Hs & _) & Hp & _).
  cbn [history_params hv_item_id hv_prompt] in *.
  destruct H as [H|H]; congruence.
Qed.

Lemma update_frame_missing_field d userId b :
  truthy (uf_itemId b) = false \/ truthy (uf_frameId b) = false ->
  post_update_frame d userId b =
    (d, status_json 400 (ErrorBody "itemId and frameId are required" None)).
Proof.
  intros H. unfold post_update_frame.
  destruct H as [-> | ->]; [|rewrite orb_true_r]; reflexivity.
Qed.

Lemma verify_license_missing_field e now w b :
  truthy (vl_productId b) = false \/ truthy (vl_licenseKey b) = false \/
  truthy (vl_userId b) = false ->
  post_verify_license e now w b =
    (w, Responded (status_json 400
          (ErrorBody "productId, licenseKey, and userId are required" None))).
Proof.
  intros H. unfold post_verify_license. cbn [step]. unfold lookup_phase.
  destruct H as [-> | [-> | ->]]; cbn [negb orb]; rewrite ?orb_true_r; reflexivity.
Qed.



(* ================================================================== *)
(** ** Listing: page counts and search *)
(* ================================================================== *)

Lemma ceil_div_pos total n :
  (0 < n)%Z ->
  exists k, ceil_div total (Some n) = Num k /\ ((k - 1) * n < total <= k * n)%Z.
Proof.
  intros Hn. destruct n as [|p|p]; try lia.
  exists (- ((- total) / Z.pos p))%Z. split; [reflexivity|].
  pose proof (Z.div_mod (- total) (Z.pos p) ltac:(lia)) as E.
  pose proof (Z.mod_pos_bound (- total) (Z.pos p) ltac:(lia)) as B.
  nia.
Qed.

Lemma ceil_div_all total : (0 < total)%Z -> ceil_div total (Some total) = Num 1.
Proof.
  intros H. destruct total as [|p|p]; try lia. unfold ceil_div. f_equal.
  replace (- Z.pos p)%Z with (-1 * Z.pos p)%Z by lia.
  rewrite Z.div_mul by lia. reflexivity.
Qed.

Lemma pg_get_history_ok d userId q items totalPages currentPage totalItems :
  PgServer.get_history d userId q =
    json (HistoryPage items totalPages currentPage totalItems) ->
  let eligible := matching d userId (search_pattern (q_search q)) in
  items = map format_row (window q (order_by_timestamp_desc eligible)) /\
  totalItems = Z.of_nat (List.length eligible) /\
  totalPages = ceil_div totalItems
                 (match q_limit q with
                  | LimitAll => Some totalItems
                  | l => parseInt_limit l
                  end) /\
  currentPage = q_page q.
Proof.
  unfold PgServer.get_history, window. intros H. cbv zeta.
  destruct (q_limit q) as [| |n|] eqn:L; cbn [parseInt_limit] in *.
  - injection H as <- <- <- <-. auto.
  - injection H as <- <- <- <-. auto.
  - destruct (q_page q) as [p|] eqn:P; cbn [mul limit_offset] in H; [|discriminate].
    destruct (bigint n && bigint (p * n) && (0 <=? n)%Z && (0 <=? p * n)%Z);
      [|discriminate].
    injection H as <- <- <- <-. auto.
  - destruct (q_page q); cbn [mul limit_offset] in H; discriminate.
Qed.

Lemma filter_prompt_ok s history kept :
  FileServer.filter_prompt s history = Some kept ->
  kept = filter (prompt_includes s) history.
Proof.
  revert kept. induction history as [|item rest IH]; simpl; intros kept H.
  - congruence.
  - unfold prompt_includes at 1.
    destruct (hi_prompt item); try discriminate.
    destruct (FileServer.filter_prompt s rest) as [k|]; [|discriminate].
    rewrite <- (IH k eq_refl). destruct (includes s _); congruence.
Qed.

Lemma file_get_history_ok fs userId q items totalPages currentPage totalItems :
  FileServer.get_history fs userId q =
    json (FilePage items totalPages currentPage totalItems) ->
  let history := FileServer.readHistory fs userId in
  let eligible := file_eligible (q_search q) history in
  let limit := parseInt_limit (q_limit q) in
  items = slice eligible (mul (q_page q) limit) (add (mul (q_page q) limit) limit) /\
  totalPages = ceil_div (Z.of_nat (List.length eligible)) limit /\
  currentPage = q_page q /\
  totalItems = Z.of_nat (List.length history).
Proof.
  unfold FileServer.get_history, file_eligible. intros H.
  destruct (truthy (JStr (q_search q))).
  - destruct (FileServer.filter_prompt _ _) as [kept|] eqn:F; [|discriminate].
    apply filter_prompt_ok in F. subst kept.
    injection H as <- <- <- <-. cbv zeta. auto.
  - injection H as <- <- <- <-. cbv zeta. auto.
Qed.

(** C6, amended.  In the PostgreSQL variant [totalItems] is the number
    of rows that pass the search filter, [totalPages] is
    ceil(totalItems / pageSize) for a page size of at least 1, and is 1
    for [limit=all] when at least one row passes.  In the flat-file
    variant [totalPages] is the ceiling for the filtered records, and
    [totalItems] is the length of the whole stored array. *)
Theorem pagination_metadata :
  forall d fs userId q items totalPages currentPage totalItems
         fileItems fileTotalPages fileCurrentPage fileTotalItems,
    (PgServer.get_history d userId q =
       json (HistoryPage items totalPages currentPage totalItems) ->
     totalItems =
       Z.of_nat (List.length (matching d userId (search_pattern (q_search q)))) /\
     (forall n, q_limit q = LimitNum n -> (0 < n)%Z ->
        exists k, totalPages = Num k /\
                  ((k - 1) * n < totalItems <= k * n)%Z) /\
     (q_limit q = LimitAll -> (0 < totalItems)%Z -> totalPages = Num 1)) /\
    (FileServer.get_history fs userId q =
       json (FilePage fileItems fileTotalPages fileCurrentPage fileTotalItems) ->
     fileTotalItems = Z.of_nat (List.length (FileServer.readHistory fs userId)) /\
     (forall n, q_limit q = LimitNum n -> (0 < n)%Z ->
        exists k, fileTotalPages = Num k /\
                  ((k - 1) * n <
                   Z.of_nat (List.length
                     (file_eligible (q_search q) (FileServer.readHistory fs userId)))
                   <= k * n)%Z)).
Proof.
  intros d fs userId q items totalPages currentPage totalItems
         fileItems fileTotalPages fileCurrentPage fileTotalItems.
  split; intros H.
  - apply pg_get_history_ok in H as (_ & Ht & Hp & _). split; [exact Ht|]. split.
    + intros n L Hn. rewrite L in Hp. cbn [parseInt_limit] in Hp.
      rewrite Hp. apply ceil_div_pos. exact Hn.
    + intros L Hpos. rewrite L in Hp. rewrite Hp. apply ceil_div_all. exact Hpos.
  - apply file_get_history_ok in H as (_ & Hp & _ & Ht). split; [exact Ht|].
    intros n L Hn. rewrite L in Hp. cbn [parseInt_limit] in Hp.
    rewrite Hp. apply ceil_div_pos. exact Hn.
Qed.

Lemma matching_spec d userId pattern r :
  In r (matching d userId pattern) <->
  In r (user_history d) /\ uh_user_id r = userId /\
  match pattern with
  | Some p => ilike (uh_prompt r) p = true
  | None => True
  end.
Proof.
  unfold matching. rewrite filter_In, andb_true_iff. unfold of_user.
  rewrite String.eqb_eq. destruct pattern; intuition.
Qed.

Lemma search_pattern_spec search :
  (trim search = EmptyString /\ search_pattern search = None) \/
  (trim search <> EmptyString /\
   search_pattern search = Some ("%" ++ trim search ++ "%")%string).
Proof.
  unfold search_pattern. cbn [truthy].
  destruct (String.eqb_spec (trim search) EmptyString) as [E|E].
  - left. split; [exact E|]. rewrite andb_false_r. reflexivity.
  - right. split; [exact E|].
    destruct (String.eqb_spec search EmptyString) as [E'|E'].
    + subst. exfalso. apply E. reflexivity.
    + reflexivity.
Qed.

Lemma matching_literal d userId search :
  plain (trim search) = true ->
  matching d userId (search_pattern search) = literal_rows d userId (trim search).
Proof.
  intros Hplain. unfold matching, literal_rows, contains_text.
  apply filter_ext. intros r. f_equal.
  destruct (search_pattern_spec search) as [[E ->] | [E ->]].
  - rewrite E. reflexivity.
  - apply String.eqb_neq in E. rewrite E. cbn [orb].
    apply ilike_contains. exact Hplain.
Qed.

(** C7, amended.  For ASCII prompts and search text.  The PostgreSQL
    variant trims the search text; when the trimmed text has no [%],
    [_] or backslash, the items are a window of the eligible rows
    ordered by timestamp descending, where the eligible rows are exactly
    the user's rows whose prompt contains the trimmed text as a literal
    substring up to case, and all the user's rows when it is empty.  In
    the flat-file variant the items are a slice of the stored array in
    stored order, filtered, when the search text is not empty, to the
    records whose prompt contains the text as it stands as a literal
    substring up to case. *)
Theorem search_per_variant :
  forall d fs userId q items totalPages currentPage totalItems
         fileItems fileTotalPages fileCurrentPage fileTotalItems,
    ascii_text (q_search q) = true ->
    (PgServer.get_history d userId q =
       json (HistoryPage items totalPages currentPage totalItems) ->
     plain (trim (q_search q)) = true ->
     (forall r, In r (user_rows d userId) -> ascii_text (uh_prompt r) = true) ->
     let eligible := literal_rows d userId (trim (q_search q)) in
     items = map format_row (window q (order_by_timestamp_desc eligible)) /\
     StronglySorted newer_or_equal (order_by_timestamp_desc eligible) /\
     Permutation (order_by_timestamp_desc eligible) eligible /\
     (forall r, In r eligible <->
                In r (user_history d) /\ uh_user_id r = userId /\
                (trim (q_search q) = EmptyString \/
                 contains_ci (trim (q_search q)) (uh_prompt r)))) /\
    (FileServer.get_history fs userId q =
       json (FilePage fileItems fileTotalPages fileCurrentPage fileTotalItems) ->
     (forall item p, In item (FileServer.readHistory fs userId) ->
                     hi_prompt item = JStr p -> ascii_text p = true) ->
     let history := FileServer.readHistory fs userId in
     let eligible := file_eligible (q_search q) history in
     let limit := parseInt_limit (q_limit q) in
     fileItems = slice eligible (mul (q_page q) limit)
                       (add (mul (q_page q) limit) limit) /\
     (q_search q = EmptyString -> eligible = history) /\
     (q_search q <> EmptyString ->
      eligible = filter (prompt_includes (toLowerCase (q_search q))) history /\
      forall item, In item eligible <->
                   In item history /\
                   exists p, hi_prompt item = JStr p /\
                             contains_ci (q_search q) p)).
Proof.
  intros d fs userId q items totalPages currentPage totalItems
         fileItems fileTotalPages fileCurrentPage fileTotalItems _.
  split.
  - intros H Hplain _. apply pg_get_history_ok in H as (Hi & _). cbv zeta.
    rewrite (matching_literal _ _ _ Hplain) in Hi.
    split; [exact Hi|]. split; [apply order_by_timestamp_desc_sorted|].
    split; [apply order_by_timestamp_desc_perm|].
    intros r. unfold literal_rows, contains_text, of_user, contains_ci.
    rewrite filter_In, andb_true_iff, orb_true_iff, !String.eqb_eq, includes_spec.
    intuition.
  - intros H _. apply file_get_history_ok in H as (Hi & _). cbv zeta.
    split; [exact Hi|]. unfold file_eligible. cbn [truthy]. split.
    + intros ->. reflexivity.
    + intros Hne. apply String.eqb_neq in Hne. rewrite Hne. cbn [negb].
      split; [reflexivity|].
      intros item. rewrite filter_In. unfold prompt_includes, contains_ci.
      destruct (hi_prompt item) as [| | | |p].
      1-4: split; [intros [_ F]; discriminate | intros [_ (p0 & F & _)]; discriminate].
      rewrite includes_spec. split.
      * intros [Hin Hc]. split; [exact Hin|]. exists p. split; [reflexivity|exact Hc].
      * intros [Hin (p0 & [= <-] & Hc)]. split; assumption.
Qed.

(* ================================================================== *)
(** ** Further facts about the handlers *)
(* ================================================================== *)

(** The count of a successful append is the one read between the upsert
    and the DELETE. *)
Lemma post_history_reports_count_before_delete now d userId item d' total :
  well_formed d ->
  PgServer.post_history now d userId item = (d', json (Saved total)) ->
  exists d1,
    insert_user_history now d (history_params now userId item) = Ok d1 /\
    total = count_user_history d1 userId /\
    count_user_history d' userId = Z.min 50 total.
Proof.
  intros Hwf H. apply post_history_ok in H as (d1 & Hins & -> & ->).
  exists d1. split; [exact Hins|]. split; [reflexivity|].
  apply count_after_delete.
  apply (insert_preserves_well_formed _ _ _ _ Hwf Hins).
Qed.

(** The flat-file variant reports the length of what it kept. *)
Lemma file_post_history_reports_kept fs userId item :
  snd (FileServer.post_history fs userId item) =
  json (Saved (Z.of_nat (List.length
          (FileServer.readHistory (fst (FileServer.post_history fs userId item))
                                  userId)))).
Proof. rewrite file_post_history_read. reflexivity. Qed.

(** With [limit=all] and nothing to list, the page count is 0 / 0. *)
Lemma all_without_match_is_NaN :
  PgServer.get_history Pg.empty "user-1"
    {| q_page := Some 0%Z; q_limit := LimitAll; q_search := EmptyString |}
  = json (HistoryPage [] NaN (Some 0%Z) 0).
Proof. reflexivity. Qed.

(** The example of the specification: 25 records, [limit=10]. *)
Example pagination_of_25 :
  forall page, In page [0%Z; 1%Z; 2%Z] ->
  match payload (PgServer.get_history (filled 25) "user-1"
                   {| q_page := Some page; q_limit := LimitNum 10;
                      q_search := EmptyString |}) with
  | HistoryPage items totalPages _ totalItems =>
      List.length items = (if (page =? 2)%Z then 5 else 10)%nat /\
      totalPages = Num 3 /\ totalItems = 25%Z
  | _ => False
  end.
Proof.
  intros page [<- | [<- | [<- | []]]]; vm_compute; repeat split; reflexivity.
Qed.

Lemma filled_well_formed n : well_formed (filled n).
Proof.
  induction n as [|n IH]; simpl.
  - apply well_formed_empty.
  - apply post_history_well_formed, IH.
Qed.

(** No user goes beyond 50 rows by anybody's append. *)
Lemma post_history_keeps_cap now d userId item :
  well_formed d ->
  (String.length userId <= 255)%nat ->
  (forall u, (count_user_history d u <= 50)%Z) ->
  forall u,
    (count_user_history (fst (PgServer.post_history now d userId item)) u <= 50)%Z.
Proof.
  intros Hwf Hlen Hcap u. unfold PgServer.post_history.
  destruct (insert_user_history _ _ _) as [d1|err] eqn:Hins; cbn [fst];
    [|apply Hcap].
  pose proof (insert_preserves_well_formed _ _ _ _ Hwf Hins) as (Hid & _).
  destruct (String.eqb_spec u userId) as [->|Hne].
  - rewrite (count_after_delete d1 userId Hid). lia.
  - rewrite !count_as_rows, (user_rows_delete_other d1 userId u Hne).
    rewrite <- !count_as_rows.
    apply insert_user_history_ok in Hins
      as (u1 & i & p & ts & row & _ & _ & _ & _ & _ & (u0 & Hu0 & Hu1) & _ & _
          & _ & Hrows & _).
    cbn [history_params hv_user_id] in Hu0. injection Hu0 as <-.
    rewrite (varchar_fits _ _ Hlen) in Hu1. injection Hu1 as Hu1.
    destruct (existsb (has_item i) (user_history d)).
    + rewrite (count_map_update _ _ _ _ _ _ _ u Hrows). apply Hcap.
    + specialize (Hcap u). unfold count_user_history in *.
      rewrite Hrows, filter_app. cbn [filter]. unfold of_user at 2.
      rewrite <- Hu1. apply String.eqb_neq in Hne. rewrite String.eqb_sym, Hne.
      rewrite app_nil_r. exact Hcap.
Qed.

(** The schema invariant of [user_history] is kept by update-frame. *)
Lemma post_update_frame_well_formed d userId b :
  well_formed d -> well_formed (fst (post_update_frame d userId b)).
Proof.
  intros Hwf. unfold post_update_frame.
  destruct (negb (truthy (uf_itemId b)) || negb (truthy (uf_frameId b)));
    [exact Hwf|].
  unfold update_frame_id.
  destruct (varchar_null 255 (param (uf_frameId b))) as [fid|err];
    cbn [bind]; [|exact Hwf].
  destruct (param (uf_itemId b)) as [i|].
  - assert (W : well_formed
                  {| user_history := map (set_frame_id fid userId i) (user_history d);
                     user_history_id_seq := user_history_id_seq d;
                     license_usage := license_usage d;
                     license_usage_id_seq := license_usage_id_seq d |}).
    { destruct Hwf as (Hid & Hit & Hall). unfold well_formed.
      cbn [user_history user_history_id_seq].
      assert (Eid : forall r, uh_id (set_frame_id fid userId i r) = uh_id r)
        by (intros r; unfold set_frame_id; destruct (_ && _); reflexivity).
      assert (Eit : forall r, uh_item_id (set_frame_id fid userId i r) = uh_item_id r)
        by (intros r; unfold set_frame_id; destruct (_ && _); reflexivity).
      rewrite !map_map.
      rewrite (map_ext _ _ Eid), (map_ext _ _ Eit).
      repeat split; try assumption.
      apply Forall_map. eapply Forall_impl; [|exact Hall].
      intros r Hr. rewrite Eid, Eit. exact Hr. }
    destruct (0 <? _)%Z; exact W.
  - exact Hwf.
Qed.

(** What it takes to pass the lookup: the three fields, no row for the
    key, and a configured access token. *)
Lemma lookup_phase_passes e w b w' b' :
  lookup_phase e w b = (w', Fetching b') <->
  truthy (vl_productId b) = true /\ truthy (vl_licenseKey b) = true /\
  truthy (vl_userId b) = true /\
  select_license (db w) (param (vl_licenseKey b)) = [] /\
  configured (GUMROAD_ACCESS_TOKEN e) = true /\ w' = w /\ b' = b.
Proof.
  unfold lookup_phase.
  destruct (truthy (vl_productId b)), (truthy (vl_licenseKey b)),
           (truthy (vl_userId b)); cbn [negb orb];
    try (split; [discriminate | intros (? & ? & ? & _); discriminate]).
  destruct (select_license (db w) (param (vl_licenseKey b))) as [|usage rest];
    [|split; [discriminate | intros (_ & _ & _ & ? & _); discriminate]].
  destruct (configured (GUMROAD_ACCESS_TOKEN e));
    [|split; [discriminate | intros (_ & _ & _ & _ & ? & _); discriminate]].
  split.
  - intros [= <- <-]. repeat split; reflexivity.
  - intros (_ & _ & _ & _ & _ & -> & ->). reflexivity.
Qed.

(** Three steps bring every request to its response. *)
Lemma post_verify_license_responds e now w b :
  exists w' r, post_verify_license e now w b = (w', Responded r).
Proof.
  unfold post_verify_license. cbn [step]. unfold lookup_phase.
  destruct (_ || _); [cbn [step]; eauto|].
  destruct (select_license _ _); [|cbn [step]; eauto].
  destruct (configured _); [|cbn [step]; eauto].
  cbn [step]. unfold verify_phase.
  destruct (gumroad_verify _ _ _ _) as [|ok success m p]; [cbn [step]; eauto|].
  destruct (ok && success); [|cbn [step]; eauto].
  cbn [step]. unfold insert_phase.
  destruct (insert_license_usage _ _ _); eauto.
Qed.

(** UNIQUE on [license_key] is kept by every step of a redemption. *)
Lemma step_keeps_keys_unique e now w t w' t' :
  NoDup (map lu_license_key (license_usage (db w))) ->
  step e now w t = (w', t') ->
  NoDup (map lu_license_key (license_usage (db w'))).
Proof.
  intros ND H. destruct t as [b|b|b p|r]; cbn [step] in H.
  - unfold lookup_phase in H.
    destruct (_ || _); [injection H as <- _; exact ND|].
    destruct (select_license _ _); [|injection H as <- _; exact ND].
    destruct (configured _); injection H as <- _; exact ND.
  - unfold verify_phase in H.
    destruct (gumroad_verify _ _ _ _) as [|ok success m p].
    + injection H as <- _. exact ND.
    + destruct (ok && success); injection H as <- _; exact ND.
  - unfold insert_phase in H.
    destruct (insert_license_usage _ _ _) as [d'|err] eqn:I; injection H as <- _;
      [|exact ND].
    apply insert_license_usage_ok in I
      as (k & k' & row & _ & _ & Hex & Hrow & _ & Hrows & _).
    cbn [db]. rewrite Hrows, map_app. cbn [map].
    apply NoDup_app; [exact ND | repeat constructor; simpl; tauto |].
    intros a Ha [<- | []].
    apply in_map_iff in Ha as [r [Hr Hin]].
    assert (existsb (has_key k') (license_usage (db w)) = true); [|congruence].
    apply existsb_exists. exists r. split; [exact Hin|].
    unfold has_key. apply String.eqb_eq. congruence.
  - injection H as <- _. exact ND.
Qed.

(* ================================================================== *)
(** ** Inputs on which the claims as written fail, and instances of
       the theorems *)
(* ================================================================== *)

(** C1 fails as written: two requests for one unused key pass the
    lookup, the first INSERT is accepted and the second request is
    answered 500 with the generic failure, not "already used". *)
Lemma race_loser_not_already_used :
  run_pair gumroad_ok (firstn 2 interleaved) both_received = both_past_lookup /\
  first (run_pair gumroad_ok interleaved both_received) =
    Responded (json (LicenseGranted (Some "{}") (JStr "creator")
                                    (JNum 130) (JNum 130))) /\
  second (run_pair gumroad_ok interleaved both_received) =
    Responded {| status := 500;
                 payload := LicenseFailure
                   "Internal server error during license verification" |} /\
  (forall usage,
     second (run_pair gumroad_ok interleaved both_received) <>
     Responded (already_used gumroad_ok usage)).
Proof.
  split; [vm_compute; reflexivity|].
  split; [vm_compute; reflexivity|].
  assert (E : second (run_pair gumroad_ok interleaved both_received) =
              Responded internal_error) by (vm_compute; reflexivity).
  split; [exact E|].
  intros usage H. rewrite E in H. discriminate.
Qed.

Lemma race_single_insert_witness :
  first (run_pair gumroad_ok (skipn 2 interleaved) both_past_lookup) =
    Responded (json (LicenseGranted (Some "{}") (JStr "creator")
                                    (JNum 130) (JNum 130))) /\
  second (run_pair gumroad_ok (skipn 2 interleaved) both_past_lookup) =
    Responded internal_error /\
  (List.length (license_usage (db (shared
     (run_pair gumroad_ok (skipn 2 interleaved) both_past_lookup)))) <= 1)%nat.
Proof.
  assert (H1 : first (run_pair gumroad_ok (skipn 2 interleaved) both_past_lookup) =
               Responded (json (LicenseGranted (Some "{}") (JStr "creator")
                                               (JNum 130) (JNum 130))))
    by (vm_compute; reflexivity).
  assert (H2 : second (run_pair gumroad_ok (skipn 2 interleaved) both_past_lookup) =
               Responded internal_error)
    by (vm_compute; reflexivity).
  destruct (race_single_insert gumroad_ok fresh_world first_request second_request
              (skipn 2 interleaved) _ _ _ eq_refl eq_refl eq_refl eq_refl H1 H2)
    as [L _].
  split; [exact H1|]. split; [exact H2|]. exact L.
Defined.

(** C2 fails as written: the flat-file variant holds 51 records after
    51 appends. *)
Lemma file_variant_keeps_51 :
  ~ (List.length (FileServer.readHistory (filled_files 51) "user-1") <= 50)%nat.
Proof.
  assert (E : List.length (FileServer.readHistory (filled_files 51) "user-1") = 51%nat)
    by (vm_compute; reflexivity).
  rewrite E. lia.
Qed.

Lemma retention_per_variant_witness :
  (count_user_history
     (fst (PgServer.post_history 0 (filled 50) "user-1" (sample_item 51 "a red cat")))
     "user-1" <= 50)%Z /\
  (List.length
     (FileServer.readHistory
        (fst (FileServer.post_history (filled_files 2) "user-1"
                (sample_item 51 "a red cat"))) "user-1") <= 200)%nat.
Proof.
  assert (H : PgServer.post_history 0 (filled 50) "user-1" (sample_item 51 "a red cat") =
              (fst (PgServer.post_history 0 (filled 50) "user-1"
                      (sample_item 51 "a red cat")),
               json (Saved 51)))
    by (vm_compute; reflexivity).
  destruct (retention_per_variant 0 (filled 50) "user-1" (sample_item 51 "a red cat")
              _ 51 (filled_files 2) (filled_well_formed 50) H)
    as [(d1 & _ & Hle & _) [_ Hfile]].
  split; [exact Hle | exact Hfile].
Defined.

(** C3 fails as written: the flat-file variant stores a re-submitted id a
    second time and the count goes from 1 to 2. *)
Lemma file_variant_stores_duplicate :
  let fs1 := fst (FileServer.post_history FileServer.no_files "user-1"
                    (sample_item 1 "a red cat")) in
  let out := FileServer.post_history fs1 "user-1" (sample_item 1 "a blue dog") in
  FileServer.readHistory (fst out) "user-1" =
    [sample_item 1 "a blue dog"; sample_item 1 "a red cat"] /\
  snd out = json (Saved 2).
Proof. split; reflexivity. Qed.

Lemma resubmission_per_variant_witness :
  exists r',
    filter (has_item "item-1")
           (user_history (fst (PgServer.post_history 7 (filled 2) "user-1"
                                 (sample_item 1 "a blue dog")))) = [r'] /\
    uh_prompt r' = "a blue dog".
Proof.
  assert (Hin : In first_row (user_history (filled 2)))
    by (vm_compute; left; reflexivity).
  assert (H : PgServer.post_history 7 (filled 2) "user-1" (sample_item 1 "a blue dog") =
              (fst (PgServer.post_history 7 (filled 2) "user-1"
                      (sample_item 1 "a blue dog")),
               json (Saved 2)))
    by (vm_compute; reflexivity).
  assert (Hc : (count_user_history (filled 2) "user-1" <= 50)%Z)
    by (vm_compute; discriminate).
  destruct (resubmission_per_variant 7 (filled 2) "user-1" (sample_item 1 "a blue dog")
              _ 2 first_row "item-1" "a blue dog" FileServer.no_files
              (filled_well_formed 2) Hin eq_refl eq_refl eq_refl Hc H)
    as [(r' & Hf & Hp & _) _].
  exists r'. split; [exact Hf | exact Hp].
Defined.

Lemma redeem_existing_key_witness :
  post_verify_license gumroad_ok 2000 redeemed_world second_request =
    (redeemed_world,
     Responded
       {| status := 200;
          payload :=
            LicenseRefused
              (JStr ("This license key has already been activated on 1000" ++
                     " by user user-1. Each license can only be used once."))
              true |}).
Proof.
  assert (ND : NoDup (map lu_license_key (license_usage (db redeemed_world)))).
  { vm_compute. constructor; [intros [] | constructor]. }
  assert (Hin : In redeemed_row (license_usage (db redeemed_world)))
    by (vm_compute; left; reflexivity).
  destruct (redeem_existing_key gumroad_ok 2000 redeemed_world second_request
              redeemed_row eq_refl eq_refl eq_refl ND Hin eq_refl) as [H _].
  exact H.
Defined.

(** C6 fails as written: the flat-file variant reports 2 items in total
    where one record passes the search. *)
Lemma file_total_items_unfiltered :
  FileServer.get_history cat_and_dog_files "user-1" (search_for "cat") =
    json (FilePage [sample_item 1 "a red cat"] (Num 1) (Some 0%Z) 2) /\
  List.length (file_eligible "cat"
                 (FileServer.readHistory cat_and_dog_files "user-1")) = 1%nat.
Proof. split; vm_compute; reflexivity. Qed.

Lemma pagination_metadata_witness :
  (exists k, Num 1 = Num k /\ ((k - 1) * 10 < 1 <= k * 10)%Z) /\
  2%Z = Z.of_nat (List.length (FileServer.readHistory cat_and_dog_files "user-1")).
Proof.
  assert (E : exists items,
             PgServer.get_history cat_and_dog "user-1" (search_for "cat") =
             json (HistoryPage items (Num 1) (Some 0%Z) 1)).
  { vm_compute. eexists. reflexivity. }
  destruct E as [items E].
  assert (F : FileServer.get_history cat_and_dog_files "user-1" (search_for "cat") =
              json (FilePage [sample_item 1 "a red cat"] (Num 1) (Some 0%Z) 2))
    by (vm_compute; reflexivity).
  destruct (pagination_metadata cat_and_dog cat_and_dog_files "user-1" (search_for "cat")
              items (Num 1) (Some 0%Z) 1
              [sample_item 1 "a red cat"] (Num 1) (Some 0%Z) 2) as [Hpg Hfile].
  destruct (Hpg E) as (_ & Hpages & _).
  destruct (Hfile F) as (Htotal & _).
  split; [apply (Hpages 10%Z eq_refl); reflexivity | exact Htotal].
Defined.

(** C7 fails as written.  Asked for [cat] followed by a blank, the
    PostgreSQL variant lists the record whose prompt is [a red cat],
    which does not contain that text: the text is trimmed.  The
    flat-file variant lists its records in stored order, here the older
    record before the later one. *)
Lemma search_trims_and_keeps_stored_order :
  (match payload (PgServer.get_history cat_and_dog "user-1" (search_for "cat ")) with
   | HistoryPage items _ _ _ => map e_prompt items = ["a red cat"%string]
   | _ => False
   end /\
   ~ contains_ci "cat " "a red cat") /\
  match payload (FileServer.get_history late_then_early_files "user-1"
                   (search_for "cat")) with
  | FilePage items _ _ _ => map hi_timestamp items = [TsDate 1; TsDate 2]
  | _ => False
  end.
Proof.
  split; [split|].
  - vm_compute. reflexivity.
  - intros H. apply includes_spec in H. vm_compute in H. discriminate.
  - vm_compute. reflexivity.
Qed.

(** The ILIKE pattern is built without escaping: asked for [a_c], the
    PostgreSQL variant lists the record whose prompt is [abc]. *)
Lemma ilike_wildcard_is_not_literal :
  match payload (PgServer.get_history abc_table "user-1" (search_for "a_c")) with
  | HistoryPage items _ _ totalItems =>
      map e_prompt items = ["abc"%string] /\ totalItems = 1%Z
  | _ => False
  end /\
  ~ contains_ci "a_c" "abc".
Proof.
  split; [vm_compute; split; reflexivity|].
  intros H. apply includes_spec in H. vm_compute in H. discriminate.
Qed.

Lemma search_per_variant_witness :
  (In first_row (literal_rows cat_and_dog "user-1" (trim " CAT ")) <->
   In first_row (user_history cat_and_dog) /\
   uh_user_id first_row = "user-1"%string /\
   (trim " CAT " = EmptyString \/
    contains_ci (trim " CAT ") (uh_prompt first_row))) /\
  (In (sample_item 1 "a red cat")
      (file_eligible "CAT" (FileServer.readHistory cat_and_dog_files "user-1")) <->
   In (sample_item 1 "a red cat")
      (FileServer.readHistory cat_and_dog_files "user-1") /\
   exists p, hi_prompt (sample_item 1 "a red cat") = JStr p /\ contains_ci "CAT" p).
Proof.
  assert (E : exists items,
             PgServer.get_history cat_and_dog "user-1" (search_for " CAT ") =
             json (HistoryPage items (Num 1) (Some 0%Z) 1)).
  { vm_compute. eexists. reflexivity. }
  destruct E as [items E].
  assert (A : forall r, In r (user_rows cat_and_dog "user-1") ->
                        ascii_text (uh_prompt r) = true).
  { intros r Hr. vm_compute in Hr. destruct Hr as [<- | [<- | []]]; reflexivity. }
  assert (F : FileServer.get_history cat_and_dog_files "user-1" (search_for "CAT") =
              json (FilePage [sample_item 1 "a red cat"] (Num 1) (Some 0%Z) 2))
    by (vm_compute; reflexivity).
  assert (B : forall item p,
             In item (FileServer.readHistory cat_and_dog_files "user-1") ->
             hi_prompt item = JStr p -> ascii_text p = true).
  { intros item p Hitem. vm_compute in Hitem.
    destruct Hitem as [<- | [<- | []]]; intros [= <-]; reflexivity. }
  split.
  - destruct (search_per_variant cat_and_dog cat_and_dog_files "user-1"
                (search_for " CAT ") items (Num 1) (Some 0%Z) 1 [] NaN None 0%Z
                eq_refl) as [Hpg _].
    destruct (Hpg E eq_refl A) as (_ & _ & _ & H).
    exact (H first_row).
  - destruct (search_per_variant cat_and_dog cat_and_dog_files "user-1"
                (search_for "CAT") [] NaN None 0%Z
                [sample_item 1 "a red cat"] (Num 1) (Some 0%Z) 2
                eq_refl) as [_ Hfile].
    destruct (Hfile F B) as (_ & _ & H).
    assert (N : q_search (search_for "CAT") <> EmptyString) by discriminate.
    destruct (H N) as [_ H'].
    exact (H' (sample_item 1 "a red cat")).
Defined.

Lemma update_frame_falsy_frameId_witness :
  Forall (fun frameId =>
            post_update_frame (filled 1) "user-1"
              {| uf_itemId := JStr "item-1"; uf_frameId := frameId |} =
            (filled 1,
             {| status := 400;
                payload := ErrorBody "itemId and frameId are required" None |}))
         [JUndefined; JNull; JStr EmptyString; JNum 0; JBool false].
Proof.
  pose proof (fun frameId =>
                update_frame_falsy_frameId (filled 1) "user-1"
                  {| uf_itemId := JStr "item-1"; uf_frameId := frameId |}) as H.
  apply Forall_cons; [exact (H JUndefined eq_refl)|].
  apply Forall_cons; [exact (H JNull eq_refl)|].
  apply Forall_cons; [exact (H (JStr EmptyString) eq_refl)|].
  apply Forall_cons; [exact (H (JNum 0) eq_refl)|].
  apply Forall_cons; [exact (H (JBool false) eq_refl)|].
  apply Forall_nil.
Defined.

(* ====================================================================== *)
(** * Frame updates *)
(* ====================================================================== *)

Lemma database_eta d :
  {| user_history := user_history d;
     user_history_id_seq := user_history_id_seq d;
     license_usage := license_usage d;
     license_usage_id_seq := license_usage_id_seq d |} = d.
Proof. destruct d; reflexivity. Qed.

Lemma set_frame_id_miss fid u i r :
  ~ (uh_user_id r = u /\ uh_item_id r = i) -> set_frame_id fid u i r = r.
Proof.
  intros H. unfold set_frame_id.
  destruct (String.eqb_spec (uh_user_id r) u), (String.eqb_spec (uh_item_id r) i);
    cbn [andb]; tauto.
Qed.

Lemma update_frame_id_fits d fid u i :
  (String.length fid <= 255)%nat ->
  update_frame_id d (Some fid) (Some u) (Some i) =
  Ok ({| user_history := map (set_frame_id (Some fid) u i) (user_history d);
         user_history_id_seq := user_history_id_seq d;
         license_usage := license_usage d;
         license_usage_id_seq := license_usage_id_seq d |},
      Z.of_nat (List.length
                  (filter (fun r => (uh_user_id r =? u) && (uh_item_id r =? i))
                          (user_history d)))).
Proof.
  intros H. unfold update_frame_id. cbn [varchar_null].
  rewrite (varchar_fits _ _ H). reflexivity.
Qed.

Lemma filter_hit_unique (rows : list history_row) u i r0 :
  NoDup (map uh_item_id rows) ->
  In r0 rows -> uh_user_id r0 = u -> uh_item_id r0 = i ->
  filter (fun r => (uh_user_id r =? u) && (uh_item_id r =? i)) rows = [r0].
Proof.
  intros ND Hin Hu Hi.
  rewrite <- (filter_unique uh_item_id i rows r0 ND Hin Hi).
  apply filter_ext_in. intros r Hr.
  destruct (String.eqb_spec (uh_item_id r) i) as [E|E]; [|apply andb_false_r].
  rewrite andb_true_r. apply String.eqb_eq.
  assert (In r (filter (fun r => uh_item_id r =? i) rows))
    by (apply filter_In; split; [exact Hr | apply String.eqb_eq; exact E]).
  rewrite (filter_unique uh_item_id i rows r0 ND Hin Hi) in H.
  destruct H as [<- | []]. exact Hu.
Qed.

Lemma post_update_frame_hit :
  forall d userId b r0,
    well_formed d ->
    truthy (uf_itemId b) = true ->
    truthy (uf_frameId b) = true ->
    (String.length (toString (uf_frameId b)) <= 255)%nat ->
    In r0 (user_history d) ->
    uh_user_id r0 = userId ->
    uh_item_id r0 = toString (uf_itemId b) ->
    exists d',
      post_update_frame d userId b =
        (d', {| status := 200;
                payload := FrameUpdated
                  ("Updated frameId for item " ++ toString (uf_itemId b)) 1 |}) /\
      (exists before after,
          user_history d = before ++ r0 :: after /\
          user_history d' =
            before ++
            {| uh_id := uh_id r0;
               uh_user_id := uh_user_id r0;
               uh_item_id := uh_item_id r0;
               uh_prompt := uh_prompt r0;
               uh_image_url := uh_image_url r0;
               uh_original_image_url := uh_original_image_url r0;
               uh_frame_id := Some (toString (uf_frameId b));
               uh_frame_name := uh_frame_name r0;
               uh_timestamp := uh_timestamp r0;
               uh_quality := uh_quality r0;
               uh_width := uh_width r0;
               uh_height := uh_height r0;
               uh_created_at := uh_created_at r0 |} :: after) /\
      license_usage d' = license_usage d.
Proof.
  intros d userId b r0 (Hid & Hit & _) Hi Hf Hlen Hin Hu Hitem.
  unfold post_update_frame. rewrite Hi, Hf. cbn [negb orb].
  rewrite (truthy_param _ Hi), (truthy_param _ Hf).
  rewrite (update_frame_id_fits _ _ _ _ Hlen).
  rewrite (filter_hit_unique _ _ _ r0 Hit Hin Hu (eq_sym (eq_sym Hitem))).
  cbn [List.length Z.of_nat Z.ltb Z.compare Pos.of_succ_nat].
  eexists. split; [reflexivity|]. cbn [user_history license_usage].
  split; [|reflexivity].
  apply in_split in Hin as (before & after & E).
  exists before, after. split; [exact E|].
  rewrite E in Hit. rewrite E, map_app. cbn [map].
  rewrite map_app in Hit. cbn [map] in Hit.
  assert (Hother : forall r, In r (before ++ after) ->
            set_frame_id (Some (toString (uf_frameId b))) userId
                         (toString (uf_itemId b)) r = r).
  { intros r Hr. apply set_frame_id_miss. intros [_ E'].
    apply NoDup_remove_2 in Hit. apply Hit.
    rewrite Hitem, <- E', <- map_app. apply in_map. exact Hr. }
  f_equal.
  - rewrite <- (map_id before) at 2. apply map_ext_in.
    intros r Hr. apply Hother. apply in_or_app. left. exact Hr.
  - f_equal.
    + unfold set_frame_id. rewrite Hu, Hitem, !String.eqb_refl. reflexivity.
    + rewrite <- (map_id after) at 2. apply map_ext_in.
      intros r Hr. apply Hother. apply in_or_app. right. exact Hr.
Qed.

(** X1. update-frame on an item the user has stored answers 200 with
    updatedRows 1; in user_history exactly the row of that user and item
    changes, and of it only frame_id, which becomes the frameId of the body;
    license_usage is left as it was. *)
Theorem update_frame_sets_one_row :
  forall d userId b r0,
    well_formed d ->
    truthy (uf_itemId b) = true ->
    truthy (uf_frameId b) = true ->
    (String.length (toString (uf_frameId b)) <= 255)%nat ->
    In r0 (user_history d) ->
    uh_user_id r0 = userId ->
    uh_item_id r0 = toString (uf_itemId b) ->
    exists d',
      post_update_frame d userId b =
        (d', {| status := 200;
                payload := FrameUpdated
                  ("Updated frameId for item " ++ toString (uf_itemId b)) 1 |}) /\
      (exists before after,
          user_history d = before ++ r0 :: after /\
          user_history d' =
            before ++
            {| uh_id := uh_id r0;
               uh_user_id := uh_user_id r0;
               uh_item_id := uh_item_id r0;
               uh_prompt := uh_prompt r0;
               uh_image_url := uh_image_url r0;
               uh_original_image_url := uh_original_image_url r0;
               uh_frame_id := Some (toString (uf_frameId b));
               uh_frame_name := uh_frame_name r0;
               uh_timestamp := uh_timestamp r0;
               uh_quality := uh_quality r0;
               uh_width := uh_width r0;
               uh_height := uh_height r0;
               uh_created_at := uh_created_at r0 |} :: after) /\
      license_usage d' = license_usage d.
Proof. exact post_update_frame_hit. Qed.

(** X2. update-frame with an itemId that no row of the user carries
    answers 404 with the message naming the item and the user, and changes
    nothing. *)
Theorem update_frame_unknown_item :
  forall d userId b,
    truthy (uf_itemId b) = true ->
    truthy (uf_frameId b) = true ->
    (String.length (toString (uf_frameId b)) <= 255)%nat ->
    (forall r, In r (user_history d) ->
               ~ (uh_user_id r = userId /\ uh_item_id r = toString (uf_itemId b))) ->
    post_update_frame d userId b =
      (d, {| status := 404;
             payload := FrameNotFound
               ("No history item found with id " ++ toString (uf_itemId b) ++
                " for user " ++ userId) |}).
Proof.
  intros d userId b Hi Hf Hlen Hnone.
  unfold post_update_frame. rewrite Hi, Hf. cbn [negb orb].
  rewrite (truthy_param _ Hi), (truthy_param _ Hf).
  rewrite (update_frame_id_fits _ _ _ _ Hlen).
  assert (Hmap : map (set_frame_id (Some (toString (uf_frameId b))) userId
                        (toString (uf_itemId b))) (user_history d) = user_history d).
  { rewrite <- (map_id (user_history d)) at 2. apply map_ext_in.
    intros r Hr. apply set_frame_id_miss. apply Hnone. exact Hr. }
  assert (Hcount : filter (fun r => (uh_user_id r =? userId) &&
                                    (uh_item_id r =? toString (uf_itemId b)))
                          (user_history d) = []).
  { destruct (filter _ _) as [|r rest] eqn:E; [reflexivity|].
    assert (Hr : In r (filter (fun r => (uh_user_id r =? userId) &&
                                        (uh_item_id r =? toString (uf_itemId b)))
                              (user_history d))) by (rewrite E; left; reflexivity).
    apply filter_In in Hr as [Hr1 Hr2]. apply andb_prop in Hr2 as [A B].
    apply String.eqb_eq in A, B. exfalso. apply (Hnone r Hr1). split; assumption. }
  rewrite Hmap, Hcount, database_eta. reflexivity.
Qed.

(* ====================================================================== *)
(** * License redemption *)
(* ====================================================================== *)

Lemma post_verify_license_past_lookup e now w b :
  passes_lookup e w b ->
  post_verify_license e now w b =
  match verdict e b with
  | FetchThrows => (asked w b, Responded internal_error)
  | FetchJson ok success message purchase =>
      if ok && success then insert_phase now (asked w b) b purchase
      else (asked w b,
            Responded (json (LicenseRefused
              (if truthy message then message
               else JStr "License verification failed with Gumroad") false)))
  end.
Proof.
  intros (Hp & Hk & Hu & Hsel & Htok).
  unfold post_verify_license. cbn [step]. unfold lookup_phase.
  rewrite Hp, Hk, Hu. cbn [negb orb]. rewrite Hsel, Htok.
  cbn [step]. unfold verify_phase. fold (verdict e b). fold (asked w b).
  destruct (verdict e b) as [|ok success m p]; [reflexivity|].
  destruct (ok && success); reflexivity.
Qed.

Lemma post_verify_license_stopped e now w b :
  ~ passes_lookup e w b ->
  exists r, post_verify_license e now w b = (w, Responded r) /\ is_granted r = false.
Proof.
  intros H. unfold post_verify_license. cbn [step]. unfold lookup_phase.
  destruct (truthy (vl_productId b)) eqn:Hp; [|cbn; eauto].
  destruct (truthy (vl_licenseKey b)) eqn:Hk; [|cbn; eauto].
  destruct (truthy (vl_userId b)) eqn:Hu; [|cbn; eauto].
  cbn [negb orb].
  destruct (select_license _ _) eqn:Hsel; [|cbn; eauto].
  destruct (configured _) eqn:Htok; [|cbn; eauto].
  exfalso. apply H. repeat split; assumption.
Qed.

Lemma passes_lookup_dec e w b : passes_lookup e w b \/ ~ passes_lookup e w b.
Proof.
  unfold passes_lookup.
  destruct (truthy (vl_productId b)); [|right; intros (? & _); discriminate].
  destruct (truthy (vl_licenseKey b)); [|right; intros (_ & ? & _); discriminate].
  destruct (truthy (vl_userId b)); [|right; intros (_ & _ & ? & _); discriminate].
  destruct (select_license _ _); [|right; intros (_ & _ & _ & ? & _); discriminate].
  destruct (configured _); [|right; intros (_ & _ & _ & _ & ?); discriminate].
  left. repeat split.
Qed.

(** What a successful license INSERT stored. *)
Lemma insert_license_usage_row now d v d' :
  insert_license_usage now d v = Ok d' ->
  exists row,
    license_usage d' = license_usage d ++ [row] /\
    varchar_null 255 (lv_license_key v) = Ok (Some (lu_license_key row)) /\
    varchar_null 255 (lv_user_id v) = Ok (Some (lu_user_id row)) /\
    varchar_null 255 (lv_product_id v) = Ok (Some (lu_product_id row)) /\
    varchar_null 50 (lv_product_tier v) = Ok (Some (lu_product_tier row)) /\
    lv_flowers_granted v = Some (lu_flowers_granted row) /\
    lu_gumroad_data row = lv_gumroad_data v /\
    lu_activated_at row = now /\
    lu_status row = "active" /\
    lu_id row = license_usage_id_seq d /\
    existsb (has_key (lu_license_key row)) (license_usage d) = false /\
    user_history d' = user_history d /\
    user_history_id_seq d' = user_history_id_seq d.
Proof.
  unfold insert_license_usage. intros H.
  apply bind_ok in H as [fl [Hfl H]].
  apply bind_ok in H as [key [Hk H]].
  apply bind_ok in H as [user [Hu H]].
  apply bind_ok in H as [prod [Hp H]].
  apply bind_ok in H as [tier [Ht H]].
  apply bind_ok in H as [key' [Hk' H]].
  apply bind_ok in H as [user' [Hu' H]].
  apply bind_ok in H as [prod' [Hp' H]].
  apply bind_ok in H as [tier' [Ht' H]].
  apply bind_ok in H as [fl' [Hfl' H]].
  apply not_null_ok in Hk', Hu', Hp', Ht', Hfl'. subst key user prod tier fl.
  destruct (existsb _ (license_usage d)) eqn:E; [discriminate|].
  injection H as <-. eexists.
  cbn [license_usage user_history user_history_id_seq lu_license_key lu_user_id
       lu_product_id lu_product_tier lu_flowers_granted lu_gumroad_data
       lu_activated_at lu_status lu_id].
  repeat split; try assumption.
  destruct (lv_flowers_granted v) as [z|]; [|discriminate].
  cbn [int4_null] in Hfl.
  destruct ((_ <=? z)%Z && (z <=? _)%Z); [|discriminate].
  injection Hfl as ->. reflexivity.
Qed.

Lemma post_verify_license_grant :
  forall e now w b w' r,
    post_verify_license e now w b = (w', Responded r) ->
    (is_granted r = false -> db w' = db w) /\
    (is_granted r = true ->
     passes_lookup e w b /\ confirms e b /\
     exists row,
       license_usage (db w') = license_usage (db w) ++ [row] /\
       varchar 255 (toString (vl_licenseKey b)) = Ok (lu_license_key row) /\
       varchar 255 (toString (vl_userId b)) = Ok (lu_user_id row) /\
       varchar 255 (toString (vl_productId b)) = Ok (lu_product_id row) /\
       lu_activated_at row = now /\
       lu_status row = "active" /\
       user_history (db w') = user_history (db w)).
Proof.
  intros e now w b w' r H.
  destruct (passes_lookup_dec e w b) as [P | N].
  - rewrite (post_verify_license_past_lookup _ _ _ _ P) in H.
    destruct (verdict e b) as [|ok success m p] eqn:V.
    + injection H as <- <-. split; [reflexivity | discriminate].
    + destruct (ok && success) eqn:OK.
      * unfold insert_phase in H.
        destruct (insert_license_usage _ _ _) as [d'|err] eqn:I;
          injection H as <- <-.
        -- split; [discriminate|]. intros _. split; [exact P|]. split.
           { apply andb_prop in OK as [-> ->]. exists m, p. exact V. }
           apply insert_license_usage_row in I
             as (row & Hrows & Hk & Hu & Hpid & _ & _ & _ & Hnow & Hst & _ & _ & Hh & _).
           destruct P as (Hp & Hkey & Huser & _).
           cbn [lv_license_key lv_user_id lv_product_id] in Hk, Hu, Hpid.
           rewrite (truthy_param _ Hkey) in Hk.
           rewrite (truthy_param _ Huser) in Hu.
           rewrite (truthy_param _ Hp) in Hpid.
           cbn [varchar_null] in Hk, Hu, Hpid.
           exists row. cbn [db asked] in *.
           repeat split; try assumption.
           ++ destruct (varchar 255 (toString (vl_licenseKey b))); cbn in Hk; congruence.
           ++ destruct (varchar 255 (toString (vl_userId b))); cbn in Hu; congruence.
           ++ destruct (varchar 255 (toString (vl_productId b))); cbn in Hpid; congruence.
        -- split; [reflexivity | discriminate].
      * injection H as <- <-. split; [reflexivity | discriminate].
  - destruct (post_verify_license_stopped e now w b N) as (r' & E & G).
    rewrite E in H. injection H as <- <-.
    split; [reflexivity | congruence].
Qed.

(** X5. The handler asks the verifier at most once per request:
    exactly once, with the product and the key of the body, when the request
    passes the field check, the lookup and the token check, and not at all
    otherwise (then nothing changes). *)
Theorem verifier_asked_at_most_once :
  forall e now w b,
    let w' := fst (post_verify_license e now w b) in
    (passes_lookup e w b /\
     gumroad_calls w' =
       (toString (vl_productId b), toString (vl_licenseKey b)) :: gumroad_calls w) \/
    (~ passes_lookup e w b /\ w' = w).
Proof.
  intros e now w b. cbv zeta.
  destruct (passes_lookup_dec e w b) as [P | N].
  - left. split; [exact P|].
    rewrite (post_verify_license_past_lookup _ _ _ _ P).
    destruct (verdict e b) as [|ok success m p]; [reflexivity|].
    destruct (ok && success); [|reflexivity].
    unfold insert_phase. destruct (insert_license_usage _ _ _); reflexivity.
  - right. split; [exact N|].
    destruct (post_verify_license_stopped e now w b N) as (r' & E & _).
    rewrite E. reflexivity.
Qed.

(** X6. A request past the lookup that the verifier does not confirm
    stores nothing: 500 when the call to the verifier throws, otherwise 200
    with success false, alreadyUsed false and the verifier's message, or the
    fixed text when that message is falsy. *)
Theorem redeem_not_confirmed :
  forall e now w b,
    passes_lookup e w b ->
    ~ confirms e b ->
    post_verify_license e now w b =
      (asked w b,
       Responded
         match verdict e b with
         | FetchThrows =>
             {| status := 500;
                payload := LicenseFailure
                  "Internal server error during license verification" |}
         | FetchJson _ _ message _ =>
             {| status := 200;
                payload := LicenseRefused
                  (if truthy message then message
                   else JStr "License verification failed with Gumroad") false |}
         end).
Proof.
  intros e now w b P N.
  rewrite (post_verify_license_past_lookup _ _ _ _ P).
  destruct (verdict e b) as [|ok success m p] eqn:V; [reflexivity|].
  destruct (ok && success) eqn:OK; [|reflexivity].
  exfalso. apply N. apply andb_prop in OK as [-> ->]. exists m, p. exact V.
Qed.

(** Without an access token the handler stops before the verifier. *)
Theorem redeem_without_token :
  forall e now w b,
    truthy (vl_productId b) = true ->
    truthy (vl_licenseKey b) = true ->
    truthy (vl_userId b) = true ->
    select_license (db w) (param (vl_licenseKey b)) = [] ->
    configured (GUMROAD_ACCESS_TOKEN e) = false ->
    post_verify_license e now w b =
      (w, Responded {| status := 500;
                       payload := ErrorBody "Gumroad access token not configured"
                                            None |}).
Proof.
  intros e now w b Hp Hk Hu Hsel Htok.
  unfold post_verify_license. cbn [step]. unfold lookup_phase.
  rewrite Hp, Hk, Hu. cbn [negb orb]. rewrite Hsel, Htok. reflexivity.
Qed.

(** X4. A verify-license request that is not granted leaves both
    tables as they were. One that is granted passed the lookup, was confirmed
    by the verifier, and appended exactly one row to license_usage: key, user
    and product of the body, activated at the time of the request, status
    active; user_history is untouched. *)
Theorem redeem_writes_only_on_grant :
  forall e now w b w' r,
    post_verify_license e now w b = (w', Responded r) ->
    (is_granted r = false -> db w' = db w) /\
    (is_granted r = true ->
     passes_lookup e w b /\ confirms e b /\
     exists row,
       license_usage (db w') = license_usage (db w) ++ [row] /\
       varchar 255 (toString (vl_licenseKey b)) = Ok (lu_license_key row) /\
       varchar 255 (toString (vl_userId b)) = Ok (lu_user_id row) /\
       varchar 255 (toString (vl_productId b)) = Ok (lu_product_id row) /\
       lu_activated_at row = now /\
       lu_status row = "active" /\
       user_history (db w') = user_history (db w)).
Proof. exact post_verify_license_grant. Qed.

(* ====================================================================== *)
(** * Known products and repeated keys *)
(* ====================================================================== *)

(** X7. A confirmed request for one of the three product ids of the table
    stores one row with the tier and the flowers the table gives that id
    (starter 50 for 2FqGqjM16Jjs0NDRtncN4g==, creator 130 for
    wIY3NX2VLnJ48nTz0ZVTIA==, pro 300 for 711rWT3AqbdSnNL0p9MxIw==) and the
    purchase as gumroad_data, and answers with the same tier and flowers. *)
Theorem redeem_known_product :
  forall e now w b t f message purchase,
    passes_lookup e w b ->
    verdict e b = FetchJson true true message purchase ->
    In (toString (vl_productId b), (t, f))
       [ ("2FqGqjM16Jjs0NDRtncN4g==", ("starter", 50%Z));
         ("wIY3NX2VLnJ48nTz0ZVTIA==", ("creator", 130%Z));
         ("711rWT3AqbdSnNL0p9MxIw==", ("pro", 300%Z)) ] ->
    (String.length (toString (vl_licenseKey b)) <= 255)%nat ->
    (String.length (toString (vl_userId b)) <= 255)%nat ->
    post_verify_license e now w b =
      ({| db :=
            {| user_history := user_history (db w);
               user_history_id_seq := user_history_id_seq (db w);
               license_usage :=
                 license_usage (db w) ++
                 [ {| lu_id := license_usage_id_seq (db w);
                      lu_license_key := toString (vl_licenseKey b);
                      lu_user_id := toString (vl_userId b);
                      lu_product_id := toString (vl_productId b);
                      lu_product_tier := t;
                      lu_flowers_granted := f;
                      lu_activated_at := now;
                      lu_gumroad_data := purchase;
                      lu_status := "active" |} ];
               license_usage_id_seq := license_usage_id_seq (db w) + 1 |};
          gumroad_calls :=
            (toString (vl_productId b), toString (vl_licenseKey b))
            :: gumroad_calls w |},
       Responded {| status := 200;
                    payload := LicenseGranted purchase (JStr t) (JNum f) (JNum f) |}).
Proof.
  intros e now w b t f message purchase P V Hin Lk Lu.
  rewrite (post_verify_license_past_lookup _ _ _ _ P), V. cbn [andb].
  destruct P as (Hp & Hk & Hu & Hsel & _).
  unfold insert_phase, productInfo, insert_license_usage.
  cbn [lv_license_key lv_user_id lv_product_id lv_product_tier lv_flowers_granted
       lv_gumroad_data asked db].
  rewrite (truthy_param _ Hp), (truthy_param _ Hk), (truthy_param _ Hu) in *.
  cbn [varchar_null].
  rewrite (varchar_fits _ _ Lk), (varchar_fits _ _ Lu).
  apply select_empty_absent in Hsel.
  unfold asked. cbn [db gumroad_calls].
  destruct Hin as [E | [E | [E | []]]]; injection E as <- <- <-;
    cbn [own_property productTierMap String.eqb Ascii.eqb Bool.eqb
         tier flowers param toString int_param int4_null varchar_null];
    rewrite varchar_fits by (cbn; lia);
    cbn [bind not_null Z.leb Z.compare andb Pos.compare Pos.compare_cont];
    match goal with
    | |- context [varchar 50 ?s] => change (varchar 50 s) with (Ok (A:=string) s)
    end;
    cbn [bind not_null];
    fold (has_key (toString (vl_licenseKey b)));
    rewrite Hsel; reflexivity.
Qed.

(** X8. Once a key has been granted, any later request with the same key
    (whatever its user or product) is refused with alreadyUsed true and the
    message naming the first activation and its user, and changes nothing. *)
Theorem redeem_twice :
  forall e now now' w b w1 r b',
    NoDup (map lu_license_key (license_usage (db w))) ->
    post_verify_license e now w b = (w1, Responded r) ->
    is_granted r = true ->
    (String.length (toString (vl_licenseKey b)) <= 255)%nat ->
    (String.length (toString (vl_userId b)) <= 255)%nat ->
    truthy (vl_productId b') = true ->
    truthy (vl_licenseKey b') = true ->
    truthy (vl_userId b') = true ->
    toString (vl_licenseKey b') = toString (vl_licenseKey b) ->
    post_verify_license e now' w1 b' =
      (w1, Responded
             {| status := 200;
                payload :=
                  LicenseRefused
                    (JStr ("This license key has already been activated on " ++
                           toLocaleDateString e now ++
                           " by user " ++ toString (vl_userId b) ++
                           ". Each license can only be used once."))
                    true |}).
Proof.
  intros e now now' w b w1 r b' ND H G Lk Lu Hp' Hk' Hu' Hsame.
  destruct (post_verify_license_grant e now w b w1 r H) as [_ Hg].
  destruct (Hg G) as (_ & _ & row & Hrows & Hkey & Huser & _ & Hnow & _).
  rewrite (varchar_fits _ _ Lk) in Hkey. injection Hkey as Hkey.
  rewrite (varchar_fits _ _ Lu) in Huser. injection Huser as Huser.
  assert (ND1 : NoDup (map lu_license_key (license_usage (db w1)))).
  { unfold post_verify_license in H.
    destruct (step e now w (Received b)) as [wa ta] eqn:Sa.
    destruct (step e now wa ta) as [wb tb] eqn:Sb.
    eapply step_keeps_keys_unique; [|exact H].
    eapply step_keeps_keys_unique; [|exact Sb].
    eapply step_keeps_keys_unique; [exact ND|exact Sa]. }
  assert (Hin : In row (license_usage (db w1)))
    by (rewrite Hrows; apply in_or_app; right; left; reflexivity).
  unfold post_verify_license. cbn [step]. unfold lookup_phase.
  rewrite Hp', Hk', Hu'. cbn [negb orb]. rewrite (truthy_param _ Hk').
  rewrite (select_license_unique _ _ row ND1 Hin) by congruence.
  cbn [step]. unfold already_used. rewrite Hnow, <- Huser. reflexivity.
Qed.

Lemma step_appends e now w t w' t' :
  step e now w t = (w', t') ->
  exists extra,
    license_usage (db w') = license_usage (db w) ++ extra /\
    user_history (db w') = user_history (db w).
Proof.
  intros H. destruct t as [b|b|b p|r]; cbn [step] in H.
  - unfold lookup_phase in H. exists [].
    destruct (_ || _); [injection H as <- _; rewrite app_nil_r; auto|].
    destruct (select_license _ _); [|injection H as <- _; rewrite app_nil_r; auto].
    destruct (configured _); injection H as <- _; rewrite app_nil_r; auto.
  - unfold verify_phase in H. exists [].
    destruct (gumroad_verify _ _ _ _) as [|ok success m p].
    + injection H as <- _. rewrite app_nil_r. auto.
    + destruct (ok && success); injection H as <- _; rewrite app_nil_r; auto.
  - unfold insert_phase in H.
    destruct (insert_license_usage _ _ _) as [d'|err] eqn:I; injection H as <- _.
    + apply insert_license_usage_row in I
        as (row & Hrows & _ & _ & _ & _ & _ & _ & _ & _ & _ & _ & Hh & _).
      exists [row]. auto.
    + exists []. rewrite app_nil_r. auto.
  - injection H as <- _. exists []. rewrite app_nil_r. auto.
Qed.

(** X9. Under any interleaving of two requests, license_usage only
    grows at its end, user_history is not touched, and distinct keys stay
    distinct. *)
Theorem redemptions_are_append_only :
  forall e schedule c,
    (exists extra,
        license_usage (db (shared (run_pair e schedule c))) =
        license_usage (db (shared c)) ++ extra) /\
    user_history (db (shared (run_pair e schedule c))) =
      user_history (db (shared c)) /\
    (NoDup (map lu_license_key (license_usage (db (shared c)))) ->
     NoDup (map lu_license_key
              (license_usage (db (shared (run_pair e schedule c)))))).
Proof.
  intros e schedule. induction schedule as [|[who now] s IH]; intros c.
  - cbn. split; [exists []; symmetry; apply app_nil_r|]. auto.
  - cbn [run_pair fold_left]. change (fold_left (step_pair e) s ?x) with (run_pair e s x).
    destruct (IH (step_pair e c (who, now))) as ((extra & Hx) & Hh & Hn).
    assert (S : exists w t, (if who then step e now (shared c) (first c)
                             else step e now (shared c) (second c)) = (w, t) /\
                            shared (step_pair e c (who, now)) = w).
    { unfold step_pair. destruct who.
      - destruct (step e now (shared c) (first c)) as [w t]. eauto.
      - destruct (step e now (shared c) (second c)) as [w t]. eauto. }
    destruct S as (w & t & Hstep & Hshared).
    rewrite Hshared in *.
    assert (Hstep' : exists t0, step e now (shared c) t0 = (w, t))
      by (destruct who; eauto).
    destruct Hstep' as [t0 Hs].
    destruct (step_appends _ _ _ _ _ _ Hs) as (extra0 & Hx0 & Hh0).
    split; [|split].
    + exists (extra0 ++ extra). rewrite Hx, Hx0, app_assoc. reflexivity.
    + rewrite Hh, Hh0. reflexivity.
    + intros ND. apply Hn. eapply step_keeps_keys_unique; eassumption.
Qed.

(* ====================================================================== *)
(** * Pages of the listing *)
(* ====================================================================== *)

(* ---------- pages ---------- *)

Lemma limit_offset_ok {A} (rows : list A) p n :
  paging_ok p n ->
  limit_offset rows (Some n) (Some (p * n)%Z) =
  Ok (firstn (Z.to_nat n) (skipn (Z.to_nat (p * n)) rows)).
Proof.
  intros (Hn & Hp & Hpn). unfold limit_offset, bigint.
  replace (_ && _ && _ && _) with true; [reflexivity|].
  symmetry. rewrite !andb_true_iff, !Z.leb_le. nia.
Qed.

Lemma get_history_all d userId page search :
  PgServer.get_history d userId
    {| q_page := page; q_limit := LimitAll; q_search := search |} =
  json (HistoryPage (listing d userId search)
          (ceil_div (Z.of_nat (List.length (listing d userId search)))
                    (Some (Z.of_nat (List.length (listing d userId search)))))
          page
          (Z.of_nat (List.length (listing d userId search)))).
Proof.
  unfold PgServer.get_history, listing. cbn [q_limit q_search q_page].
  rewrite length_map, (Permutation_length (order_by_timestamp_desc_perm _)).
  reflexivity.
Qed.

Lemma in_firstn {A} n (l : list A) x : In x (firstn n l) -> In x l.
Proof. intros H. rewrite <- (firstn_skipn n l). apply in_or_app. auto. Qed.

Lemma in_skipn {A} n (l : list A) x : In x (skipn n l) -> In x l.
Proof. intros H. rewrite <- (firstn_skipn n l). apply in_or_app. auto. Qed.




(* ---------- isolation ---------- *)

Lemma window_incl {A} q (rows : list A) x : In x (window q rows) -> In x rows.
Proof.
  unfold window. destruct (q_limit q); try (intros H; exact H); try contradiction.
  destruct (q_page q); [|contradiction].
  intros H. eapply in_skipn, in_firstn, H.
Qed.

(** X11. Every item of a listing is a stored row of the requesting
    user, and totalItems never exceeds that user's number of rows. *)
Theorem listing_shows_own_rows_only :
  forall d userId q items totalPages currentPage totalItems,
    PgServer.get_history d userId q =
      json (HistoryPage items totalPages currentPage totalItems) ->
    (forall item, In item items ->
       exists r, In r (user_history d) /\ uh_user_id r = userId /\
                 item = format_row r) /\
    (List.length items <= List.length (user_rows d userId))%nat /\
    (totalItems <= count_user_history d userId)%Z.
Proof.
  intros d userId q items tp cp total H.
  apply pg_get_history_ok in H as (Hi & Ht & _). cbv zeta in *.
  assert (Hsub : forall r, In r (matching d userId (search_pattern (q_search q))) ->
                           In r (user_rows d userId)).
  { intros r Hr. apply matching_spec in Hr as (Hin & Hu & _).
    apply filter_In. split; [exact Hin|]. unfold of_user. apply String.eqb_eq, Hu. }
  assert (Hlen : (List.length (matching d userId (search_pattern (q_search q)))
                  <= List.length (user_rows d userId))%nat).
  { unfold matching, user_rows.
    induction (user_history d) as [|r rows IH]; cbn [filter]; [lia|].
    destruct (of_user userId r); cbn [andb]; [|exact IH].
    destruct (match search_pattern (q_search q) with
              | Some p => ilike (uh_prompt r) p | None => true end);
      cbn [List.length]; lia. }
  split; [|split].
  - intros item Hitem. rewrite Hi in Hitem.
    apply in_map_iff in Hitem as (r & <- & Hr).
    apply window_incl in Hr.
    eapply Permutation_in in Hr; [|apply order_by_timestamp_desc_perm].
    apply matching_spec in Hr as (Hin & Hu & _). eauto.
  - rewrite Hi, length_map.
    assert (W : (List.length (window q (order_by_timestamp_desc
                   (matching d userId (search_pattern (q_search q)))))
                 <= List.length (order_by_timestamp_desc
                   (matching d userId (search_pattern (q_search q)))))%nat).
    { unfold window. destruct (q_limit q); try lia; cbn [List.length]; try lia.
      destruct (q_page q); cbn [List.length]; [|lia].
      rewrite length_firstn, length_skipn. lia. }
    rewrite (Permutation_length (order_by_timestamp_desc_perm _)) in W. lia.
  - rewrite Ht. unfold count_user_history. fold (user_rows d userId). lia.
Qed.

(* ---------- unknown user ---------- *)



(* ====================================================================== *)
(** * Search text *)
(* ====================================================================== *)

Local Open Scope string_scope.

(* ---------- trim ---------- *)

Lemma trimEnd_cons_kept c s :
  is_space c = false -> trimEnd (String c s) = String c (trimEnd s).
Proof.
  intros H. change (trimEnd (String c s)) with
    (match trimEnd s with
     | EmptyString => if is_space c then EmptyString else String c EmptyString
     | r => String c r
     end).
  rewrite H. destruct (trimEnd s); reflexivity.
Qed.

Lemma trimEnd_cons c s :
  trimEnd (String c s) =
  match trimEnd s with
  | EmptyString => if is_space c then EmptyString else String c EmptyString
  | r => String c r
  end.
Proof. reflexivity. Qed.

Lemma trimEnd_idempotent s : trimEnd (trimEnd s) = trimEnd s.
Proof.
  induction s as [|c s IH]; [reflexivity|].
  rewrite trimEnd_cons. destruct (trimEnd s) as [|d r] eqn:E.
  - destruct (is_space c) eqn:Hc; [reflexivity|].
    rewrite trimEnd_cons. cbn [trimEnd]. rewrite Hc. reflexivity.
  - rewrite trimEnd_cons, IH. reflexivity.
Qed.

Lemma trimStart_head s :
  trimStart s = EmptyString \/
  exists c r, trimStart s = String c r /\ is_space c = false.
Proof.
  induction s as [|c s IH]; [left; reflexivity|].
  cbn [trimStart]. destruct (is_space c) eqn:Hc; [exact IH|].
  right. eauto.
Qed.

Lemma trimStart_kept c s : is_space c = false -> trimStart (String c s) = String c s.
Proof. intros H. cbn [trimStart]. rewrite H. reflexivity. Qed.

Lemma trim_idempotent s : trim (trim s) = trim s.
Proof.
  unfold trim. destruct (trimStart_head s) as [E | (c & r & E & Hc)]; rewrite E.
  - reflexivity.
  - rewrite (trimEnd_cons_kept _ _ Hc), (trimStart_kept _ _ Hc).
    rewrite <- (trimEnd_cons_kept _ _ Hc). apply trimEnd_idempotent.
Qed.

Lemma search_pattern_trim s : search_pattern (trim s) = search_pattern s.
Proof.
  unfold search_pattern. rewrite trim_idempotent. cbn [truthy].
  destruct (String.eqb_spec s EmptyString) as [->|_]; [reflexivity|].
  cbn [negb andb]. rewrite andb_diag. reflexivity.
Qed.

(** X13. The database variant trims the search text: blanks around
    it do not change the answer. *)
Theorem search_ignores_outer_blanks :
  forall d userId q,
    PgServer.get_history d userId (with_search q (trim (q_search q))) =
    PgServer.get_history d userId q.
Proof.
  intros d userId q. unfold PgServer.get_history, with_search.
  cbn [q_search q_limit q_page]. rewrite search_pattern_trim. reflexivity.
Qed.

(* ---------- case ---------- *)

Lemma lower_ascii_idempotent c : lower_ascii (lower_ascii c) = lower_ascii c.
Proof. destruct c as [[] [] [] [] [] [] [] []]; reflexivity. Qed.

Lemma toLowerCase_idempotent s : toLowerCase (toLowerCase s) = toLowerCase s.
Proof.
  induction s as [|c s IH]; [reflexivity|].
  cbn [toLowerCase]. rewrite lower_ascii_idempotent, IH. reflexivity.
Qed.

Lemma is_space_lower c : is_space (lower_ascii c) = is_space c.
Proof. destruct c as [[] [] [] [] [] [] [] []]; reflexivity. Qed.

Lemma trimStart_lower s : trimStart (toLowerCase s) = toLowerCase (trimStart s).
Proof.
  induction s as [|c s IH]; [reflexivity|].
  cbn [toLowerCase trimStart]. rewrite is_space_lower.
  destruct (is_space c); [exact IH | reflexivity].
Qed.

Lemma trimEnd_lower s : trimEnd (toLowerCase s) = toLowerCase (trimEnd s).
Proof.
  induction s as [|c s IH]; [reflexivity|].
  cbn [toLowerCase].
  change (trimEnd (String (lower_ascii c) (toLowerCase s))) with
    (match trimEnd (toLowerCase s) with
     | EmptyString =>
         if is_space (lower_ascii c) then EmptyString
         else String (lower_ascii c) EmptyString
     | r => String (lower_ascii c) r
     end).
  change (trimEnd (String c s)) with
    (match trimEnd s with
     | EmptyString => if is_space c then EmptyString else String c EmptyString
     | r => String c r
     end).
  rewrite IH, is_space_lower.
  destruct (trimEnd s); cbn [toLowerCase]; [|reflexivity].
  destruct (is_space c); reflexivity.
Qed.

Lemma trim_lower s : trim (toLowerCase s) = toLowerCase (trim s).
Proof. unfold trim. rewrite trimStart_lower, trimEnd_lower. reflexivity. Qed.

Lemma toLowerCase_empty s : toLowerCase s = EmptyString <-> s = EmptyString.
Proof. destruct s; cbn; split; congruence. Qed.

Lemma same_fold_empty s1 s2 :
  toLowerCase s1 = toLowerCase s2 -> (s1 =? EmptyString) = (s2 =? EmptyString).
Proof.
  intros H.
  destruct (String.eqb_spec s1 EmptyString) as [E1|E1],
           (String.eqb_spec s2 EmptyString) as [E2|E2]; try reflexivity; exfalso.
  - subst s1. cbn [toLowerCase] in H. symmetry in H.
    apply (proj1 (toLowerCase_empty _)) in H. exact (E2 H).
  - subst s2. cbn [toLowerCase] in H.
    apply (proj1 (toLowerCase_empty _)) in H. exact (E1 H).
Qed.

Lemma matching_same_fold d userId s1 s2 :
  toLowerCase s1 = toLowerCase s2 ->
  matching d userId (search_pattern s1) = matching d userId (search_pattern s2).
Proof.
  intros H. unfold matching, search_pattern. cbn [truthy].
  assert (Ht : toLowerCase (trim s1) = toLowerCase (trim s2))
    by (rewrite <- !trim_lower, H; reflexivity).
  rewrite (same_fold_empty _ _ H), (same_fold_empty _ _ Ht).
  destruct (negb (s2 =? EmptyString) && negb (trim s2 =? EmptyString));
    [|reflexivity].
  apply filter_ext. intros r. f_equal. unfold ilike. f_equal.
  change ("%" ++ trim s1 ++ "%") with (String percent (trim s1 ++ "%")).
  change ("%" ++ trim s2 ++ "%") with (String percent (trim s2 ++ "%")).
  cbn [toLowerCase]. rewrite !toLowerCase_app, Ht. reflexivity.
Qed.

(** X14. Two search texts that differ in letter case only give the same
    answer, in both variants. *)
Theorem search_ignores_case :
  forall d fs userId q text,
    toLowerCase text = toLowerCase (q_search q) ->
    PgServer.get_history d userId (with_search q text) =
      PgServer.get_history d userId q /\
    FileServer.get_history fs userId (with_search q text) =
      FileServer.get_history fs userId q.
Proof.
  intros d fs userId q text H. split.
  - unfold PgServer.get_history, with_search. cbn [q_search q_limit q_page].
    rewrite (matching_same_fold d userId _ _ H). reflexivity.
  - unfold FileServer.get_history, with_search. cbn [q_search q_limit q_page].
    cbn [truthy]. rewrite (same_fold_empty _ _ H), H. reflexivity.
Qed.

(* ---------- records without a prompt ---------- *)



Local Open Scope list_scope.

(* ====================================================================== *)
(** * Append, then list *)
(* ====================================================================== *)

(** What a successful append stored, in terms of the request. *)
Lemma post_history_stored now d userId item d' total :
  PgServer.post_history now d userId item = (d', json (Saved total)) ->
  exists d1 i prompt row,
    insert_user_history now d (history_params now userId item) = Ok d1 /\
    d' = delete_beyond_limit d1 userId userId /\
    total = count_user_history d1 userId /\
    stored_item_id item = Some i /\
    param (hi_prompt item) = Some prompt /\
    varchar 255 userId = Ok (uh_user_id row) /\
    uh_id row = user_history_id_seq d /\
    uh_item_id row = i /\ uh_prompt row = prompt /\
    uh_image_url row = param (hi_imageUrl item) /\
    uh_original_image_url row = param (hi_originalImageUrl item) /\
    uh_timestamp row = stored_timestamp now item /\
    user_history d1 =
      (if existsb (has_item i) (user_history d)
       then map (on_conflict_update i prompt (param (hi_imageUrl item))
                   (param (hi_originalImageUrl item))
                   (stored_timestamp now item)) (user_history d)
       else user_history d ++ [row]).
Proof.
  intros H. unfold PgServer.post_history in H.
  destruct (insert_user_history _ _ _) as [d1|err] eqn:I; [|discriminate].
  injection H as <- <-.
  unfold insert_user_history in I.
  cbn [history_params hv_timestamp hv_width hv_height hv_user_id hv_item_id
       hv_frame_id hv_frame_name hv_quality hv_prompt hv_image_url
       hv_original_image_url] in I.
  assert (Hts : exists ts, match hi_timestamp item with
                           | TsFalsy => Some now | TsDate ms => Some ms
                           | TsInvalid => None end = Some ts /\
                           ts = stored_timestamp now item).
  { unfold stored_timestamp. destruct (hi_timestamp item); eauto.
    cbn [bind] in I. discriminate. }
  destruct Hts as (ts & Ets & Hts). rewrite Ets in I. cbn [bind] in I.
  apply bind_ok in I as [width [_ I]].
  apply bind_ok in I as [height [_ I]].
  apply bind_ok in I as [user_id [Hu I]].
  apply bind_ok in I as [item_id [Hi I]].
  apply bind_ok in I as [frame_id [_ I]].
  apply bind_ok in I as [frame_name [_ I]].
  apply bind_ok in I as [quality [_ I]].
  apply bind_ok in I as [user_id' [Hu' I]].
  apply bind_ok in I as [item_id' [Hi' I]].
  apply bind_ok in I as [prompt [Hp I]].
  apply not_null_ok in Hu', Hi', Hp. subst user_id item_id.
  cbn [varchar_null] in Hu.
  destruct (varchar 255 userId) as [u'|] eqn:Eu; cbn [bind] in Hu; [|discriminate].
  injection Hu as ->.
  apply varchar_null_some in Hi as (s & Hs & Hsi).
  injection I as <-. cbn [user_history].
  eexists. exists item_id', prompt,
    {| uh_id := user_history_id_seq d; uh_user_id := user_id';
       uh_item_id := item_id'; uh_prompt := prompt;
       uh_image_url := param (hi_imageUrl item);
       uh_original_image_url := param (hi_originalImageUrl item);
       uh_frame_id := frame_id; uh_frame_name := frame_name;
       uh_timestamp := ts; uh_quality := quality;
       uh_width := width; uh_height := height; uh_created_at := now |}.
  cbn [uh_id uh_user_id uh_item_id uh_prompt uh_image_url uh_original_image_url
       uh_timestamp user_history].
  subst ts. split; [reflexivity|].
  repeat split; try reflexivity; try assumption.
  unfold stored_item_id. rewrite Hs, Hsi. reflexivity.
Qed.

Lemma matching_no_pattern d userId :
  matching d userId None = user_rows d userId.
Proof.
  unfold matching, user_rows. apply filter_ext. intros r. apply andb_true_r.
Qed.

Lemma in_listing d userId r :
  In r (user_history d) -> uh_user_id r = userId ->
  In (format_row r) (listing d userId EmptyString).
Proof.
  intros Hin Hu. unfold listing. apply in_map.
  eapply Permutation_in; [apply Permutation_sym, order_by_timestamp_desc_perm|].
  apply matching_spec. cbn. auto.
Qed.

(** X16. When the user id has at most 255 characters, no other user
    holds a row with the item id of the request, and the append answers with
    a count of at most 50, the record is listed afterwards: the limit=all
    listing of the user has totalItems equal to that count and contains an
    entry with the id, prompt, image URLs and the stored timestamp of the
    request. *)
Theorem append_then_list :
  forall now d userId historyItem d' total i,
    (String.length userId <= 255)%nat ->
    PgServer.post_history now d userId historyItem = (d', json (Saved total)) ->
    (total <= 50)%Z ->
    stored_item_id historyItem = Some i ->
    (forall r, In r (user_history d) -> uh_item_id r = i -> uh_user_id r = userId) ->
    exists items totalPages entry,
      PgServer.get_history d' userId
        {| q_page := Some 0%Z; q_limit := LimitAll; q_search := EmptyString |} =
        json (HistoryPage items totalPages (Some 0%Z) total) /\
      In entry items /\
      e_id entry = i /\
      Some (e_prompt entry) = param (hi_prompt historyItem) /\
      e_imageUrl entry = param (hi_imageUrl historyItem) /\
      e_originalImageUrl entry = param (hi_originalImageUrl historyItem) /\
      e_timestamp entry = stored_timestamp now historyItem.
Proof.
  intros now d userId item d' total i Hlen Hpost Hcap Hi Hown.
  apply post_history_stored in Hpost
    as (d1 & i' & prompt & row & _ & -> & Htot & Hi' & Hp & Hu & _ & Hri & Hrp
        & Hrim & Hro & Hrts & Hrows).
  rewrite Hi in Hi'. injection Hi' as <-.
  rewrite (varchar_fits _ _ Hlen) in Hu. injection Hu as Hu.
  assert (Hnoop : user_history (delete_beyond_limit d1 userId userId) = user_history d1)
    by (apply delete_noop; lia).
  assert (Hcount : count_user_history (delete_beyond_limit d1 userId userId) userId = total).
  { unfold count_user_history. rewrite Hnoop. symmetry. exact Htot. }
  assert (Hrow : exists r, In r (user_history d1) /\ uh_user_id r = userId /\
                   uh_item_id r = i /\ uh_prompt r = prompt /\
                   uh_image_url r = param (hi_imageUrl item) /\
                   uh_original_image_url r = param (hi_originalImageUrl item) /\
                   uh_timestamp r = stored_timestamp now item).
  { rewrite Hrows. destruct (existsb (has_item i) (user_history d)) eqn:E.
    - apply existsb_exists in E as (r0 & Hin0 & Hit0).
      unfold has_item in Hit0. apply String.eqb_eq in Hit0.
      eexists. split; [apply in_map; exact Hin0|].
      unfold on_conflict_update. rewrite Hit0, String.eqb_refl.
      cbn. repeat split; auto.
    - exists row. split; [apply in_or_app; right; left; reflexivity|].
      repeat split; auto. }
  destruct Hrow as (r & Hin & Hru & Hrid & Hrprompt & Hrimg & Hrorig & Hrtime).
  rewrite get_history_all.
  assert (Hlist : Z.of_nat (List.length
                    (listing (delete_beyond_limit d1 userId userId) userId EmptyString))
                  = total).
  { unfold listing. rewrite length_map.
    rewrite (Permutation_length (order_by_timestamp_desc_perm _)).
    change (search_pattern EmptyString) with (@None string).
    rewrite matching_no_pattern. exact Hcount. }
  rewrite Hlist.
  eexists _, _, (format_row r). split; [reflexivity|]. split.
  - apply in_listing; [rewrite Hnoop; exact Hin | exact Hru].
  - cbn [format_row e_id e_prompt e_imageUrl e_originalImageUrl e_timestamp].
    rewrite Hp, Hrprompt. auto.
Qed.

(** X17. Re-submitting a stored item id overwrites prompt,
    image URLs and timestamp of that row and keeps its serial id, its owner,
    frame, quality, size and creation time; the number of rows is the same. *)
Theorem resubmission_keeps_other_columns :
  forall now d userId historyItem d' total r0,
    well_formed d ->
    In r0 (user_history d) ->
    stored_item_id historyItem = Some (uh_item_id r0) ->
    (count_user_history d userId <= 50)%Z ->
    PgServer.post_history now d userId historyItem = (d', json (Saved total)) ->
    exists prompt,
      param (hi_prompt historyItem) = Some prompt /\
      In {| uh_id := uh_id r0;
            uh_user_id := uh_user_id r0;
            uh_item_id := uh_item_id r0;
            uh_prompt := prompt;
            uh_image_url := param (hi_imageUrl historyItem);
            uh_original_image_url := param (hi_originalImageUrl historyItem);
            uh_frame_id := uh_frame_id r0;
            uh_frame_name := uh_frame_name r0;
            uh_timestamp := stored_timestamp now historyItem;
            uh_quality := uh_quality r0;
            uh_width := uh_width r0;
            uh_height := uh_height r0;
            uh_created_at := uh_created_at r0 |}
         (user_history d') /\
      List.length (user_history d') = List.length (user_history d).
Proof.
  intros now d userId item d' total r0 Hwf Hin Hi Hc Hpost.
  apply post_history_stored in Hpost
    as (d1 & i' & prompt & row & _ & -> & Htot & Hi' & Hp & _ & _ & _ & _ & _ & _
        & _ & Hrows).
  rewrite Hi in Hi'. injection Hi' as <-.
  assert (E : existsb (has_item (uh_item_id r0)) (user_history d) = true).
  { apply existsb_exists. exists r0. split; [exact Hin|].
    unfold has_item. apply String.eqb_refl. }
  rewrite E in Hrows.
  assert (Hnoop : user_history (delete_beyond_limit d1 userId userId) = user_history d1).
  { apply delete_noop. rewrite (count_map_update _ _ _ _ _ _ _ userId Hrows). exact Hc. }
  exists prompt. split; [exact Hp|]. rewrite Hnoop, Hrows. split.
  - apply in_map_iff. exists r0. split; [|exact Hin].
    unfold on_conflict_update. rewrite String.eqb_refl. reflexivity.
  - apply length_map.
Qed.

(* ====================================================================== *)
(** * Other users, the cap, and flat files *)
(* ====================================================================== *)

Lemma on_conflict_update_other i p a b t r :
  uh_item_id r <> i -> on_conflict_update i p a b t r = r.
Proof.
  intros H. unfold on_conflict_update.
  destruct (String.eqb_spec (uh_item_id r) i); [contradiction|reflexivity].
Qed.

Lemma in_delete_other d u r :
  uh_user_id r <> u ->
  (In r (user_history (delete_beyond_limit d u u)) <-> In r (user_history d)).
Proof.
  intros H. unfold delete_beyond_limit. cbn [user_history].
  rewrite filter_In. unfold of_user.
  destruct (String.eqb_spec (uh_user_id r) u); [contradiction|].
  cbn [andb negb]. tauto.
Qed.

(** X18. An append neither adds nor removes a row of another
    user, as long as that row does not carry the item id of the request. *)
Theorem append_leaves_other_users_alone :
  forall now d userId historyItem r,
    uh_user_id r <> userId ->
    Some (uh_item_id r) <> stored_item_id historyItem ->
    (In r (user_history (fst (PgServer.post_history now d userId historyItem)))
     <-> In r (user_history d)).
Proof.
  intros now d userId item r Hu Hi.
  destruct (PgServer.post_history now d userId item) as [d' resp] eqn:H.
  cbn [fst]. unfold PgServer.post_history in H.
  destruct (insert_user_history _ _ _) as [d1|err] eqn:I.
  - assert (Hpost : PgServer.post_history now d userId item =
                    (d', json (Saved (count_user_history d1 userId)))).
    { unfold PgServer.post_history. rewrite I. injection H as <- _. reflexivity. }
    apply post_history_stored in Hpost
      as (d1' & i & prompt & row & _ & -> & _ & Hsi & _ & _ & _ & Hri & _ & _ & _
          & _ & Hrows).
    rewrite Hsi in Hi.
    rewrite (in_delete_other _ _ _ Hu), Hrows.
    destruct (existsb (has_item i) (user_history d)).
    + rewrite in_map_iff. split.
      * intros (x & Hx & Hin).
        destruct (String.eqb_spec (uh_item_id x) i) as [E|E].
        -- exfalso. apply Hi. rewrite <- Hx, on_conflict_update_item, E. reflexivity.
        -- rewrite (on_conflict_update_other _ _ _ _ _ _ E) in Hx. subst x. exact Hin.
      * intros Hin. exists r. split; [|exact Hin].
        apply on_conflict_update_other. congruence.
    + rewrite in_app_iff. split; [|auto].
      intros [Hin | [<- | []]]; [exact Hin|].
      exfalso. apply Hi. rewrite Hri. reflexivity.
  - injection H as <- _. tauto.
Qed.

Lemma filter_same_length {A} (f : A -> bool) l :
  List.length (filter f l) = List.length l -> filter f l = l.
Proof.
  intros H. apply forallb_filter_id. apply filter_length_forallb. exact H.
Qed.

Lemma NoDup_firstn_skipn_disjoint {A B} (g : A -> B) n (l : list A) x :
  NoDup (map g l) -> In x (firstn n l) -> In x (skipn n l) -> False.
Proof.
  intros ND H1 H2. rewrite <- (firstn_skipn n l), map_app in ND.
  revert ND H1. generalize (firstn n l). intros K ND H1.
  induction K as [|k K IH]; [contradiction|].
  cbn [map app] in ND. apply NoDup_cons_iff in ND as [Hk ND].
  destruct H1 as [-> | H1]; [|auto].
  apply Hk. apply in_or_app. right. apply in_map. exact H2.
Qed.

Section AtTheCap.

Variables (now : Z) (d : database) (userId : string) (historyItem : history_item).
Variables (d' : database) (total : Z).

Hypothesis wf : well_formed d.
Hypothesis short : (String.length userId <= 255)%nat.
Hypothesis full : count_user_history d userId = 50%Z.
Hypothesis fresh : fresh_item d historyItem.
Hypothesis posted :
  PgServer.post_history now d userId historyItem = (d', json (Saved total)).

(** The rows of the user after the upsert are the old ones and the new
    one, 51 with distinct ids; ordered newest first, the first 50 stay. *)
Lemma at_the_cap :
  exists row S,
    uh_timestamp row = stored_timestamp now historyItem /\
    stored_item_id historyItem = Some (uh_item_id row) /\
    total = 51%Z /\
    Permutation S (user_rows d userId ++ [row]) /\
    NoDup (map uh_id S) /\
    StronglySorted newer_or_equal S /\
    List.length S = 51%nat /\
    user_rows d' userId =
      filter (id_in (map uh_id (firstn 50 S))) (user_rows d userId ++ [row]) /\
    Permutation (user_rows d' userId) (firstn 50 S).
Proof.
  pose proof posted as H.
  apply post_history_stored in H
    as (d1 & i & prompt & row & Hins & Hd' & Htot & Hsi & _ & Hu & _ & Hri & _ & _
        & _ & Hrts & Hrows).
  rewrite (varchar_fits _ _ short) in Hu. injection Hu as Hu.
  pose proof (insert_preserves_well_formed _ _ _ _ wf Hins) as (Hid & _).
  assert (E : existsb (has_item i) (user_history d) = false).
  { destruct (existsb _ _) eqn:E; [|reflexivity].
    apply existsb_exists in E as (r & Hr1 & Hr2). exfalso.
    apply (fresh r Hr1). rewrite Hsi. unfold has_item in Hr2.
    apply String.eqb_eq in Hr2. congruence. }
  rewrite E in Hrows.
  assert (HU1 : user_rows d1 userId = user_rows d userId ++ [row]).
  { unfold user_rows. rewrite Hrows, filter_app. cbn [filter].
    unfold of_user at 2. rewrite <- Hu, String.eqb_refl. reflexivity. }
  exists row, (order_by_timestamp_desc (user_rows d1 userId)).
  assert (P : Permutation (order_by_timestamp_desc (user_rows d1 userId))
                          (user_rows d1 userId))
    by apply order_by_timestamp_desc_perm.
  assert (L : List.length (user_rows d1 userId) = 51%nat).
  { rewrite HU1, length_app. cbn [List.length].
    rewrite count_as_rows in full. lia. }
  split; [exact Hrts|]. split; [rewrite Hsi, Hri; reflexivity|].
  split; [rewrite Htot, count_as_rows, L; reflexivity|].
  split; [rewrite <- HU1; exact P|].
  split.
  { eapply Permutation_NoDup; [apply Permutation_map, Permutation_sym, P|].
    apply NoDup_map_filter. exact Hid. }
  split; [apply order_by_timestamp_desc_sorted|].
  split; [rewrite (Permutation_length P); exact L|].
  split.
  - rewrite Hd', user_rows_delete, HU1. reflexivity.
  - rewrite Hd'. apply retained_perm. exact Hid.
Qed.

(** X19. At 50 records a new item is reported as 51. If its timestamp
    is older than all 50, it is the one deleted and the user's rows are as
    before; if some stored row is older, the new item stays. *)
Theorem append_at_cap_by_timestamp :
  total = 51%Z /\
  ((forall r, In r (user_rows d userId) ->
              (stored_timestamp now historyItem < uh_timestamp r)%Z) ->
   user_rows d' userId = user_rows d userId) /\
  ((exists r, In r (user_rows d userId) /\
              (uh_timestamp r < stored_timestamp now historyItem)%Z) ->
   exists row, In row (user_rows d' userId) /\
               stored_item_id historyItem = Some (uh_item_id row) /\
               uh_timestamp row = stored_timestamp now historyItem).
Proof.
  destruct at_the_cap
    as (row & S & Hts & Hsi & Htot & P & ND & Sorted & L & Hfilter & Pkept).
  destruct (skipn_singleton 50 S L) as [y Hy].
  assert (HS : S = firstn 50 S ++ [y]) by (rewrite <- Hy, firstn_skipn; reflexivity).
  assert (Hy_in : In y (skipn 50 S)) by (rewrite Hy; left; reflexivity).
  assert (Hrow_in : In row S).
  { eapply Permutation_in; [apply Permutation_sym, P|].
    apply in_or_app. right. left. reflexivity. }
  split; [exact Htot|]. split.
  - intros Holder.
    assert (Hy_row : y = row).
    { rewrite HS in Hrow_in. apply in_app_or in Hrow_in as [Hk | [E | []]];
        [|exact E]. exfalso.
      assert (Hyu : In y (user_rows d userId)).
      { assert (Hy' : In y (user_rows d userId ++ [row])).
        { eapply Permutation_in; [exact P|]. eapply in_skipn. exact Hy_in. }
        apply in_app_or in Hy' as [Hy' | [E | []]]; [exact Hy'|].
        subst y. exfalso.
        eapply (NoDup_firstn_skipn_disjoint uh_id 50 S row); eassumption. }
      pose proof (sorted_firstn_skipn S Sorted 50 row y Hk Hy_in) as Hle.
      unfold newer_or_equal in Hle. specialize (Holder y Hyu). lia. }
    subst y.
    assert (Hrow_out : id_in (map uh_id (firstn 50 S)) row = false).
    { destruct (id_in _ row) eqn:Hid; [|reflexivity]. exfalso.
      apply id_in_spec in Hid. apply in_map_iff in Hid as (x & Hx & Hin).
      rewrite HS, map_app in ND. cbn [map] in ND.
      apply NoDup_remove_2 in ND. apply ND. rewrite app_nil_r.
      rewrite <- Hx. apply in_map. exact Hin. }
    rewrite Hfilter, filter_app. cbn [filter]. rewrite Hrow_out, app_nil_r.
    apply filter_same_length.
    assert (Lk : List.length (user_rows d' userId) = 50%nat).
    { rewrite (Permutation_length Pkept), length_firstn. lia. }
    rewrite Hfilter, filter_app in Lk. cbn [filter] in Lk.
    rewrite Hrow_out, app_nil_r in Lk. rewrite Lk.
    rewrite count_as_rows in full. lia.
  - intros (r & Hr & Hlt). exists row. split; [|split; [exact Hsi | exact Hts]].
    eapply Permutation_in; [apply Permutation_sym, Pkept|].
    rewrite HS in Hrow_in. apply in_app_or in Hrow_in as [Hk | [E | []]];
      [exact Hk|]. exfalso. subst y.
    assert (Hr_S : In r S).
    { eapply Permutation_in; [apply Permutation_sym, P|].
      apply in_or_app. left. exact Hr. }
    rewrite HS in Hr_S. apply in_app_or in Hr_S as [Hk | [E | []]].
    + pose proof (sorted_firstn_skipn S Sorted 50 r row Hk Hy_in) as Hle.
      unfold newer_or_equal in Hle. lia.
    + subst r. lia.
Qed.

End AtTheCap.

(* ---------- flat files ---------- *)

Lemma slice_from_start {A} (l : list A) n :
  (0 <= n)%Z -> slice l (Some 0%Z) (Some n) = firstn (Z.to_nat n) l.
Proof.
  intros Hn. unfold slice, rel_index.
  destruct (Z.ltb_spec n 0); [lia|]. cbn [Z.ltb Z.compare].
  rewrite (Z.min_l 0) by lia. cbn [Z.to_nat skipn]. rewrite Z.sub_0_r.
  destruct (Z.min_spec n (Z.of_nat (List.length l))) as [[_ ->] | [Hle ->]].
  - reflexivity.
  - rewrite Nat2Z.id, firstn_all. symmetry. apply firstn_all2. lia.
Qed.

(** X20. For user ids that name a file of their own in history-data (no
    [/], at most 250 characters): after a flat-file append the first page of
    the user, for a limit n >= 1 and no search, starts with the new record,
    with totals over the at most 200 kept records; the listings of the other
    such users are unchanged. *)
Theorem file_append_then_list :
  forall fs userId historyItem n,
    FileServer.file_name_ok userId = true ->
    (0 < n)%Z ->
    let fs' := fst (FileServer.post_history fs userId historyItem) in
    (exists rest,
        FileServer.get_history fs' userId
          {| q_page := Some 0%Z; q_limit := LimitNum n; q_search := EmptyString |} =
        json (FilePage (historyItem :: rest)
                (ceil_div (Z.of_nat (List.length
                             (firstn 200 (historyItem ::
                                            FileServer.readHistory fs userId))))
                          (Some n))
                (Some 0%Z)
                (Z.of_nat (List.length
                   (firstn 200 (historyItem :: FileServer.readHistory fs userId)))))) /\
    (forall other q, FileServer.file_name_ok other = true -> other <> userId ->
        FileServer.get_history fs' other q = FileServer.get_history fs other q).
Proof.
  intros fs userId item n _ Hn. cbv zeta. split.
  - unfold FileServer.get_history. rewrite file_post_history_read.
    cbn [q_search q_limit q_page parseInt_limit mul add truthy String.eqb negb].
    cbn [Z.mul Z.add]. rewrite slice_from_start by lia.
    destruct (Z.to_nat n) as [|k] eqn:E; [lia|].
    cbn [firstn]. eexists. reflexivity.
  - intros other q _ Hne. unfold FileServer.get_history, FileServer.readHistory,
      FileServer.post_history, FileServer.writeFile. cbn [fst].
    apply String.eqb_neq in Hne. rewrite Hne. reflexivity.
Qed.

(* ====================================================================== *)
(** * The admin listing *)
(* ====================================================================== *)







Lemma order_latest_last rows row :
  (forall x, In x rows -> (lu_activated_at x < lu_activated_at row)%Z) ->
  order_by_activated_at_desc (rows ++ [row]) =
  row :: order_by_activated_at_desc rows.
Proof.
  induction rows as [|a rows IH]; intros H; [reflexivity|].
  cbn [app order_by_activated_at_desc fold_right].
  change (fold_right insert_by_activation [] (rows ++ [row]))
    with (order_by_activated_at_desc (rows ++ [row])).
  rewrite IH by (intros x Hx; apply H; right; exact Hx).
  cbn [insert_by_activation].
  assert (E : (lu_activated_at row <=? lu_activated_at a)%Z = false).
  { apply Z.leb_gt. apply H. left. reflexivity. }
  rewrite E. reflexivity.
Qed.

(** X22. A redemption granted later than all stored ones heads
    the first page of the admin listing, and totalItems has grown by one. *)
Theorem admin_lists_new_redemption_first :
  forall field e now w b w1 r n,
    post_verify_license e now w b = (w1, Responded r) ->
    is_granted r = true ->
    (forall x, In x (license_usage (db w)) -> (lu_activated_at x < now)%Z) ->
    (0 < n <= 9223372036854775807)%Z ->
    exists entry rest totalPages,
      get_admin_licenses field (db w1) (Some 0%Z) (Some n) =
        LicensesPage (entry :: rest)
          (Z.of_nat (List.length (license_usage (db w))) + 1)
          totalPages (Some 0%Z) /\
      varchar 255 (toString (vl_licenseKey b)) = Ok (le_license_key entry) /\
      varchar 255 (toString (vl_userId b)) = Ok (le_user_id entry) /\
      le_activated_at entry = now /\
      le_status entry = "active".
Proof.
  intros field e now w b w1 r n H G Hold Hn.
  destruct (post_verify_license_grant e now w b w1 r H) as [_ Hg].
  destruct (Hg G) as (_ & _ & row & Hrows & Hkey & Huser & _ & Hnow & Hst & _).
  assert (Hok : paging_ok 0 n) by (unfold paging_ok; lia).
  unfold get_admin_licenses. cbn [mul].
  rewrite (limit_offset_ok _ _ _ Hok). cbn [Z.mul Z.to_nat skipn].
  rewrite Hrows, order_latest_last by (intros x Hx; rewrite Hnow; auto).
  destruct (Z.to_nat n) as [|k] eqn:E; [lia|].
  cbn [firstn map]. rewrite length_app. cbn [List.length].
  eexists _, _, _. split.
  - f_equal. lia.
  - cbn [license_columns le_license_key le_user_id le_activated_at le_status].
    auto.
Qed.

(* ====================================================================== *)
(** * Sequences of requests *)
(* ====================================================================== *)

Import Samples.

(** X3. After an update-frame that hit, the listing of the user shows the
    item with the new frameId; its prompt and timestamp are those it had. *)
Theorem update_frame_then_list :
  forall d userId b r0,
    well_formed d ->
    truthy (uf_itemId b) = true ->
    truthy (uf_frameId b) = true ->
    (String.length (toString (uf_frameId b)) <= 255)%nat ->
    In r0 (user_history d) ->
    uh_user_id r0 = userId ->
    uh_item_id r0 = toString (uf_itemId b) ->
    exists entry,
      In entry (listing (fst (post_update_frame d userId b)) userId EmptyString) /\
      e_id entry = toString (uf_itemId b) /\
      e_frameId entry = Some (toString (uf_frameId b)) /\
      e_prompt entry = uh_prompt r0 /\
      e_timestamp entry = uh_timestamp r0.
Proof.
  intros d userId b r0 Hwf Hi Hf Hlen Hin Hu Hitem.
  destruct (post_update_frame_hit d userId b r0 Hwf Hi Hf Hlen Hin Hu Hitem)
    as (d' & E & (before & after & _ & Hrows) & _).
  rewrite E. cbn [fst].
  eexists. split.
  - apply in_listing; [rewrite Hrows; apply in_or_app; right; left; reflexivity|].
    exact Hu.
  - cbn. auto.
Qed.

Lemma run_appends_invariant requests :
  forall d,
    Forall (fun req => (String.length (snd (fst req)) <= 255)%nat) requests ->
    well_formed d ->
    (forall u, (count_user_history d u <= 50)%Z) ->
    well_formed (run_appends requests d) /\
    forall u, (count_user_history (run_appends requests d) u <= 50)%Z.
Proof.
  induction requests as [|[[now userId] item] rest IH]; intros d Hall Hwf Hcap.
  - split; assumption.
  - cbn [run_appends]. apply Forall_cons_iff in Hall as [Hlen Hall].
    cbn [fst snd] in Hlen. apply IH.
    + exact Hall.
    + apply post_history_well_formed. exact Hwf.
    + apply post_history_keeps_cap; assumption.
Qed.

(** X23. Starting from empty tables, no sequence of appends takes any user
    beyond 50 stored records, and item ids and serial ids stay unique. *)
Theorem appends_keep_cap :
  forall requests,
    Forall (fun req => (String.length (snd (fst req)) <= 255)%nat) requests ->
    well_formed (run_appends requests Pg.empty) /\
    forall u, (count_user_history (run_appends requests Pg.empty) u <= 50)%Z.
Proof.
  intros requests Hall. apply run_appends_invariant.
  - exact Hall.
  - apply well_formed_empty.
  - intros u. cbn. lia.
Qed.

(** X24. An append whose id or prompt is null or undefined answers 500
    in the database variant and stores nothing. *)
Theorem append_without_id_or_prompt :
  forall now d userId historyItem,
    param (hi_id historyItem) = None \/ param (hi_prompt historyItem) = None ->
    exists err,
      PgServer.post_history now d userId historyItem =
        (d, {| status := 500;
               payload := ErrorBody "Failed to save history" (Some err) |}).
Proof.
  intros now d userId item H.
  exact (pg_post_history_missing_field now d userId item H).
Qed.

(* ====================================================================== *)
(** * Instances *)
(* ====================================================================== *)

Lemma update_frame_sets_one_row_witness :
  snd (post_update_frame (filled 2) "user-1" frame_request) =
    {| status := 200;
       payload := FrameUpdated "Updated frameId for item item-1" 1 |}.
Proof.
  assert (Hin : In first_row (user_history (filled 2)))
    by (vm_compute; left; reflexivity).
  assert (Hlen : (String.length (toString (uf_frameId frame_request)) <= 255)%nat)
    by (vm_compute; lia).
  destruct (update_frame_sets_one_row (filled 2) "user-1" frame_request first_row
              (filled_well_formed 2) eq_refl eq_refl Hlen Hin eq_refl eq_refl)
    as (d' & E & _).
  rewrite E. reflexivity.
Defined.

Lemma update_frame_unknown_item_witness :
  post_update_frame (filled 2) "user-2" frame_request =
    (filled 2,
     {| status := 404;
        payload := FrameNotFound
          "No history item found with id item-1 for user user-2" |}).
Proof.
  assert (Hlen : (String.length (toString (uf_frameId frame_request)) <= 255)%nat)
    by (vm_compute; lia).
  assert (Hnone : forall r, In r (user_history (filled 2)) ->
            ~ (uh_user_id r = "user-2" /\
               uh_item_id r = toString (uf_itemId frame_request))).
  { intros r Hr [Hu _]. vm_compute in Hr.
    destruct Hr as [<- | [<- | []]]; discriminate Hu. }
  exact (update_frame_unknown_item (filled 2) "user-2" frame_request
           eq_refl eq_refl Hlen Hnone).
Defined.

Lemma update_frame_then_list_witness :
  exists entry,
    In entry (listing (fst (post_update_frame (filled 2) "user-1" frame_request))
                      "user-1" EmptyString) /\
    e_id entry = "item-1" /\ e_frameId entry = Some "frame-9".
Proof.
  assert (Hin : In first_row (user_history (filled 2)))
    by (vm_compute; left; reflexivity).
  assert (Hlen : (String.length (toString (uf_frameId frame_request)) <= 255)%nat)
    by (vm_compute; lia).
  destruct (update_frame_then_list (filled 2) "user-1" frame_request first_row
              (filled_well_formed 2) eq_refl eq_refl Hlen Hin eq_refl eq_refl)
    as (entry & H1 & H2 & H3 & _).
  exists entry. split; [exact H1|]. split; [exact H2 | exact H3].
Defined.

Lemma first_redemption :
  post_verify_license gumroad_ok 1000 fresh_world first_request =
    (redeemed_world, Responded granted_creator).
Proof. vm_compute. reflexivity. Qed.

Lemma first_request_passes : passes_lookup gumroad_ok fresh_world first_request.
Proof. repeat split. Qed.

Lemma redeem_writes_only_on_grant_witness :
  exists row,
    license_usage (db redeemed_world) = license_usage (db fresh_world) ++ [row] /\
    lu_activated_at row = 1000%Z /\ lu_status row = "active".
Proof.
  destruct (redeem_writes_only_on_grant gumroad_ok 1000 fresh_world first_request
              redeemed_world granted_creator first_redemption) as [_ H].
  destruct (H eq_refl) as (_ & _ & row & H1 & _ & _ & _ & H2 & H3 & _).
  exists row. split; [exact H1|]. split; [exact H2 | exact H3].
Defined.

Lemma redeem_not_confirmed_witness :
  post_verify_license gumroad_rejects 1000 fresh_world first_request =
    (asked fresh_world first_request,
     Responded {| status := 200;
                  payload := LicenseRefused (JStr "That license does not exist.")
                                            false |}).
Proof.
  assert (P : passes_lookup gumroad_rejects fresh_world first_request)
    by (repeat split).
  assert (N : ~ confirms gumroad_rejects first_request).
  { intros (m & p & H). vm_compute in H. discriminate H. }
  exact (redeem_not_confirmed gumroad_rejects 1000 fresh_world first_request P N).
Defined.

Lemma redeem_known_product_witness :
  snd (post_verify_license gumroad_ok 1000 fresh_world first_request) =
    Responded {| status := 200;
                 payload := LicenseGranted (Some "{}") (JStr "creator")
                                           (JNum 130) (JNum 130) |}.
Proof.
  assert (Lk : (String.length (toString (vl_licenseKey first_request)) <= 255)%nat)
    by (vm_compute; lia).
  assert (Lu : (String.length (toString (vl_userId first_request)) <= 255)%nat)
    by (vm_compute; lia).
  assert (Hin : In (toString (vl_productId first_request), ("creator", 130%Z))
                   [ ("2FqGqjM16Jjs0NDRtncN4g==", ("starter", 50%Z));
                     ("wIY3NX2VLnJ48nTz0ZVTIA==", ("creator", 130%Z));
                     ("711rWT3AqbdSnNL0p9MxIw==", ("pro", 300%Z)) ])
    by (right; left; reflexivity).
  rewrite (redeem_known_product gumroad_ok 1000 fresh_world first_request
             "creator" 130 JUndefined (Some "{}")
             first_request_passes eq_refl Hin Lk Lu).
  reflexivity.
Defined.

Lemma redeem_twice_witness :
  post_verify_license gumroad_ok 2000 redeemed_world second_request =
    (redeemed_world,
     Responded
       {| status := 200;
          payload :=
            LicenseRefused
              (JStr ("This license key has already been activated on 1000" ++
                     " by user user-1. Each license can only be used once."))
              true |}).
Proof.
  assert (ND : NoDup (map lu_license_key (license_usage (db fresh_world))))
    by constructor.
  assert (Lk : (String.length (toString (vl_licenseKey first_request)) <= 255)%nat)
    by (vm_compute; lia).
  assert (Lu : (String.length (toString (vl_userId first_request)) <= 255)%nat)
    by (vm_compute; lia).
  exact (redeem_twice gumroad_ok 1000 2000 fresh_world first_request redeemed_world
           granted_creator second_request ND first_redemption eq_refl Lk Lu
           eq_refl eq_refl eq_refl eq_refl).
Defined.


Lemma listing_shows_own_rows_only_witness :
  (1 <= count_user_history cat_and_dog "user-1")%Z.
Proof.
  assert (E : exists items,
             PgServer.get_history cat_and_dog "user-1" (search_for "cat") =
             json (HistoryPage items (Num 1) (Some 0%Z) 1)).
  { vm_compute. eexists. reflexivity. }
  destruct E as [items E].
  destruct (listing_shows_own_rows_only cat_and_dog "user-1" (search_for "cat")
              items (Num 1) (Some 0%Z) 1 E) as (_ & _ & H).
  exact H.
Defined.


Lemma search_ignores_case_witness :
  PgServer.get_history cat_and_dog "user-1" (with_search (search_for "cat") "CaT") =
    PgServer.get_history cat_and_dog "user-1" (search_for "cat") /\
  FileServer.get_history cat_and_dog_files "user-1"
    (with_search (search_for "cat") "CaT") =
    FileServer.get_history cat_and_dog_files "user-1" (search_for "cat").
Proof.
  exact (search_ignores_case cat_and_dog cat_and_dog_files "user-1"
           (search_for "cat") "CaT" eq_refl).
Defined.

Lemma third_append :
  PgServer.post_history 7 (filled 2) "user-1" (sample_item 3 "a green bird") =
    (fst (PgServer.post_history 7 (filled 2) "user-1" (sample_item 3 "a green bird")),
     json (Saved 3)).
Proof. vm_compute. reflexivity. Qed.

Lemma append_then_list_witness :
  exists items totalPages entry,
    PgServer.get_history
      (fst (PgServer.post_history 7 (filled 2) "user-1" (sample_item 3 "a green bird")))
      "user-1"
      {| q_page := Some 0%Z; q_limit := LimitAll; q_search := EmptyString |} =
      json (HistoryPage items totalPages (Some 0%Z) 3) /\
    In entry items /\ e_id entry = "item-3" /\ e_timestamp entry = 3%Z.
Proof.
  assert (Hlen : (String.length "user-1" <= 255)%nat) by (vm_compute; lia).
  assert (Hown : forall r, In r (user_history (filled 2)) ->
                   uh_item_id r = "item-3" -> uh_user_id r = "user-1").
  { intros r Hr _. vm_compute in Hr.
    destruct Hr as [<- | [<- | []]]; reflexivity. }
  assert (Hcap : (3 <= 50)%Z) by lia.
  destruct (append_then_list 7 (filled 2) "user-1" (sample_item 3 "a green bird")
              _ 3 "item-3" Hlen third_append Hcap eq_refl Hown)
    as (items & tp & entry & E & Hin & Hid & _ & _ & _ & Hts).
  exists items, tp, entry. repeat split; assumption.
Defined.

Lemma resubmission_keeps_other_columns_witness :
  exists prompt,
    param (hi_prompt (sample_item 1 "a blue dog")) = Some prompt /\
    List.length (user_history
      (fst (PgServer.post_history 7 (filled 2) "user-1" (sample_item 1 "a blue dog"))))
    = List.length (user_history (filled 2)).
Proof.
  assert (Hin : In first_row (user_history (filled 2)))
    by (vm_compute; left; reflexivity).
  assert (H : PgServer.post_history 7 (filled 2) "user-1" (sample_item 1 "a blue dog") =
              (fst (PgServer.post_history 7 (filled 2) "user-1"
                      (sample_item 1 "a blue dog")),
               json (Saved 2)))
    by (vm_compute; reflexivity).
  assert (Hc : (count_user_history (filled 2) "user-1" <= 50)%Z)
    by (vm_compute; discriminate).
  destruct (resubmission_keeps_other_columns 7 (filled 2) "user-1"
              (sample_item 1 "a blue dog") _ 2 first_row
              (filled_well_formed 2) Hin eq_refl Hc H)
    as (prompt & Hp & _ & Hl).
  exists prompt. split; [exact Hp | exact Hl].
Defined.

Lemma append_leaves_other_users_alone_witness :
  In first_row
     (user_history (fst (PgServer.post_history 7 (filled 2) "user-2"
                           (sample_item 9 "a kite")))) <->
  In first_row (user_history (filled 2)).
Proof.
  assert (Hu : uh_user_id first_row <> "user-2") by discriminate.
  assert (Hi : Some (uh_item_id first_row) <> stored_item_id (sample_item 9 "a kite"))
    by (vm_compute; discriminate).
  exact (append_leaves_other_users_alone 7 (filled 2) "user-2"
           (sample_item 9 "a kite") first_row Hu Hi).
Defined.


Lemma append_at_cap_by_timestamp_witness :
  user_rows (fst (PgServer.post_history 7 (filled 50) "user-1" old_item)) "user-1" =
  user_rows (filled 50) "user-1".
Proof.
  assert (Hlen : (String.length "user-1" <= 255)%nat) by (vm_compute; lia).
  assert (Hfull : count_user_history (filled 50) "user-1" = 50%Z)
    by (vm_compute; reflexivity).
  assert (Hfresh : fresh_item (filled 50) old_item).
  { unfold fresh_item. apply Forall_forall. vm_compute.
    repeat (constructor; [discriminate|]). constructor. }
  assert (H : PgServer.post_history 7 (filled 50) "user-1" old_item =
              (fst (PgServer.post_history 7 (filled 50) "user-1" old_item),
               json (Saved 51)))
    by (vm_compute; reflexivity).
  destruct (append_at_cap_by_timestamp 7 (filled 50) "user-1" old_item _ 51
              (filled_well_formed 50) Hlen Hfull Hfresh H) as (_ & Hold & _).
  apply Hold. apply Forall_forall. vm_compute.
  repeat (constructor; [reflexivity|]). constructor.
Defined.

Lemma file_append_then_list_witness :
  exists rest totalPages totalItems,
    FileServer.get_history
      (fst (FileServer.post_history (filled_files 2) "user-1"
              (sample_item 3 "a green bird")))
      "user-1"
      {| q_page := Some 0%Z; q_limit := LimitNum 10; q_search := EmptyString |} =
    json (FilePage (sample_item 3 "a green bird" :: rest) totalPages (Some 0%Z)
                   totalItems).
Proof.
  assert (Hn : (0 < 10)%Z) by lia.
  destruct (file_append_then_list (filled_files 2) "user-1"
              (sample_item 3 "a green bird") 10 eq_refl Hn) as [(rest & E) _].
  eexists rest, _, _. exact E.
Defined.


Lemma admin_lists_new_redemption_first_witness :
  exists entry rest totalPages,
    get_admin_licenses no_field (db redeemed_world) (Some 0%Z) (Some 50%Z) =
      LicensesPage (entry :: rest) 1 totalPages (Some 0%Z) /\
    le_activated_at entry = 1000%Z /\ le_status entry = "active".
Proof.
  assert (Hold : forall x, In x (license_usage (db fresh_world)) ->
                           (lu_activated_at x < 1000)%Z)
    by (intros x []).
  assert (Hn : (0 < 50 <= 9223372036854775807)%Z) by lia.
  destruct (admin_lists_new_redemption_first no_field gumroad_ok 1000 fresh_world
              first_request redeemed_world granted_creator 50
              first_redemption eq_refl Hold Hn)
    as (entry & rest & tp & E & _ & _ & Ha & Hs).
  exists entry, rest, tp. split; [exact E|]. split; [exact Ha | exact Hs].
Defined.

Lemma appends_keep_cap_witness :
  (count_user_history
     (run_appends [(1%Z, "user-1", sample_item 1 "a red cat");
                   (2%Z, "user-2", sample_item 1 "a blue dog")] Pg.empty)
     "user-1" <= 50)%Z.
Proof.
  assert (Hall : Forall (fun req => (String.length (snd (fst req)) <= 255)%nat)
                   [(1%Z, "user-1", sample_item 1 "a red cat");
                    (2%Z, "user-2", sample_item 1 "a blue dog")]).
  { repeat constructor; vm_compute; lia. }
  destruct (appends_keep_cap _ Hall) as [_ H].
  exact (H "user-1").
Defined.

Lemma append_without_id_or_prompt_witness :
  exists err,
    PgServer.post_history 0 (filled 2) "user-1" item_without_prompt =
      (filled 2, {| status := 500;
                    payload := ErrorBody "Failed to save history" (Some err) |}).
Proof.
  exact (append_without_id_or_prompt 0 (filled 2) "user-1" item_without_prompt
           (or_intror eq_refl)).
Defined.
